(** * Salesforce Implementation Tracker: a shallow embedding of [mcp_server.py]

    The development follows the layout of the Python module: the string
    built-ins the code relies on, the picklist tables, the decoded JSON
    values, the REST client with its one-shot re-authentication, the access
    control object, the helpers and finally the five tool operations.

    Conventions.
    - A Python [str] is a [string] whose characters are the code points
      U+0000 to U+00FF.
    - Effects (the HTTP session, the module globals, the clocks) are threaded
      through a [World]; every HTTP exchange and every client method call is
      appended to the world's [trace].
    - A Python exception is the [Raise] outcome of a computation. *)

From Stdlib Require Import ZArith QArith List String Ascii Bool Lia Lqa Arith.
From Stdlib Require Import DecimalString.
Import ListNotations.

Set Warnings "-register-all".

Open Scope string_scope.
Open Scope list_scope.
Open Scope nat_scope.

(** String concatenation, Python's [+] and the pieces of an f-string. *)
Infix "+++" := String.append (right associativity, at level 60).

(* ------------------------------------------------------------------ *)
(** * Python string built-ins *)
(* ------------------------------------------------------------------ *)

Module PyStr.

(** [str.isspace] on one character of the Latin-1 range: TAB..CR, FS..US,
    SPACE, NEL and NBSP. *)
Definition is_space (c : ascii) : bool :=
  let n := nat_of_ascii c in
  ((9 <=? n) && (n <=? 13)) || ((28 <=? n) && (n <=? 32))
  || (n =? 133) || (n =? 160).

(** Characters changed by [str.lower]: A..Z and the accented capitals
    U+00C0..U+00DE except the multiplication sign U+00D7. *)
Definition is_upper (c : ascii) : bool :=
  let n := nat_of_ascii c in
  ((65 <=? n) && (n <=? 90))
  || ((192 <=? n) && (n <=? 222) && negb (n =? 215)).

Definition lower_char (c : ascii) : ascii :=
  if is_upper c then ascii_of_nat (nat_of_ascii c + 32) else c.

(** Characters changed by [upper] below: a..z and the accented small
    letters U+00E0..U+00FE except the division sign U+00F7. *)
Definition is_lower (c : ascii) : bool :=
  let n := nat_of_ascii c in
  ((97 <=? n) && (n <=? 122))
  || ((224 <=? n) && (n <=? 254) && negb (n =? 247)).

Definition upper_char (c : ascii) : ascii :=
  if is_lower c then ascii_of_nat (nat_of_ascii c - 32) else c.

(** [s.upper()], on the characters whose capital stays in the Latin-1
    range; the other three (U+00B5, U+00DF, U+00FF) are left as they are.
    The code only tests the result for the prefix [SELECT], and none of
    their capitals can take part in that prefix. *)
Fixpoint upper (s : string) : string :=
  match s with
  | EmptyString => EmptyString
  | String c r => String (upper_char c) (upper r)
  end.

(** [s.lower()] *)
Fixpoint lower (s : string) : string :=
  match s with
  | EmptyString => EmptyString
  | String c r => String (lower_char c) (lower r)
  end.

(** [s.lstrip()] *)
Fixpoint lstrip (s : string) : string :=
  match s with
  | EmptyString => EmptyString
  | String c r => if is_space c then lstrip r else s
  end.

Definition is_empty (s : string) : bool :=
  match s with EmptyString => true | String _ _ => false end.

(** [s.rstrip()] *)
Fixpoint rstrip (s : string) : string :=
  match s with
  | EmptyString => EmptyString
  | String c r =>
      let r' := rstrip r in
      if is_space c && is_empty r' then EmptyString else String c r'
  end.

(** [s.strip()] *)
Definition strip (s : string) : string := rstrip (lstrip s).

(** [s.rstrip(ch)] for a one-character argument. *)
Fixpoint rstrip_char (ch : ascii) (s : string) : string :=
  match s with
  | EmptyString => EmptyString
  | String c r =>
      let r' := rstrip_char ch r in
      if Ascii.eqb c ch && is_empty r' then EmptyString else String c r'
  end.

(** [s.split(sep)] for a one-character separator: never the empty list. *)
Fixpoint split (sep : ascii) (s : string) : list string :=
  match s with
  | EmptyString => [EmptyString]
  | String c r =>
      if Ascii.eqb c sep then EmptyString :: split sep r
      else match split sep r with
           | hd :: tl => String c hd :: tl
           | [] => [String c EmptyString]
           end
  end.

(** [sep.join(parts)] *)
Definition join (sep : string) (parts : list string) : string :=
  String.concat sep parts.

(** [x in xs] for a list of strings. *)
Definition str_in (x : string) (xs : list string) : bool :=
  existsb (String.eqb x) xs.

(** [s.startswith(p)] *)
Definition startswith (p s : string) : bool := String.prefix p s.

(** [s[:n]] *)
Definition take (n : nat) (s : string) : string := String.substring 0 n s.

(** [c in s] for one character. *)
Fixpoint has_char (ch : ascii) (s : string) : bool :=
  match s with
  | EmptyString => false
  | String c r => Ascii.eqb c ch || has_char ch r
  end.

Definition squote : ascii := ascii_of_nat 39.
Definition dquote : ascii := ascii_of_nat 34.
Definition backslash : ascii := ascii_of_nat 92.

Definition hex_digit (n : nat) : ascii :=
  if n <? 10 then ascii_of_nat (48 + n) else ascii_of_nat (87 + n).

(** One character of [repr(s)], given the quote that was chosen. *)
Definition repr_char (quote c : ascii) : string :=
  let n := nat_of_ascii c in
  if Ascii.eqb c quote || Ascii.eqb c backslash
  then String backslash (String c EmptyString)
  else if n =? 9 then String backslash "t"
  else if n =? 10 then String backslash "n"
  else if n =? 13 then String backslash "r"
  else if (n <? 32) || ((127 <=? n) && (n <=? 160)) || (n =? 173)
  then String backslash
         (String "x" (String (hex_digit (n / 16))
                        (String (hex_digit (n mod 16)) EmptyString)))
  else String c EmptyString.

Fixpoint repr_body (quote : ascii) (s : string) : string :=
  match s with
  | EmptyString => EmptyString
  | String c r => repr_char quote c +++ repr_body quote r
  end.

(** [repr(s)]: single quotes unless the text holds a single quote and no
    double quote. *)
Definition repr (s : string) : string :=
  let quote :=
    if has_char squote s && negb (has_char dquote s) then dquote else squote in
  String quote (repr_body quote s +++ String quote EmptyString).

(** [repr(xs)], also what an f-string prints for a list of strings. *)
Definition repr_list (xs : list string) : string :=
  "[" +++ join ", " (map repr xs) +++ "]".

(** [str(n)] for an integer. *)
Definition of_Z (n : Z) : string := NilZero.string_of_int (Z.to_int n).

End PyStr.

(* ------------------------------------------------------------------ *)
(** * Picklist tables and configuration constants *)
(* ------------------------------------------------------------------ *)

Definition VALID_IMPLEMENTATION_STAGES : list string :=
  [ "00 - Kick Off Call"; "01 - Explore"; "02 - Planning"; "03 - In Progress";
    "04 - Final Review"; "05 - Complete"; "06 - Passive"; "07 - Paused";
    "08 - Unsuccessful" ].

Definition VALID_PROGRAM_HEALTH : list string :=
  [ "Healthy"; "Passive"; "Paused"; "Unresponsive"; "Risk"; "Churn";
    "High Risk" ].

Definition VALID_CONTRACT_TYPES : list string :=
  [ "Annual"; "Free Trial"; "Pay as you go" ].

Definition VALID_TYPES : list string :=
  [ "Join"; "Pure Migration"; "Join - Lite"; "Join - Quickstart"; "Other" ].

Definition VALID_MIGRATION_TYPES : list string :=
  [ "Customer Tooling"; "Dual-write and backfill"; "Parallel Copy";
    "pg_dump and pg_restore"; "NA"; "TS Tooling"; "Live Migration" ].

Definition VALID_FEATURES : list string :=
  [ "Read Replicas"; "HA Replicas"; "Data Tiering"; "Caggs"; "Compression";
    "Migration"; "Vector"; "Hypertables" ].

Definition VALID_PROJECT_TASKS : list string :=
  [ "CAGG"; "Case work"; "Compression"; "Connection Pooling"; "HA Replica";
    "Hypershift"; "Ingest"; "Internal Meetings - Non Customer";
    "Internal Testing"; "Migration"; "POC"; "Project Plan";
    "Query Optimization"; "Read Replica"; "Replica"; "Retention"; "CNS";
    "Sales"; "Sales Call"; "Schema Design"; "Security"; "Sizing";
    "Troubleshooting"; "VPC" ].

Definition VALID_PROJECT_TYPES : list string :=
  [ "Churn"; "Implementation"; "Internal Meetings"; "Join"; "Join - Lite";
    "Join - QS"; "Pre-Sales"; "Pre-Sales (Discover Call)"; "Projects";
    "Support"; "Training" ].

Definition VALID_RECORD_STAGES : list string :=
  [ "Trial"; "Pre-Production"; "Production" ].

Definition UPDATABLE_FIELDS : list string :=
  [ "Implementation_Stage__c"; "Program_Health__c"; "Type__c";
    "Contract_Type__c"; "Migration_Type__c"; "Features__c";
    "Contracted_Hours__c"; "Percent_Complete__c"; "In_Production__c";
    "Risks__c"; "Comments__c"; "Post_Mortem__c"; "Technical_Win__c";
    "Migration_Source__c"; "Support_Tier__c"; "Grafana__c"; "Project_Doc__c";
    "CDE__c"; "CSM__c"; "Customer_Start_Date__c"; "Kick_Off_Call__c";
    "Estimated_Graduation_Date__c"; "Production_Date__c";
    "Final_Review_Call__c"; "Next_Step_Date__c"; "X3_Month_Check_In__c";
    "Adjustment_Days__c"; "ARR_Start_of_Program__c"; "ARR_End_of_Program__c";
    "Hypertables_Start_of_Program__c"; "Hypertables_End_of_Program__c";
    "Caggs_Start_of_Program__c"; "Caggs_End_of_Program__c";
    "Compression_Ratio_Start_of_Program__c";
    "Compression_Ratio_End_of_Program__c"; "DUM_Start_of_Program__c";
    "DUM_End_of_Program__c"; "Number_of_Services_Start_of_Program__c";
    "Number_of_Services_End_of_Program__c"; "Tiered_Data_Start_of_Program__c";
    "Tiered_Data_End_of_Program__c"; "Contract__c"; "Billing_Category__c" ].

(** A Python [dict] with string keys, in insertion order. *)
Definition dict (V : Type) : Type := list (string * V).

Module Dict.

(** [d.get(k)] as an option; [k in d] is [lookup k d <> None]. *)
Fixpoint lookup {V} (k : string) (d : dict V) : option V :=
  match d with
  | [] => None
  | (k', v) :: r => if String.eqb k k' then Some v else lookup k r
  end.

Definition mem {V} (k : string) (d : dict V) : bool :=
  match lookup k d with Some _ => true | None => false end.

(** [d[k] = v]: replaces in place, or appends a new key at the end. *)
Fixpoint set {V} (k : string) (v : V) (d : dict V) : dict V :=
  match d with
  | [] => [(k, v)]
  | (k', v') :: r =>
      if String.eqb k k' then (k', v) :: r else (k', v') :: set k v r
  end.

(** [d.pop(k, None)], keeping only the dictionary. *)
Fixpoint remove {V} (k : string) (d : dict V) : dict V :=
  match d with
  | [] => []
  | (k', v') :: r =>
      if String.eqb k k' then r else (k', v') :: remove k r
  end.

(** [{**a, **b}] *)
Definition merge {V} (a b : dict V) : dict V :=
  fold_left (fun acc kv => set (fst kv) (snd kv) acc) b a.

Definition keys {V} (d : dict V) : list string := map fst d.

End Dict.

Definition PICKLIST_VALIDATORS : dict (list string) :=
  [ ("Implementation_Stage__c", VALID_IMPLEMENTATION_STAGES);
    ("Program_Health__c", VALID_PROGRAM_HEALTH);
    ("Contract_Type__c", VALID_CONTRACT_TYPES);
    ("Type__c", VALID_TYPES);
    ("Migration_Type__c", VALID_MIGRATION_TYPES) ].

Definition MULTIPICKLIST_VALIDATORS : dict (list string) :=
  [ ("Features__c", VALID_FEATURES) ].

Definition API_VERSION : string := "v62.0".
Definition MAX_CREATES_PER_WINDOW : nat := 5.
Definition CREATE_WINDOW_SECONDS : Z := 60.

(* ------------------------------------------------------------------ *)
(** * Picklist validation *)
(* ------------------------------------------------------------------ *)

Definition semicolon : ascii := ascii_of_nat 59.

(** [[v.strip() for v in value.split(";")]] *)
Definition split_parts (value : string) : list string :=
  map PyStr.strip (PyStr.split semicolon value).

(** [[p for p in parts if p not in valid]] *)
Definition invalid_parts (valid parts : list string) : list string :=
  filter (fun p => negb (PyStr.str_in p valid)) parts.

Definition picklist_error (field value : string) (valid : list string) : string :=
  "Invalid value '" +++ value +++ "' for " +++ field +++ ". Valid values: "
  +++ PyStr.join ", " valid.

Definition multipicklist_error (field : string) (invalid valid : list string)
  : string :=
  "Invalid value(s) " +++ PyStr.repr_list invalid +++ " for " +++ field
  +++ ". Valid values: " +++ PyStr.join ", " valid.

(** [validate_picklist]: [None] when the value is acceptable, otherwise the
    error message.  The two [if] blocks run one after the other, as in the
    source. *)
Definition validate_picklist (field value : string) : option string :=
  let single :=
    match Dict.lookup field PICKLIST_VALIDATORS with
    | Some valid =>
        if negb (PyStr.str_in value valid)
        then Some (picklist_error field value valid) else None
    | None => None
    end in
  match single with
  | Some err => Some err
  | None =>
      match Dict.lookup field MULTIPICKLIST_VALIDATORS with
      | Some valid =>
          match invalid_parts valid (split_parts value) with
          | [] => None
          | invalid => Some (multipicklist_error field invalid valid)
          end
      | None => None
      end
  end.

(* ------------------------------------------------------------------ *)
(** * Decoded JSON values and the Python operations applied to them *)
(* ------------------------------------------------------------------ *)

(** A Python number: an [int], or a [float] carried by its rational value. *)
Inductive number : Type :=
| NInt (n : Z)
| NFloat (q : Q).

Definition num_val (x : number) : Q :=
  match x with NInt n => inject_Z n | NFloat q => q end.

Definition num_eqb (x y : number) : bool := Qeq_bool (num_val x) (num_val y).

(** What [resp.json()] returns, and what a tool receives in [updates]. *)
Inductive json : Type :=
| JNull
| JBool (b : bool)
| JNum (x : number)
| JStr (s : string)
| JArr (xs : list json)
| JObj (kvs : list (string * json)).

Inductive exn : Type :=
| HTTPStatusError (status : Z)
| TransportError
| JSONDecodeError (msg : string)
| ValueError (msg : string)
| RuntimeError (msg : string)
| KeyError (key : json)
| IndexError
| TypeError
| AttributeError.

Inductive outcome (A : Type) : Type :=
| Ret (a : A)
| Raise (e : exn).
Arguments Ret {A} a.
Arguments Raise {A} e.

Module Py.

(** [bool(x)] *)
Definition truthy (j : json) : bool :=
  match j with
  | JNull => false
  | JBool b => b
  | JNum x => negb (num_eqb x (NInt 0))
  | JStr s => negb (PyStr.is_empty s)
  | JArr xs => match xs with [] => false | _ => true end
  | JObj kvs => match kvs with [] => false | _ => true end
  end.

Definition as_number (j : json) : option number :=
  match j with
  | JBool b => Some (NInt (if b then 1 else 0))
  | JNum x => Some x
  | _ => None
  end.

(** [a == b]: numbers and booleans compare by value, lists element by
    element, dictionaries key by key whatever the order. *)
Fixpoint eq (a b : json) : bool :=
  match a with
  | JNull => match b with JNull => true | _ => false end
  | JBool _ | JNum _ =>
      match as_number a, as_number b with
      | Some x, Some y => num_eqb x y
      | _, _ => false
      end
  | JStr s => match b with JStr t => String.eqb s t | _ => false end
  | JArr xs =>
      match b with
      | JArr ys =>
          (fix all2 (xs : list json) (ys : list json) : bool :=
             match xs, ys with
             | [], [] => true
             | x :: xs', y :: ys' => eq x y && all2 xs' ys'
             | _, _ => false
             end) xs ys
      | _ => false
      end
  | JObj kvs =>
      match b with
      | JObj kvs' =>
          (List.length kvs =? List.length kvs')
          && (fix every (kvs : list (string * json)) : bool :=
                match kvs with
                | [] => true
                | (k, v) :: r =>
                    match Dict.lookup k kvs' with
                    | Some v' => eq v v'
                    | None => false
                    end && every r
                end) kvs
      | _ => false
      end
  end.

(** [d.get(key, default)]; only a dictionary has the method. *)
Definition get (j : json) (key : string) (default : json) : outcome json :=
  match j with
  | JObj kvs =>
      Ret (match Dict.lookup key kvs with Some v => v | None => default end)
  | _ => Raise AttributeError
  end.

(** [x[key]] for a string key. *)
Definition getitem (j : json) (key : string) : outcome json :=
  match j with
  | JObj kvs =>
      match Dict.lookup key kvs with
      | Some v => Ret v
      | None => Raise (KeyError (JStr key))
      end
  | _ => Raise TypeError
  end.

(** [x[0]] *)
Definition first (j : json) : outcome json :=
  match j with
  | JArr (x :: _) => Ret x
  | JArr [] => Raise IndexError
  | JStr (String c _) => Ret (JStr (String c EmptyString))
  | JStr EmptyString => Raise IndexError
  | JObj _ => Raise (KeyError (JNum (NInt 0)))
  | _ => Raise TypeError
  end.

(** The elements a [for] loop visits. *)
Definition iter (j : json) : outcome (list json) :=
  match j with
  | JArr xs => Ret xs
  | JStr s =>
      Ret (map (fun c => JStr (String c EmptyString)) (list_ascii_of_string s))
  | JObj kvs => Ret (map (fun kv => JStr (fst kv)) kvs)
  | _ => Raise TypeError
  end.

(** [r.pop(key, None)], for its effect on [r]. *)
Definition pop (j : json) (key : string) : outcome (dict json) :=
  match j with
  | JObj kvs => Ret (Dict.remove key kvs)
  | JArr _ => Raise TypeError
  | _ => Raise AttributeError
  end.

End Py.

(* ------------------------------------------------------------------ *)
(** * The process, its environment and the effect monad *)
(* ------------------------------------------------------------------ *)

Inductive Payload : Type :=
| Params (params : dict string)
| JsonBody (data : dict json)
| FormData (data : dict string).

Record Request : Type := mkRequest {
  req_method : string;
  req_url : string;
  req_headers : dict string;
  req_payload : Payload
}.

(** The body of a response: decodable JSON, or text on which [resp.json()]
    fails with the given decoder message. *)
Inductive Body : Type :=
| BJson (j : json)
| BText (decode_error : string).

Record Response : Type := mkResponse {
  status_code : Z;
  body : Body
}.

(** What the HTTP layer gives back: a response, or no response at all
    (timeout, connection failure). *)
Inductive Reply : Type :=
| Replied (resp : Response)
| NoReply.

(** The instrumentation: HTTP exchanges and client method calls, in the
    order in which they happen. *)
Inductive Event : Type :=
| EvHttp (req : Request) (rep : Reply)
| EvAuthenticate
| EvQuery (soql : string)
| EvGetRecord (sobject : string) (record_id : json) (fields : list string)
| EvCreateRecord (sobject : string) (data : dict json)
| EvUpdateRecord (sobject : string) (record_id : json) (data : dict json).

(** Everything the process reads from outside. *)
Record Env : Type := mkEnv {
  (** the upstream: its answer to a request, given all that happened before *)
  server : list Event -> Request -> Reply;
  (** [time.time()] at the k-th reading of a clock *)
  clock : nat -> Q;
  (** [date.today().isoformat()] at the k-th reading of a clock *)
  calendar : nat -> string;
  (** [str(x)] for a float *)
  float_str : Q -> string;
  (** [os.environ.get("SF_MANAGER_EMAIL", "")] *)
  MANAGER_EMAIL : string
}.

Record SalesforceClient : Type := mkClient {
  client_id : string;
  client_secret : string;
  instance_url : string;
  token : json
}.

Record AccessControl : Type := mkAccess {
  user_email : string;
  user_id : json;
  profile_name : json;
  is_admin : bool;
  is_manager : bool
}.

(** The module globals after start-up, with the instrumentation.  The access
    control object shares the one client ([self.sf is sf_client]). *)
Record World : Type := mkWorld {
  sf_client : SalesforceClient;
  access_ctl : AccessControl;
  create_timestamps : list Q;
  trace : list Event;
  ticks : nat
}.

Definition M (A : Type) : Type := World -> outcome A * World.

Definition ret {A} (a : A) : M A := fun w => (Ret a, w).

Definition raise {A} (e : exn) : M A := fun w => (Raise e, w).

Definition bind {A B} (m : M A) (k : A -> M B) : M B :=
  fun w =>
    match m w with
    | (Ret a, w') => k a w'
    | (Raise e, w') => (Raise e, w')
    end.

Notation "x <- m ;; k" := (bind m (fun x => k))
  (at level 61, m at next level, right associativity).
Notation "m ;;; k" := (bind m (fun _ => k))
  (at level 61, right associativity).

(** A pure step that may raise. *)
Definition lift {A} (o : outcome A) : M A := fun w => (o, w).

(** [try: m  except ValueError as e: handler(str(e))]; [JSONDecodeError] is
    a subclass of [ValueError]. *)
Definition except_ValueError {A} (m : M A) (handler : string -> M A) : M A :=
  fun w =>
    match m w with
    | (Raise (ValueError msg), w') => handler msg w'
    | (Raise (JSONDecodeError msg), w') => handler msg w'
    | r => r
    end.

Definition log (e : Event) : M unit :=
  fun w => (Ret tt, mkWorld (sf_client w) (access_ctl w) (create_timestamps w)
                            (trace w ++ [e]) (ticks w)).

Definition set_token (t : json) : M unit :=
  fun w =>
    let c := sf_client w in
    (Ret tt, mkWorld (mkClient (client_id c) (client_secret c) (instance_url c) t)
                     (access_ctl w) (create_timestamps w) (trace w) (ticks w)).

Definition set_access (a : AccessControl) : M unit :=
  fun w => (Ret tt, mkWorld (sf_client w) a (create_timestamps w) (trace w)
                            (ticks w)).

(** [create_timestamps.append(t)] *)
Definition append_timestamp (t : Q) : M unit :=
  fun w => (Ret tt, mkWorld (sf_client w) (access_ctl w)
                            (create_timestamps w ++ [t]) (trace w) (ticks w)).

Definition get_world : M World := fun w => (Ret w, w).

Definition newline : string := String (ascii_of_nat 10) EmptyString.

Section Model.

Variable env : Env.

(* ---------------------------------------------------------------- *)
(** ** Printing values: [str] and [repr] *)

Definition num_str (x : number) : string :=
  match x with
  | NInt n => PyStr.of_Z n
  | NFloat q => float_str env q
  end.

Fixpoint py_repr (j : json) : string :=
  match j with
  | JNull => "None"
  | JBool b => if b then "True" else "False"
  | JNum x => num_str x
  | JStr s => PyStr.repr s
  | JArr xs => "[" +++ PyStr.join ", " (map py_repr xs) +++ "]"
  | JObj kvs =>
      "{" +++ PyStr.join ", "
                (map (fun kv : string * json =>
                        let (k, v) := kv in
                        PyStr.repr k +++ ": " +++ py_repr v) kvs)
      +++ "}"
  end.

(** [str(x)], what an f-string prints. *)
Definition py_str (j : json) : string :=
  match j with
  | JStr s => s
  | _ => py_repr j
  end.

(* ---------------------------------------------------------------- *)
(** ** Clocks and the HTTP layer *)

Definition tick : M nat :=
  fun w => (Ret (ticks w),
            mkWorld (sf_client w) (access_ctl w) (create_timestamps w)
                    (trace w) (S (ticks w))).

(** [time.time()] *)
Definition time_time : M Q := k <- tick ;; ret (clock env k).

(** [date.today().isoformat()] *)
Definition date_today_isoformat : M string :=
  k <- tick ;; ret (calendar env k).

(** [await self._http.request(...)]: the exchange is recorded with its
    reply; no reply raises inside httpx. *)
Definition http_send (req : Request) : M Response :=
  fun w =>
    let rep := server env (trace w) req in
    match log (EvHttp req rep) w with
    | (_, w') =>
        match rep with
        | Replied resp => (Ret resp, w')
        | NoReply => (Raise TransportError, w')
        end
    end.

(** [resp.raise_for_status()]: anything but 2xx raises. *)
Definition raise_for_status (resp : Response) : M unit :=
  if ((200 <=? status_code resp) && (status_code resp <=? 299))%Z
  then ret tt
  else raise (HTTPStatusError (status_code resp)).

(** [resp.json()] *)
Definition resp_json (resp : Response) : M json :=
  match body resp with
  | BJson j => ret j
  | BText msg => raise (JSONDecodeError msg)
  end.

(* ---------------------------------------------------------------- *)
(** ** [SalesforceClient] *)

Definition SalesforceClient_init (cid secret url : string) : SalesforceClient :=
  mkClient cid secret (PyStr.rstrip_char (ascii_of_nat 47) url) JNull.

Definition base_url (c : SalesforceClient) : string :=
  instance_url c +++ "/services/data/" +++ API_VERSION.

Definition authenticate : M unit :=
  log EvAuthenticate ;;;
  w <- get_world ;;
  let c := sf_client w in
  resp <- http_send
            (mkRequest "POST" (instance_url c +++ "/services/oauth2/token") []
               (FormData [ ("grant_type", "client_credentials");
                           ("client_id", client_id c);
                           ("client_secret", client_secret c) ])) ;;
  raise_for_status resp ;;;
  j <- resp_json resp ;;
  tok <- lift (Py.getitem j "access_token") ;;
  set_token tok.

Definition _headers (c : SalesforceClient) : dict string :=
  [ ("Authorization", "Bearer " +++ py_str (token c)) ].

(** [_request]: one attempt, and on a 401 one [authenticate] followed by
    one more attempt whose response is returned whatever it is. *)
Definition _request (method url : string) (extra_headers : dict string)
           (payload : Payload) : M Response :=
  w <- get_world ;;
  let merged := Dict.merge (_headers (sf_client w)) extra_headers in
  resp <- http_send (mkRequest method url merged payload) ;;
  if (status_code resp =? 401)%Z then
    authenticate ;;;
    w' <- get_world ;;
    let merged' := Dict.merge (_headers (sf_client w')) extra_headers in
    http_send (mkRequest method url merged' payload)
  else ret resp.

Definition query (soql : string) : M json :=
  log (EvQuery soql) ;;;
  w <- get_world ;;
  resp <- _request "GET" (base_url (sf_client w) +++ "/query/") []
            (Params [("q", soql)]) ;;
  raise_for_status resp ;;;
  resp_json resp.

(** [params = {}; if fields: params["fields"] = ",".join(fields)] *)
Definition fields_params (fields : list string) : dict string :=
  match fields with
  | [] => []
  | _ => [("fields", PyStr.join "," fields)]
  end.

Definition get_record (sobject : string) (record_id : json)
           (fields : list string) : M json :=
  log (EvGetRecord sobject record_id fields) ;;;
  w <- get_world ;;
  let url := base_url (sf_client w) +++ "/sobjects/" +++ sobject +++ "/"
             +++ py_str record_id in
  resp <- _request "GET" url [] (Params (fields_params fields)) ;;
  raise_for_status resp ;;;
  resp_json resp.

Definition create_record (sobject : string) (data : dict json) : M json :=
  log (EvCreateRecord sobject data) ;;;
  w <- get_world ;;
  resp <- _request "POST"
            (base_url (sf_client w) +++ "/sobjects/" +++ sobject +++ "/")
            [("Content-Type", "application/json")] (JsonBody data) ;;
  raise_for_status resp ;;;
  resp_json resp.

Definition update_record (sobject : string) (record_id : json)
           (data : dict json) : M bool :=
  log (EvUpdateRecord sobject record_id data) ;;;
  w <- get_world ;;
  resp <- _request "PATCH"
            (base_url (sf_client w) +++ "/sobjects/" +++ sobject +++ "/"
             +++ py_str record_id)
            [("Content-Type", "application/json")] (JsonBody data) ;;
  raise_for_status resp ;;;
  ret (status_code resp =? 204)%Z.

(* ---------------------------------------------------------------- *)
(** ** [AccessControl] *)


Definition set_user_id (v : json) : M unit :=
  w <- get_world ;;
  let a := access_ctl w in
  set_access (mkAccess (user_email a) v (profile_name a) (is_admin a)
                       (is_manager a)).

Definition set_profile_name (v : json) : M unit :=
  w <- get_world ;;
  let a := access_ctl w in
  set_access (mkAccess (user_email a) (user_id a) v (is_admin a)
                       (is_manager a)).

Definition set_is_admin (b : bool) : M unit :=
  w <- get_world ;;
  let a := access_ctl w in
  set_access (mkAccess (user_email a) (user_id a) (profile_name a) b
                       (is_manager a)).

Definition resolve_user : M unit :=
  w <- get_world ;;
  let email := user_email (access_ctl w) in
  result <- query ("SELECT Id, Profile.Name FROM User WHERE Email = '"
                   +++ email +++ "' AND IsActive = true LIMIT 1") ;;
  records <- lift (Py.get result "records" JNull) ;;
  if negb (Py.truthy records) then
    raise (RuntimeError ("No active Salesforce user found for email: "
                         +++ email))
  else
    records <- lift (Py.getitem result "records") ;;
    user <- lift (Py.first records) ;;
    uid <- lift (Py.getitem user "Id") ;;
    set_user_id uid ;;;
    profile <- lift (Py.get user "Profile" (JObj [])) ;;
    name <- lift (Py.get profile "Name" (JStr EmptyString)) ;;
    set_profile_name name ;;;
    set_is_admin (Py.eq name (JStr "System Administrator")).

Definition ACCESS_DENIED : string :=
  "Access denied: you are not the assigned CDE on this record. Only the CDE, admins, or the manager can update it.".

Definition can_update (implementation_id : json) : M (bool * string) :=
  w <- get_world ;;
  if is_admin (access_ctl w) || is_manager (access_ctl w) then
    ret (true, EmptyString)
  else
    record <- get_record "Implementation__c" implementation_id ["CDE__c"] ;;
    cde_id <- lift (Py.get record "CDE__c" JNull) ;;
    w' <- get_world ;;
    if Py.eq cde_id (user_id (access_ctl w')) then ret (true, EmptyString)
    else ret (false, ACCESS_DENIED).

(* ---------------------------------------------------------------- *)
(** ** Helpers *)

Definition looks_like_id (s : string) : bool :=
  ((String.length s =? 15) || (String.length s =? 18))
  && String.eqb (PyStr.lower (PyStr.take 2 s)) "a0".

Definition name_lookup_soql (name : string) : string :=
  "SELECT Id FROM Implementation__c WHERE Name = '" +++ name +++ "' LIMIT 1".

Definition not_found_message (name : string) : string :=
  "No Implementation record found with Name: " +++ name.

Definition resolve_implementation_id (name_or_id : string) : M json :=
  let name_or_id := PyStr.strip name_or_id in
  if looks_like_id name_or_id then ret (JStr name_or_id)
  else
    result <- query (name_lookup_soql name_or_id) ;;
    records <- lift (Py.get result "records" JNull) ;;
    if negb (Py.truthy records) then
      raise (ValueError (not_found_message name_or_id))
    else
      records <- lift (Py.getitem result "records") ;;
      row <- lift (Py.first records) ;;
      lift (Py.getitem row "Id").

(** [if err: return err], then the rest. *)
Definition return_if_error (err : option string) (rest : M string) : M string :=
  match err with
  | Some e => if PyStr.is_empty e then rest else ret e
  | None => rest
  end.

(** Truth value of an [Optional[str]] argument. *)
Definition given (arg : option string) : option string :=
  match arg with
  | Some s => if PyStr.is_empty s then None else Some s
  | None => None
  end.

Definition field_labels : list (string * string) :=
  [ ("Implementation_Stage__c", "Stage"); ("Program_Health__c", "Health");
    ("Type__c", "Type"); ("Contract_Type__c", "Contract");
    ("Percent_Complete__c", "% Complete");
    ("In_Production__c", "In Production");
    ("Contracted_Hours__c", "Contracted Hours");
    ("Actual_Hours_Spent__c", "Hours Spent");
    ("Contracted_Hours_Remaining__c", "Hours Remaining");
    ("Days_In_Program__c", "Days In Program");
    ("Stale_Days__c", "Stale Days"); ("Features__c", "Features");
    ("Migration_Type__c", "Migration Type"); ("Risks__c", "Risks");
    ("Comments__c", "Comments"); ("Next_Step_Date__c", "Next Step Date");
    ("Estimated_Graduation_Date__c", "Graduation Date");
    ("Production_Date__c", "Production Date");
    ("Potential_ARR__c", "Potential ARR");
    ("Projected_Amount__c", "Projected Amount"); ("Grafana__c", "Grafana");
    ("Project_Doc__c", "Exec Summary") ].

Definition dict_get (record : dict json) (key : string) (default : json) : json :=
  match Dict.lookup key record with Some v => v | None => default end.

(** The line added for a relationship field, if any. *)
Definition relation_line (record : dict json) (key label : string) : list string :=
  match dict_get record key JNull with
  | JObj (kv :: kvs) =>
      [ "  " +++ label +++ ": "
        +++ py_str (dict_get (kv :: kvs) "Name" (JStr "N/A")) ]
  | _ => []
  end.

Definition format_implementation (record : dict json) : string :=
  let name := dict_get record "Name" (JStr "Unknown") in
  let head := "**" +++ py_str name +++ "** (ID: "
              +++ py_str (dict_get record "Id" (JStr "N/A")) +++ ")" in
  let fields :=
    flat_map
      (fun al : string * string =>
         let (api_name, label) := al in
         let val := dict_get record api_name JNull in
         match val with
         | JNull => []
         | _ => if negb (Py.eq val (JStr EmptyString))
                then [ "  " +++ label +++ ": " +++ py_str val ] else []
         end)
      field_labels in
  PyStr.join newline
    (head :: fields ++ relation_line record "Account__r" "Account"
                    ++ relation_line record "Opportunity__r" "Opportunity").

(* ---------------------------------------------------------------- *)
(** ** The rate limiter shared by the two creating tools *)

Definition Qltb (x y : Q) : bool := negb (Qle_bool y x).

(** [[t for t in create_timestamps if now - t < CREATE_WINDOW_SECONDS]] *)
Definition recent (now : Q) (timestamps : list Q) : list Q :=
  filter (fun t => Qltb (now - t) (inject_Z CREATE_WINDOW_SECONDS)) timestamps.

Definition RATE_LIMIT_MESSAGE : string :=
  "Rate limit reached: " +++ PyStr.of_Z (Z.of_nat MAX_CREATES_PER_WINDOW)
  +++ " records created in the last " +++ PyStr.of_Z CREATE_WINDOW_SECONDS
  +++ " seconds. Wait a moment before creating more.".

(** The guard at the head of [create_implementation] and [log_hours]. *)
Definition rate_limited (now : Q) (timestamps : list Q) : bool :=
  MAX_CREATES_PER_WINDOW <=? List.length (recent now timestamps).

(* ---------------------------------------------------------------- *)
(** ** The tools *)

Definition opt_set (key : string) (v : option json) (data : dict json)
  : dict json :=
  match v with Some x => Dict.set key x data | None => data end.

Definition create_implementation (opportunity_id type contract_type : string)
           (contracted_hours : option number)
           (features migration_type : option string) : M string :=
  now <- time_time ;;
  w <- get_world ;;
  if rate_limited now (create_timestamps w) then ret RATE_LIMIT_MESSAGE
  else
  return_if_error (validate_picklist "Type__c" type) (
  return_if_error (validate_picklist "Contract_Type__c" contract_type) (
  return_if_error
    (match given migration_type with
     | Some m => validate_picklist "Migration_Type__c" m
     | None => None
     end) (
  return_if_error
    (match given features with
     | Some f => validate_picklist "Features__c" f
     | None => None
     end) (
  result <- query ("SELECT Id, Name, AccountId, Account.Name, Amount, OwnerId "
                   +++ "FROM Opportunity WHERE Id = '" +++ opportunity_id
                   +++ "'") ;;
  records <- lift (Py.get result "records" JNull) ;;
  if negb (Py.truthy records) then
    ret ("No Opportunity found with ID: " +++ opportunity_id)
  else
    records <- lift (Py.getitem result "records") ;;
    opp <- lift (Py.first records) ;;
    account_id <- lift (Py.getitem opp "AccountId") ;;
    account <- lift (Py.get opp "Account" (JObj [])) ;;
    account_name <- lift (Py.get account "Name" (JStr "Unknown")) ;;
    today <- date_today_isoformat ;;
    let impl_name := py_str account_name +++ " - " +++ type +++ " - "
                     +++ today in
    let data :=
      [ ("Name", JStr impl_name);
        ("Opportunity__c", JStr opportunity_id);
        ("Account__c", account_id);
        ("Type__c", JStr type);
        ("Contract_Type__c", JStr contract_type);
        ("Implementation_Stage__c", JStr "00 - Kick Off Call");
        ("Program_Health__c", JStr "Healthy");
        ("In_Production__c", JBool false) ] in
    let data := opt_set "Contracted_Hours__c"
                  (option_map JNum contracted_hours) data in
    let data := opt_set "Features__c" (option_map JStr (given features)) data in
    let data := opt_set "Migration_Type__c"
                  (option_map JStr (given migration_type)) data in
    resp <- create_record "Implementation__c" data ;;
    record_id <- lift (Py.get resp "id" (JStr "unknown")) ;;
    t <- time_time ;;
    append_timestamp t ;;;
    ret ("Implementation created successfully." +++ newline
         +++ "  Record ID: " +++ py_str record_id +++ newline
         +++ "  Name: " +++ impl_name +++ newline
         +++ "  Account: " +++ py_str account_name +++ newline
         +++ "  Type: " +++ type +++ newline
         +++ "  Contract: " +++ contract_type +++ newline
         +++ "  Stage: 00 - Kick Off Call" +++ newline
         +++ "  Health: Healthy"))))).

(** [try: record_id = await resolve_implementation_id(...)
     except ValueError as e: return str(e)] *)
Definition try_resolve (record_name_or_id : string) : M (string + json) :=
  except_ValueError
    (record_id <- resolve_implementation_id record_name_or_id ;;
     ret (inr record_id))
    (fun msg => ret (inl msg)).

(** The loop over [updates.items()]: the first error of a string value. *)
Fixpoint first_picklist_error (items : dict json) : option string :=
  match items with
  | [] => None
  | (field, JStr value) :: rest =>
      match validate_picklist field value with
      | Some e => if PyStr.is_empty e then first_picklist_error rest else Some e
      | None => first_picklist_error rest
      end
  | _ :: rest => first_picklist_error rest
  end.

Definition update_implementation (record_name_or_id : string)
           (updates : dict json) : M string :=
  r <- try_resolve record_name_or_id ;;
  match r with
  | inl msg => ret msg
  | inr record_id =>
      decision <- can_update record_id ;;
      let (allowed, reason) := decision : bool * string in
      if negb allowed then ret reason
      else
        let invalid_fields :=
          filter (fun f => negb (PyStr.str_in f UPDATABLE_FIELDS))
                 (Dict.keys updates) in
        match invalid_fields with
        | _ :: _ =>
            ret ("Cannot update field(s): " +++ PyStr.join ", " invalid_fields
                 +++ ". Not in the allowed update list.")
        | [] =>
            match first_picklist_error updates with
            | Some err => ret err
            | None =>
                update_record "Implementation__c" record_id updates ;;;
                let field_summary :=
                  PyStr.join ", "
                    (map (fun kv : string * json =>
                            fst kv +++ " = " +++ py_str (snd kv)) updates) in
                ret ("Updated " +++ record_name_or_id +++ " (ID: "
                     +++ py_str record_id +++ "): " +++ field_summary)
            end
        end
  end.

Definition TASK_REQUIRED_MESSAGE : string :=
  "A project task is required. Please ask the user to select from:"
  +++ newline
  +++ PyStr.join newline (map (fun t => "  - " +++ t) VALID_PROJECT_TASKS).

(** [if project_type and project_type not in VALID_PROJECT_TYPES] *)
Definition project_type_error (project_type : option string) : option string :=
  match given project_type with
  | Some pt =>
      if negb (PyStr.str_in pt VALID_PROJECT_TYPES)
      then Some ("Invalid Project Type '" +++ pt +++ "'. Valid values: "
                 +++ PyStr.join ", " VALID_PROJECT_TYPES)
      else None
  | None => None
  end.

(** [if record_stage and record_stage not in VALID_RECORD_STAGES] *)
Definition record_stage_error (record_stage : option string) : option string :=
  match given record_stage with
  | Some rs =>
      if negb (PyStr.str_in rs VALID_RECORD_STAGES)
      then Some ("Invalid Record Stage '" +++ rs +++ "'. Valid values: "
                 +++ PyStr.join ", " VALID_RECORD_STAGES)
      else None
  | None => None
  end.

Definition log_hours (record_name_or_id : string) (hours : number)
           (project_task notes task_date project_type record_stage
             : option string) : M string :=
  now <- time_time ;;
  w <- get_world ;;
  if rate_limited now (create_timestamps w) then ret RATE_LIMIT_MESSAGE
  else
  match given project_task with
  | None => ret TASK_REQUIRED_MESSAGE
  | Some project_task =>
  r <- try_resolve record_name_or_id ;;
  match r with
  | inl msg => ret msg
  | inr record_id =>
  let invalid := invalid_parts VALID_PROJECT_TASKS (split_parts project_task) in
  match invalid with
  | _ :: _ =>
      ret ("Invalid Project Task value(s): " +++ PyStr.repr_list invalid
           +++ ". Valid values: " +++ PyStr.join ", " VALID_PROJECT_TASKS)
  | [] =>
  match project_type_error project_type with
  | Some msg => ret msg
  | None =>
  match record_stage_error record_stage with
  | Some msg => ret msg
  | None =>
    let data :=
      [ ("Implementation__c", record_id);
        ("Hours_Worked__c", JNum hours);
        ("Project_Task__c", JStr project_task) ] in
    let data := opt_set "Notes__c" (option_map JStr (given notes)) data in
    task_day <- match given task_date with
                | Some d => ret d
                | None => date_today_isoformat
                end ;;
    let data := Dict.set "Task_Date__c" (JStr task_day) data in
    let data := opt_set "Project_Type__c"
                  (option_map JStr (given project_type)) data in
    let data := opt_set "Record_Stage__c"
                  (option_map JStr (given record_stage)) data in
    resp <- create_record "Implementation_Hours__c" data ;;
    hours_id <- lift (Py.get resp "id" (JStr "unknown")) ;;
    t <- time_time ;;
    append_timestamp t ;;;
    ret ("Hours logged successfully." +++ newline
         +++ "  Hours Record ID: " +++ py_str hours_id +++ newline
         +++ "  Implementation: " +++ record_name_or_id +++ " (ID: "
         +++ py_str record_id +++ ")" +++ newline
         +++ "  Hours: " +++ num_str hours +++ newline
         +++ "  Task: " +++ project_task +++ newline
         +++ "  Date: " +++ task_day
         +++ match given notes with
             | Some n => newline +++ "  Notes: " +++ n
             | None => EmptyString
             end)
  end end end end end.

Definition queries : dict string :=
  [ ("at_risk",
     "SELECT Name, Id, Account__r.Name, Program_Health__c, Risks__c, Implementation_Stage__c "
     +++ "FROM Implementation__c "
     +++ "WHERE Program_Health__c IN ('Risk', 'High Risk', 'Churn') "
     +++ "ORDER BY Program_Health__c");
    ("active",
     "SELECT Name, Id, Account__r.Name, Implementation_Stage__c, Percent_Complete__c, "
     +++ "Program_Health__c, Stale_Days__c "
     +++ "FROM Implementation__c "
     +++ "WHERE Implementation_Stage__c NOT IN ('05 - Complete', '06 - Passive', '08 - Unsuccessful') "
     +++ "ORDER BY Implementation_Stage__c");
    ("bandwidth",
     "SELECT Name, Id, Contracted_Hours__c, Actual_Hours_Spent__c, Contracted_Hours_Remaining__c "
     +++ "FROM Implementation__c "
     +++ "WHERE Implementation_Stage__c IN ('01 - Explore', '02 - Planning', '03 - In Progress') "
     +++ "ORDER BY Contracted_Hours_Remaining__c ASC");
    ("stale",
     "SELECT Name, Id, Stale_Days__c, Next_Step_Date__c, Implementation_Stage__c, Account__r.Name "
     +++ "FROM Implementation__c "
     +++ "WHERE Stale_Days__c > 14 "
     +++ "ORDER BY Stale_Days__c DESC");
    ("by_stage",
     "SELECT Implementation_Stage__c, COUNT(Id) total "
     +++ "FROM Implementation__c "
     +++ "GROUP BY Implementation_Stage__c "
     +++ "ORDER BY Implementation_Stage__c") ].

(** The choice of the SOQL text: the text, or the message returned
    instead. *)
Definition select_soql (query_type : string) (custom_soql : option string)
  : string + string :=
  if String.eqb query_type "custom" then
    match given custom_soql with
    | None => inl "custom_soql is required when query_type is 'custom'."
    | Some soql =>
        if negb (PyStr.startswith "SELECT" (PyStr.upper (PyStr.strip soql)))
        then inl "Only SELECT queries are allowed."
        else inr soql
    end
  else
    match Dict.lookup query_type queries with
    | Some soql => inr soql
    | None =>
        inl ("Invalid query_type '" +++ query_type +++ "'. Must be one of: "
             +++ PyStr.join ", " (Dict.keys queries ++ ["custom"]))
    end.

(** The [by_stage] loop. *)
Fixpoint stage_lines (records : list json) : outcome (list string) :=
  match records with
  | [] => Ret []
  | r :: rest =>
      match Py.get r "Implementation_Stage__c" (JStr "Unknown") with
      | Raise e => Raise e
      | Ret stage =>
          match Py.get r "total" (JNum (NInt 0)) with
          | Raise e => Raise e
          | Ret count =>
              match stage_lines rest with
              | Raise e => Raise e
              | Ret lines =>
                  Ret (("  " +++ py_str stage +++ ": " +++ py_str count)
                       :: lines)
              end
          end
      end
  end.

(** The loop that drops [attributes] and formats each record. *)
Fixpoint record_lines (records : list json) : outcome (list string) :=
  match records with
  | [] => Ret []
  | r :: rest =>
      match Py.pop r "attributes" with
      | Raise e => Raise e
      | Ret r' =>
          match record_lines rest with
          | Raise e => Raise e
          | Ret lines => Ret (EmptyString :: format_implementation r' :: lines)
          end
      end
  end.

Definition query_implementations (query_type : string)
           (custom_soql : option string) : M string :=
  match select_soql query_type custom_soql with
  | inl msg => ret msg
  | inr soql =>
      result <- query soql ;;
      records <- lift (Py.get result "records" (JArr [])) ;;
      total <- lift (Py.get result "totalSize" (JNum (NInt 0))) ;;
      if Py.eq total (JNum (NInt 0)) then
        ret ("No results found for query type '" +++ query_type +++ "'.")
      else if String.eqb query_type "by_stage" then
        rows <- lift (Py.iter records) ;;
        lines <- lift (stage_lines rows) ;;
        ret (PyStr.join newline
               (("Implementations by stage (" +++ py_str total +++ " groups):")
                :: lines))
      else
        rows <- lift (Py.iter records) ;;
        lines <- lift (record_lines rows) ;;
        ret (PyStr.join newline
               (("Found " +++ py_str total +++ " record(s):") :: lines))
  end.

Definition implementation_fields : list string :=
  [ "Id"; "Name"; "Implementation_Stage__c"; "Program_Health__c";
    "Type__c"; "Contract_Type__c"; "Percent_Complete__c"; "In_Production__c";
    "Account__c"; "Opportunity__c"; "CDE__c"; "CSM__c"; "SA__c";
    "Contracted_Hours__c"; "Actual_Hours_Spent__c";
    "Contracted_Hours_Remaining__c"; "Days_In_Program__c"; "Join_Days__c";
    "Contracted_Days_Remaining__c"; "Stale_Days__c"; "Features__c";
    "Migration_Type__c"; "Risks__c"; "Comments__c"; "Post_Mortem__c";
    "Technical_Win__c"; "Customer_Start_Date__c";
    "Implementation_Create_Date__c"; "Kick_Off_Call__c";
    "Program_Start_Date__c"; "Estimated_Graduation_Date__c";
    "Calculated_Graduation_Date__c"; "Production_Date__c";
    "Final_Review_Call__c"; "Next_Step_Date__c"; "Potential_ARR__c";
    "Projected_Amount__c"; "Contract__c"; "ARR_Start_of_Program__c";
    "ARR_End_of_Program__c"; "Grafana__c"; "Project_Doc__c";
    "Migration_Source__c"; "Support_Tier__c" ].

Definition get_implementation (record_name_or_id : string) : M string :=
  r <- try_resolve record_name_or_id ;;
  match r with
  | inl msg => ret msg
  | inr record_id =>
      record <- get_record "Implementation__c" record_id
                  implementation_fields ;;
      record' <- lift (Py.pop record "attributes") ;;
      ret (format_implementation record')
  end.

(* ---------------------------------------------------------------- *)
(** ** Start-up *)



End Model.

(** ** Observations on a trace *)

(** A data-changing upstream call: the client methods [create_record] and
    [update_record], and the HTTP requests that carry a JSON body (only
    those two methods send one). *)
Definition is_mutating (e : Event) : bool :=
  match e with
  | EvCreateRecord _ _ | EvUpdateRecord _ _ _ => true
  | EvHttp req _ =>
      match req_payload req with JsonBody _ => true | _ => false end
  | _ => false
  end.

Definition mutating_calls (tr : list Event) : list Event := filter is_mutating tr.

Definition is_http (e : Event) : bool :=
  match e with EvHttp _ _ => true | _ => false end.

Definition is_authenticate (e : Event) : bool :=
  match e with EvAuthenticate => true | _ => false end.

(** The events a computation added to the trace. *)
Definition events_since (w w' : World) : list Event :=
  skipn (List.length (trace w)) (trace w').

(** Accept or reject, the outcome of a validation. *)
Definition accepts (field value : string) : bool :=
  match validate_picklist field value with None => true | Some _ => false end.

(** Split on [;], trim each part, join again with [;]. *)
Definition rejoin (value : string) : string :=
  PyStr.join ";" (split_parts value).

(** [wp m Q w]: running [m] from [w] ends in an outcome and a world that
    satisfy [Q].  Every computation terminates, so this is total
    correctness. *)
Definition wp {A} (m : M A) (Q : outcome A -> World -> Prop) (w : World) : Prop :=
  Q (fst (m w)) (snd (m w)).

(** The parts of the world a client call never touches. *)
Definition same_state (w w' : World) : Prop :=
  access_ctl w' = access_ctl w
  /\ create_timestamps w' = create_timestamps w
  /\ ticks w' = ticks w.

(** Events below the client methods: HTTP exchanges and re-authentication. *)
Definition low_level (e : Event) : bool := is_http e || is_authenticate e.

Definition is_json_payload (p : Payload) : bool :=
  match p with JsonBody _ => true | _ => false end.

(** The request [authenticate] sends. *)
Definition token_request (c : SalesforceClient) : Request :=
  mkRequest "POST" (instance_url c +++ "/services/oauth2/token") []
    (FormData [ ("grant_type", "client_credentials");
                ("client_id", client_id c);
                ("client_secret", client_secret c) ]).

(** A request made by [_request]: it carries the bearer token. *)
Definition api_request (method url : string) (extra : dict string)
           (payload : Payload) (c : SalesforceClient) (env : Env) : Request :=
  mkRequest method url (Dict.merge (_headers env c) extra) payload.

Definition with_trace (w : World) (tr : list Event) : World :=
  mkWorld (sf_client w) (access_ctl w) (create_timestamps w) tr (ticks w).

(** What [authenticate] does to the world, whatever its outcome: two
    events, the call and its token request; only the token may change. *)
Definition authenticated (env : Env) (w w' : World) : Prop :=
  same_state w w'
  /\ client_id (sf_client w') = client_id (sf_client w)
  /\ client_secret (sf_client w') = client_secret (sf_client w)
  /\ instance_url (sf_client w') = instance_url (sf_client w)
  /\ trace w'
     = trace w ++
       [ EvAuthenticate;
         EvHttp (token_request (sf_client w))
                (server env (trace w ++ [EvAuthenticate])
                        (token_request (sf_client w))) ].

(** An attempt of [_request]: an HTTP exchange carrying the bearer token. *)
Definition carries_token (e : Event) : bool :=
  match e with
  | EvHttp req _ => Dict.mem "Authorization" (req_headers req)
  | _ => false
  end.

Definition attempts (evs : list Event) : nat :=
  List.length (filter carries_token evs).

Definition reauthentications (evs : list Event) : nat :=
  List.length (filter is_authenticate evs).

Definition is_success (resp : Response) : bool :=
  ((200 <=? status_code resp) && (status_code resp <=? 299))%Z.

(** The outcome of an HTTP exchange, as [http_send] reports it. *)
Definition delivered (rep : Reply) : outcome Response :=
  match rep with
  | Replied resp => Ret resp
  | NoReply => Raise TransportError
  end.

(** The typed client methods raise [HTTPStatusError] on whatever response
    [_request] hands them, first attempt or retry, when it is not a 2xx. *)
Definition failure_surfaced_by_callers (env : Env) : Prop :=
  (forall soql w w' resp,
      _request env "GET" (base_url (sf_client w) +++ "/query/") []
        (Params [("q", soql)]) (with_trace w (trace w ++ [EvQuery soql]))
      = (Ret resp, w') ->
      is_success resp = false ->
      query env soql w = (Raise (HTTPStatusError (status_code resp)), w'))
  /\ (forall sobject record_id fields w w' resp,
      _request env "GET"
        (base_url (sf_client w) +++ "/sobjects/" +++ sobject +++ "/"
         +++ py_str env record_id) [] (Params (fields_params fields))
        (with_trace w (trace w ++ [EvGetRecord sobject record_id fields]))
      = (Ret resp, w') ->
      is_success resp = false ->
      get_record env sobject record_id fields w
      = (Raise (HTTPStatusError (status_code resp)), w'))
  /\ (forall sobject data w w' resp,
      _request env "POST"
        (base_url (sf_client w) +++ "/sobjects/" +++ sobject +++ "/")
        [("Content-Type", "application/json")] (JsonBody data)
        (with_trace w (trace w ++ [EvCreateRecord sobject data]))
      = (Ret resp, w') ->
      is_success resp = false ->
      create_record env sobject data w
      = (Raise (HTTPStatusError (status_code resp)), w'))
  /\ (forall sobject record_id data w w' resp,
      _request env "PATCH"
        (base_url (sf_client w) +++ "/sobjects/" +++ sobject +++ "/"
         +++ py_str env record_id)
        [("Content-Type", "application/json")] (JsonBody data)
        (with_trace w (trace w ++ [EvUpdateRecord sobject record_id data]))
      = (Ret resp, w') ->
      is_success resp = false ->
      update_record env sobject record_id data w
      = (Raise (HTTPStatusError (status_code resp)), w')).

(** The client method calls of a trace, in order. *)
Definition client_calls (tr : list Event) : list Event :=
  filter (fun e => negb (low_level e)) tr.

(** What one client method call leaves behind: its own event followed by
    HTTP exchanges and re-authentications, none of which carries a JSON body
    unless the call is itself a write. *)
Definition called (call : Event) (w w' : World) : Prop :=
  same_state w w'
  /\ exists evs,
       trace w' = trace w ++ call :: evs
       /\ Forall (fun e => low_level e = true
                           /\ (is_mutating e = true -> is_mutating call = true))
                 evs.

(** ** A healthy upstream *)

(** A row as the code subscripts it: an object with [Id] and [AccountId],
    whose [Account], when present, is an object. *)
Definition well_formed_row (r : json) : bool :=
  match r with
  | JObj kv =>
      Dict.mem "Id" kv && Dict.mem "AccountId" kv
      && match Dict.lookup "Account" kv with
         | None | Some (JObj _) => true
         | Some _ => false
         end
  | _ => false
  end.

(** A body as the code reads it: an object whose [records], when present,
    is a list of well-formed rows. *)
Definition well_formed_body (j : json) : bool :=
  match j with
  | JObj kvs =>
      match Dict.lookup "records" kvs with
      | None => true
      | Some (JArr rows) => forallb well_formed_row rows
      | Some _ => false
      end
  | _ => false
  end.

Definition well_formed_reply (rep : Reply) : bool :=
  match rep with
  | Replied resp =>
      is_success resp
      && match body resp with
         | BJson j => well_formed_body j
         | BText _ => false
         end
  | NoReply => false
  end.

(** The upstream answers every request with a 2xx and a well-formed body. *)
Definition healthy (env : Env) : Prop :=
  forall tr req, well_formed_reply (server env tr req) = true.

(** ** Observations on configured text *)




(** What no step of a tool may change unless it writes: the access control
    object, the recorded timestamps and the data-changing calls made so
    far; clocks only move forward. *)
Definition untouched (w w' : World) : Prop :=
  access_ctl w' = access_ctl w
  /\ create_timestamps w' = create_timestamps w
  /\ mutating_calls (trace w') = mutating_calls (trace w)
  /\ ticks w <= ticks w'.

(** The world after one reading of a clock. *)
Definition ticked (w : World) : World :=
  mkWorld (sf_client w) (access_ctl w) (create_timestamps w) (trace w)
          (S (ticks w)).

(** The world after [create_timestamps.append(t)]. *)
Definition stamped (t : Q) (w : World) : World :=
  mkWorld (sf_client w) (access_ctl w) (create_timestamps w ++ [t]) (trace w)
          (ticks w).

(** The fields every record built by [create_implementation] carries. *)
Definition fixed_fields (env : Env) (type today : string) (data : dict json)
  : Prop :=
  Dict.lookup "Implementation_Stage__c" data = Some (JStr "00 - Kick Off Call")
  /\ Dict.lookup "Program_Health__c" data = Some (JStr "Healthy")
  /\ Dict.lookup "In_Production__c" data = Some (JBool false)
  /\ exists opp account account_name,
       Py.get opp "Account" (JObj []) = Ret account
       /\ Py.get account "Name" (JStr "Unknown") = Ret account_name
       /\ Dict.lookup "Name" data
          = Some (JStr (py_str env account_name +++ " - " +++ type +++ " - "
                        +++ today)).

(** What a run of [create_implementation] from [w] can do: leave the
    guarded state untouched, or issue one [create_record] on
    [Implementation__c], after which it either raises, or returns the
    success text and records one timestamp. *)
Definition create_effects (env : Env) (type : string) (w : World)
           (r : outcome string) (w' : World) : Prop :=
  untouched w w'
  \/ (access_ctl w' = access_ctl w
      /\ rate_limited (clock env (ticks w)) (create_timestamps w) = false
      /\ exists data evs day,
           ticks w < day
           /\ fixed_fields env type (calendar env day) data
           /\ mutating_calls (trace w')
              = mutating_calls (trace w)
                ++ EvCreateRecord "Implementation__c" data :: evs
           /\ Forall (fun e => low_level e = true) evs
           /\ ((exists e, r = Raise e
                          /\ create_timestamps w' = create_timestamps w)
               \/ (exists tail k,
                      r = Ret ("Implementation created successfully." +++ tail)
                      /\ ticks w < k
                      /\ create_timestamps w'
                         = create_timestamps w ++ [clock env k]))).

(** The same for [log_hours], on [Implementation_Hours__c]. *)
Definition log_effects (env : Env) (w : World) (r : outcome string)
           (w' : World) : Prop :=
  untouched w w'
  \/ (access_ctl w' = access_ctl w
      /\ rate_limited (clock env (ticks w)) (create_timestamps w) = false
      /\ exists data evs,
           mutating_calls (trace w')
           = mutating_calls (trace w)
             ++ EvCreateRecord "Implementation_Hours__c" data :: evs
           /\ Forall (fun e => low_level e = true) evs
           /\ ((exists e, r = Raise e
                          /\ create_timestamps w' = create_timestamps w)
               \/ (exists tail k,
                      r = Ret ("Hours logged successfully." +++ tail)
                      /\ ticks w < k
                      /\ create_timestamps w'
                         = create_timestamps w ++ [clock env k]))).

(** And for [update_implementation]: untouched, or one [update_record]
    followed by an exception or the confirmation text. *)
Definition update_effects (env : Env) (w : World) (r : outcome string)
           (w' : World) : Prop :=
  untouched w w'
  \/ (access_ctl w' = access_ctl w
      /\ create_timestamps w' = create_timestamps w
      /\ exists record_id data evs,
           mutating_calls (trace w')
           = mutating_calls (trace w)
             ++ EvUpdateRecord "Implementation__c" record_id data :: evs
           /\ Forall (fun e => low_level e = true) evs
           /\ ((exists e, r = Raise e)
               \/ (exists tail, r = Ret ("Updated " +++ tail)))).

(** The texts with which a mutating tool turns a request down: rate limit,
    invalid field or picklist value, missing task, access denied. *)
Definition is_rejection (msg : string) : bool :=
  PyStr.startswith "Rate limit reached" msg
  || PyStr.startswith "Invalid " msg
  || PyStr.startswith "Cannot update field(s)" msg
  || PyStr.startswith "Access denied" msg
  || PyStr.startswith "A project task is required" msg.

(** The data-changing calls are the same after a run as before it. *)
Definition wrote_nothing (w w' : World) : Prop :=
  mutating_calls (trace w') = mutating_calls (trace w).

(** ** The rate window *)






(** A left-stripped string is empty or starts with a visible character. *)
Definition starts_visible (s : string) : Prop :=
  match s with
  | EmptyString => True
  | String c _ => PyStr.is_space c = false
  end.

(** ** Sample environments and worlds *)

Definition sample_client : SalesforceClient :=
  mkClient "id" "secret" "https://example.my.salesforce.com" (JStr "stale").

Definition sample_access : AccessControl :=
  mkAccess "cde@example.com" (JStr "005A") (JStr "Standard User") false false.

Definition sample_world : World :=
  mkWorld sample_client sample_access [] [] 0.

Definition sample_env (srv : list Event -> Request -> Reply) : Env :=
  mkEnv srv (fun k => inject_Z (Z.of_nat k)) (fun _ => "2024-05-01")
        (fun _ => "0.0") "boss@example.com".

Definition ok (j : json) : Reply := Replied (mkResponse 200%Z (BJson j)).

Definition failure (status : Z) : Reply :=
  Replied (mkResponse status (BText "Expecting value: line 1 column 1 (char 0)")).

Definition bearer (req : Request) : option string :=
  Dict.lookup "Authorization" (req_headers req).

(** The session has expired: the stale token gets a 401, the token endpoint
    hands out a fresh token, and the fresh token is accepted. *)
Definition expired_session : list Event -> Request -> Reply :=
  fun _ req =>
    match bearer req with
    | None => ok (JObj [("access_token", JStr "fresh")])
    | Some h =>
        if String.eqb h "Bearer fresh"
        then ok (JObj [("records", JArr []); ("totalSize", JNum (NInt 0))])
        else failure 401%Z
    end.

(** The upstream is down: every token is refused and the token endpoint
    answers 503. *)
Definition upstream_down : list Event -> Request -> Reply :=
  fun _ req =>
    match bearer req with
    | None => failure 503%Z
    | Some _ => failure 401%Z
    end.

Definition expired_env : Env := sample_env expired_session.

Definition down_env : Env := sample_env upstream_down.

Definition probe_url : string :=
  "https://example.my.salesforce.com/services/data/v62.0/query/".

(** The world of a manager session. *)
Definition manager_world : World :=
  mkWorld sample_client
    (mkAccess "boss@example.com" (JStr "005B") (JStr "Standard User")
              false true)
    [] [] 0.

(** An upstream that finds nothing: every query comes back empty. *)
Definition empty_env : Env :=
  sample_env (fun _ _ =>
                ok (JObj [("records", JArr []); ("totalSize", JNum (NInt 0))])).

(** An upstream that knows one opportunity and accepts every write. *)
Definition busy_env : Env :=
  sample_env
    (fun _ req =>
       match req_payload req with
       | JsonBody _ =>
           Replied (mkResponse 201%Z
                      (BJson (JObj [ ("id", JStr "a0B000000000009");
                                     ("success", JBool true) ])))
       | _ =>
           ok (JObj [ ("totalSize", JNum (NInt 1));
                      ("records",
                       JArr [ JObj [ ("Id", JStr "006000000000001");
                                     ("AccountId", JStr "001000000000001");
                                     ("Account",
                                      JObj [("Name", JStr "Acme")]) ] ]) ])
       end).





(** ** Further observations on the world *)

(** The world after the access control object is replaced. *)
Definition with_access (a : AccessControl) (w : World) : World :=
  mkWorld (sf_client w) a (create_timestamps w) (trace w) (ticks w).

(** A relation between the world before and after a step that every
    elementary step and every client method respects; the tools then respect
    it too. *)
Record Frame (env : Env) (R : World -> World -> Prop) : Prop := mkFrame {
  frame_refl : forall w, R w w;
  frame_trans : forall a b c, R a b -> R b c -> R a c;
  frame_tick : forall w, R w (ticked w);
  frame_stamp : forall t w, R w (stamped t w);
  frame_access : forall a w, R w (with_access a w);
  frame_query : forall soql w, R w (snd (query env soql w));
  frame_get_record :
    forall sobject record_id fields w,
      R w (snd (get_record env sobject record_id fields w));
  frame_create_record :
    forall sobject data w, R w (snd (create_record env sobject data w));
  frame_update_record :
    forall sobject record_id data w,
      R w (snd (update_record env sobject record_id data w))
}.

(** The HTTP methods the module uses. *)
Definition allowed_method (m : string) : bool :=
  String.eqb m "GET" || String.eqb m "POST" || String.eqb m "PATCH".

(** An event that is not an HTTP exchange, or an exchange with an allowed
    method whose URL starts with [url0]. *)
Definition on_instance (url0 : string) (e : Event) : bool :=
  match e with
  | EvHttp req _ =>
      allowed_method (req_method req) && PyStr.startswith url0 (req_url req)
  | _ => true
  end.

(** The client keeps its identity and instance, the trace is only extended,
    and every exchange added goes to the instance with an allowed method. *)
Definition stays_on_instance (w w' : World) : Prop :=
  instance_url (sf_client w') = instance_url (sf_client w)
  /\ client_id (sf_client w') = client_id (sf_client w)
  /\ client_secret (sf_client w') = client_secret (sf_client w)
  /\ exists evs,
       trace w' = trace w ++ evs
       /\ Forall (fun e => on_instance (instance_url (sf_client w)) e = true)
                 evs.

(** ** Sessions: tool invocations one after the other *)

(** One invocation of a registered tool, with its arguments. *)
Inductive ToolCall : Type :=
| CallCreate (opportunity_id type contract_type : string)
             (contracted_hours : option number)
             (features migration_type : option string)
| CallUpdate (record_name_or_id : string) (updates : dict json)
| CallLogHours (record_name_or_id : string) (hours : number)
               (project_task notes task_date project_type record_stage
                  : option string)
| CallQuery (query_type : string) (custom_soql : option string)
| CallGet (record_name_or_id : string).

Definition run_tool (env : Env) (c : ToolCall) : M string :=
  match c with
  | CallCreate o t c h f m => create_implementation env o t c h f m
  | CallUpdate n u => update_implementation env n u
  | CallLogHours n h p a d t s => log_hours env n h p a d t s
  | CallQuery q c => query_implementations env q c
  | CallGet n => get_implementation env n
  end.

(** A session: each invocation runs to its end, result or exception, before
    the next one starts. *)
Fixpoint run_session (env : Env) (calls : list ToolCall) (w : World)
  : list (outcome string) * World :=
  match calls with
  | [] => ([], w)
  | c :: rest =>
      let (r, w1) := run_tool env c w in
      let (rs, w2) := run_session env rest w1 in
      (r :: rs, w2)
  end.

(** The invocations that may record a timestamp. *)
Definition is_creating (c : ToolCall) : bool :=
  match c with
  | CallCreate _ _ _ _ _ _ | CallLogHours _ _ _ _ _ _ _ => true
  | _ => false
  end.


(** [n] slashes. *)
Fixpoint slashes (n : nat) : string :=
  match n with
  | O => EmptyString
  | S n' => String (ascii_of_nat 47) (slashes n')
  end.

(** The last character of a text is [ch]. *)
Fixpoint ends_with_char (ch : ascii) (s : string) : bool :=
  match s with
  | EmptyString => false
  | String c EmptyString => Ascii.eqb c ch
  | String _ r => ends_with_char ch r
  end.


(** ** What the mutating tools check before they write *)

(** The checks of [update_implementation]: every field is on the allowed
    list, and every string value passes the picklist validation of its
    field. *)
Definition checked_updates (updates : dict json) : Prop :=
  Forall (fun f => PyStr.str_in f UPDATABLE_FIELDS = true) (Dict.keys updates)
  /\ forall field value,
       In (field, JStr value) updates -> validate_picklist field value = None.

(** The checks of [create_implementation] on its arguments. *)
Definition checked_create (type contract_type : string)
           (features migration_type : option string) : Prop :=
  In type VALID_TYPES
  /\ In contract_type VALID_CONTRACT_TYPES
  /\ (forall m, given migration_type = Some m -> In m VALID_MIGRATION_TYPES)
  /\ (forall f, given features = Some f ->
                forall p, In p (split_parts f) -> In p VALID_FEATURES).

(** The fields of a new implementation that come from the arguments: each
    is written as it was given, the optional ones only when given, and no
    field beyond the eleven the tool knows is sent. *)
Definition created_from (opportunity_id type contract_type : string)
           (contracted_hours : option number)
           (features migration_type : option string) (data : dict json)
  : Prop :=
  Dict.lookup "Opportunity__c" data = Some (JStr opportunity_id)
  /\ Dict.lookup "Type__c" data = Some (JStr type)
  /\ Dict.lookup "Contract_Type__c" data = Some (JStr contract_type)
  /\ Dict.lookup "Contracted_Hours__c" data = option_map JNum contracted_hours
  /\ Dict.lookup "Features__c" data = option_map JStr (given features)
  /\ Dict.lookup "Migration_Type__c" data
     = option_map JStr (given migration_type)
  /\ NoDup (Dict.keys data)
  /\ incl (Dict.keys data)
          [ "Name"; "Opportunity__c"; "Account__c"; "Type__c";
            "Contract_Type__c"; "Implementation_Stage__c";
            "Program_Health__c"; "In_Production__c"; "Contracted_Hours__c";
            "Features__c"; "Migration_Type__c" ].

(** The client calls of the resolver: none for an id, one name lookup
    otherwise. *)
Definition resolver_calls (name_or_id : string) : list Event :=
  if looks_like_id (PyStr.strip name_or_id) then []
  else [EvQuery (name_lookup_soql (PyStr.strip name_or_id))].

(** The checks of [log_hours] on its arguments. *)
Definition checked_hours (task : string)
           (project_type record_stage : option string) : Prop :=
  PyStr.is_empty task = false
  /\ (forall p, In p (split_parts task) -> In p VALID_PROJECT_TASKS)
  /\ (forall pt, given project_type = Some pt -> In pt VALID_PROJECT_TYPES)
  /\ (forall rs, given record_stage = Some rs -> In rs VALID_RECORD_STAGES).

(** The hours record built from the arguments, logged at a day read from
    the calendar after the run began in [w]. *)
Definition logged_from (env : Env) (record_id : json) (hours : number)
           (task : string)
           (notes task_date project_type record_stage : option string)
           (w : World) (data : dict json) : Prop :=
  Dict.lookup "Implementation__c" data = Some record_id
  /\ Dict.lookup "Hours_Worked__c" data = Some (JNum hours)
  /\ Dict.lookup "Project_Task__c" data = Some (JStr task)
  /\ Dict.lookup "Notes__c" data = option_map JStr (given notes)
  /\ Dict.lookup "Project_Type__c" data = option_map JStr (given project_type)
  /\ Dict.lookup "Record_Stage__c" data = option_map JStr (given record_stage)
  /\ (exists day,
        Dict.lookup "Task_Date__c" data = Some (JStr day)
        /\ match given task_date with
           | Some d => day = d
           | None => exists k, ticks w < k /\ day = calendar env k
           end)
  /\ NoDup (Dict.keys data)
  /\ incl (Dict.keys data)
          [ "Implementation__c"; "Hours_Worked__c"; "Project_Task__c";
            "Notes__c"; "Task_Date__c"; "Project_Type__c";
            "Record_Stage__c" ].

(** ** The keys [format_implementation] reads *)

Definition displayed_keys : list string :=
  "Name" :: "Id" :: map fst field_labels ++ ["Account__r"; "Opportunity__r"].

(** Two records with the same values under the displayed keys. *)
Definition same_display (r1 r2 : dict json) : Prop :=
  forall k, In k displayed_keys -> Dict.lookup k r1 = Dict.lookup k r2.

(** ** The writes of a session *)

(** The invocations that may write upstream. *)
Definition is_writing (c : ToolCall) : bool :=
  match c with
  | CallCreate _ _ _ _ _ _ | CallUpdate _ _ | CallLogHours _ _ _ _ _ _ _ =>
      true
  | _ => false
  end.

(** The calls of [create_record] and [update_record] on a trace. *)
Definition write_calls (tr : list Event) : list Event :=
  filter (fun e => negb (low_level e)) (mutating_calls tr).

(** The writes the tools are built to make: a new implementation, a new
    hours record, a change to an implementation. *)
Definition tool_write (e : Event) : bool :=
  match e with
  | EvCreateRecord sobject _ =>
      String.eqb sobject "Implementation__c"
      || String.eqb sobject "Implementation_Hours__c"
  | EvUpdateRecord sobject _ _ => String.eqb sobject "Implementation__c"
  | _ => false
  end.

(* ------------------------------------------------------------------ *)
(** * Properties of the string built-ins *)
(* ------------------------------------------------------------------ *)

Module PyStrFacts.
Import PyStr.

Lemma str_in_In (x : string) (xs : list string) :
  str_in x xs = true <-> In x xs.
Proof.
  unfold str_in. rewrite existsb_exists. split.
  - intros [y [Hy He]]. apply String.eqb_eq in He. now subst.
  - intros H. exists x. split; [assumption | apply String.eqb_refl].
Qed.

Lemma str_in_false (x : string) (xs : list string) :
  str_in x xs = false <-> ~ In x xs.
Proof.
  rewrite <- str_in_In. destruct (str_in x xs); split; congruence.
Qed.

Lemma split_not_nil (sep : ascii) (s : string) : split sep s <> [].
Proof.
  destruct s as [|c r]; simpl; [discriminate|].
  destruct (Ascii.eqb c sep); [discriminate|].
  destruct (split sep r); discriminate.
Qed.

Lemma split_no_sep (sep : ascii) (s : string) :
  Forall (fun p => has_char sep p = false) (split sep s).
Proof.
  induction s as [|c r IH]; simpl.
  - constructor; [reflexivity | constructor].
  - destruct (Ascii.eqb c sep) eqn:E.
    + constructor; [reflexivity | assumption].
    + destruct (split sep r) as [|hd tl].
      * constructor; [simpl; now rewrite E | constructor].
      * inversion IH; subst. constructor; [simpl; now rewrite E | assumption].
Qed.

Lemma split_plain (sep : ascii) (s : string) :
  has_char sep s = false -> split sep s = [s].
Proof.
  induction s as [|c r IH]; simpl; [reflexivity|].
  intros H. apply orb_false_iff in H as [Hc Hr].
  rewrite Hc, (IH Hr). reflexivity.
Qed.

Lemma split_app (sep : ascii) (x r : string) :
  has_char sep x = false ->
  split sep (x +++ String sep r) = x :: split sep r.
Proof.
  induction x as [|c x IH]; simpl.
  - intros _. now rewrite Ascii.eqb_refl.
  - intros H. apply orb_false_iff in H as [Hc Hx].
    rewrite Hc, (IH Hx). reflexivity.
Qed.

Lemma concat_cons2 (sep x y : string) (ys : list string) :
  String.concat sep (x :: y :: ys) = x +++ sep +++ String.concat sep (y :: ys).
Proof. reflexivity. Qed.

Lemma one_char_app (c : ascii) (t : string) :
  String c EmptyString +++ t = String c t.
Proof. reflexivity. Qed.

(** Joining parts that hold no separator and splitting again gives the
    parts back. *)
Lemma split_join (sep : ascii) (parts : list string) :
  parts <> [] ->
  Forall (fun p => has_char sep p = false) parts ->
  split sep (join (String sep EmptyString) parts) = parts.
Proof.
  unfold join. induction parts as [|x xs IH]; [congruence|].
  intros _ HF. inversion HF as [|? ? Hx Hxs]; subst.
  destruct xs as [|y ys].
  - simpl. now apply split_plain.
  - rewrite (concat_cons2 (String sep EmptyString) x y ys), one_char_app.
    rewrite split_app by assumption.
    rewrite IH; [reflexivity | discriminate | assumption].
Qed.

Lemma lstrip_has_char (c : ascii) (s : string) :
  has_char c s = false -> has_char c (lstrip s) = false.
Proof.
  induction s as [|a r IH]; simpl; [reflexivity|].
  intros H. destruct (is_space a); [|exact H].
  apply orb_false_iff in H as [_ Hr]. auto.
Qed.

Lemma rstrip_has_char (c : ascii) (s : string) :
  has_char c s = false -> has_char c (rstrip s) = false.
Proof.
  induction s as [|a r IH]; simpl; [reflexivity|].
  intros H. apply orb_false_iff in H as [Ha Hr].
  destruct (is_space a && is_empty (rstrip r)); simpl; [reflexivity|].
  rewrite Ha. simpl. auto.
Qed.

Lemma strip_has_char (c : ascii) (s : string) :
  has_char c s = false -> has_char c (strip s) = false.
Proof.
  intros H. unfold strip. now apply rstrip_has_char, lstrip_has_char.
Qed.

Lemma lstrip_starts_visible (s : string) : starts_visible (lstrip s).
Proof.
  induction s as [|a r IH]; simpl; [exact I|].
  destruct (is_space a) eqn:E; [exact IH | simpl; exact E].
Qed.

Lemma lstrip_fixed (s : string) : starts_visible s -> lstrip s = s.
Proof.
  destruct s as [|a r]; simpl; [reflexivity|]. intros ->. reflexivity.
Qed.

Lemma rstrip_starts_visible (s : string) :
  starts_visible s -> starts_visible (rstrip s).
Proof.
  destruct s as [|a r]; simpl; [auto|].
  intros H. rewrite H. simpl. exact H.
Qed.

Lemma rstrip_idem (s : string) : rstrip (rstrip s) = rstrip s.
Proof.
  induction s as [|a r IH]; simpl; [reflexivity|].
  destruct (is_space a && is_empty (rstrip r)) eqn:E; [reflexivity|].
  simpl. rewrite IH, E. reflexivity.
Qed.

Lemma strip_idem (s : string) : strip (strip s) = strip s.
Proof.
  unfold strip.
  rewrite (lstrip_fixed (rstrip (lstrip s))).
  - apply rstrip_idem.
  - apply rstrip_starts_visible, lstrip_starts_visible.
Qed.

End PyStrFacts.

(* ------------------------------------------------------------------ *)
(** * The validation engine *)
(* ------------------------------------------------------------------ *)

Module ValidationFacts.
Import PyStr PyStrFacts.

(** No field has both a single-valued and a multi-valued domain. *)
Lemma single_not_multi (field : string) (valid : list string) :
  Dict.lookup field PICKLIST_VALIDATORS = Some valid ->
  Dict.lookup field MULTIPICKLIST_VALIDATORS = None.
Proof.
  unfold PICKLIST_VALIDATORS, MULTIPICKLIST_VALIDATORS. simpl.
  repeat match goal with
         | |- context [String.eqb field ?k] =>
             destruct (String.eqb_spec field k) as [->|_]
         end; simpl; congruence.
Qed.

Lemma multi_not_single (field : string) (valid : list string) :
  Dict.lookup field MULTIPICKLIST_VALIDATORS = Some valid ->
  Dict.lookup field PICKLIST_VALIDATORS = None.
Proof.
  intros H. destruct (Dict.lookup field PICKLIST_VALIDATORS) eqn:E;
    [|reflexivity].
  apply single_not_multi in E. congruence.
Qed.

Lemma validate_single (field value : string) (valid : list string) :
  Dict.lookup field PICKLIST_VALIDATORS = Some valid ->
  validate_picklist field value =
    if str_in value valid then None
    else Some (picklist_error field value valid).
Proof.
  intros H. unfold validate_picklist.
  rewrite H, (single_not_multi _ _ H).
  destruct (str_in value valid); reflexivity.
Qed.

Lemma validate_multi (field value : string) (valid : list string) :
  Dict.lookup field MULTIPICKLIST_VALIDATORS = Some valid ->
  validate_picklist field value =
    match invalid_parts valid (split_parts value) with
    | [] => None
    | invalid => Some (multipicklist_error field invalid valid)
    end.
Proof.
  intros H. unfold validate_picklist.
  rewrite H, (multi_not_single _ _ H). reflexivity.
Qed.

Lemma invalid_parts_In (valid parts : list string) (p : string) :
  In p (invalid_parts valid parts) <-> In p parts /\ ~ In p valid.
Proof.
  unfold invalid_parts. rewrite filter_In, negb_true_iff, str_in_false.
  reflexivity.
Qed.

Lemma invalid_parts_nil (valid parts : list string) :
  invalid_parts valid parts = [] <-> (forall p, In p parts -> In p valid).
Proof.
  split.
  - intros H p Hp. destruct (str_in p valid) eqn:E.
    + now apply str_in_In.
    + exfalso. apply str_in_false in E.
      assert (Hin : In p (invalid_parts valid parts))
        by (apply invalid_parts_In; auto).
      rewrite H in Hin. exact Hin.
  - intros H. destruct (invalid_parts valid parts) as [|p l] eqn:E;
      [reflexivity|].
    assert (Hin : In p (invalid_parts valid parts)) by (rewrite E; now left).
    apply invalid_parts_In in Hin as [Hp Hn]. exfalso. auto.
Qed.

(** Every error message is a non-empty text, so [if err:] sees it. *)
Lemma validate_error_not_empty (field value msg : string) :
  validate_picklist field value = Some msg -> is_empty msg = false.
Proof.
  unfold validate_picklist.
  destruct (Dict.lookup field PICKLIST_VALIDATORS) as [valid|].
  - destruct (negb (str_in value valid)).
    + intros [= <-]. reflexivity.
    + destruct (Dict.lookup field MULTIPICKLIST_VALIDATORS) as [valid'|];
        [|discriminate].
      destruct (invalid_parts valid' (split_parts value));
        [discriminate | intros [= <-]; reflexivity].
  - destruct (Dict.lookup field MULTIPICKLIST_VALIDATORS) as [valid'|];
      [|discriminate].
    destruct (invalid_parts valid' (split_parts value));
      [discriminate | intros [= <-]; reflexivity].
Qed.

Lemma split_parts_rejoin (value : string) :
  split_parts (rejoin value) = split_parts value.
Proof.
  unfold rejoin, split_parts.
  change ";" with (String semicolon EmptyString).
  rewrite split_join.
  - rewrite map_map. apply map_ext. intros s. apply strip_idem.
  - intros H. apply map_eq_nil in H. exact (split_not_nil _ _ H).
  - apply Forall_map. eapply Forall_impl; [|apply split_no_sep].
    intros s. apply strip_has_char.
Qed.

End ValidationFacts.

(** C6.  [validate_picklist] on the three kinds of field.  A field with a
    single-valued domain passes exactly when the value is a member of the
    domain (compared character by character), and otherwise gets the error
    that lists the whole domain; a field with a multi-valued domain passes
    exactly when every trimmed part of the value split on [;] is a member,
    and otherwise gets the error that carries all the invalid parts and the
    whole domain; a field in neither table always passes. *)
Theorem validate_picklist_by_domain (field value : string) :
  (forall valid, Dict.lookup field PICKLIST_VALIDATORS = Some valid ->
     (validate_picklist field value = None <-> In value valid) /\
     (~ In value valid ->
      validate_picklist field value
      = Some ("Invalid value '" +++ value +++ "' for " +++ field
              +++ ". Valid values: " +++ PyStr.join ", " valid)))
  /\ (forall valid, Dict.lookup field MULTIPICKLIST_VALIDATORS = Some valid ->
     let parts := map PyStr.strip (PyStr.split semicolon value) in
     (validate_picklist field value = None
      <-> (forall p, In p parts -> In p valid)) /\
     (~ (forall p, In p parts -> In p valid) ->
      exists invalid,
        validate_picklist field value
        = Some ("Invalid value(s) " +++ PyStr.repr_list invalid +++ " for "
                +++ field +++ ". Valid values: " +++ PyStr.join ", " valid)
        /\ invalid = filter (fun p => negb (PyStr.str_in p valid)) parts
        /\ (forall p, In p invalid <-> In p parts /\ ~ In p valid)))
  /\ (Dict.lookup field PICKLIST_VALIDATORS = None ->
      Dict.lookup field MULTIPICKLIST_VALIDATORS = None ->
      validate_picklist field value = None).
Proof.
  split; [|split].
  - intros valid H. rewrite (ValidationFacts.validate_single _ _ _ H).
    destruct (PyStr.str_in value valid) eqn:E.
    + apply PyStrFacts.str_in_In in E. split; [tauto | contradiction].
    + apply PyStrFacts.str_in_false in E.
      split; [split; [discriminate | contradiction] | reflexivity].
  - intros valid H parts.
    change parts with (split_parts value). clear parts.
    rewrite (ValidationFacts.validate_multi _ _ _ H).
    pose proof (ValidationFacts.invalid_parts_nil valid (split_parts value))
      as Hnil.
    destruct (invalid_parts valid (split_parts value)) as [|p l] eqn:E.
    + split; [split; [intros _; now apply Hnil | reflexivity]|].
      intros Hn. exfalso. apply Hn. now apply Hnil.
    + split; [split; [discriminate | intros Ha; now apply Hnil in Ha]|].
      intros _. exists (p :: l). split; [reflexivity|].
      split; [symmetry; exact E|].
      rewrite <- E. apply ValidationFacts.invalid_parts_In.
  - intros H1 H2. unfold validate_picklist. now rewrite H1, H2.
Qed.

Lemma validate_picklist_by_domain_witness :
  (validate_picklist "Type__c" "Join" = None <-> In "Join" VALID_TYPES)
  /\ validate_picklist "Features__c" "Caggs; Vector" = None
  /\ validate_picklist "Risks__c" "anything" = None.
Proof.
  destruct (validate_picklist_by_domain "Type__c" "Join") as [H1 _].
  destruct (validate_picklist_by_domain "Features__c" "Caggs; Vector")
    as [_ [H2 _]].
  destruct (validate_picklist_by_domain "Risks__c" "anything") as [_ [_ H3]].
  split; [exact (proj1 (H1 VALID_TYPES eq_refl))|].
  split; [|exact (H3 eq_refl eq_refl)].
  apply (proj1 (H2 VALID_FEATURES eq_refl)).
  vm_compute. intros p Hp.
  repeat (destruct Hp as [<-|Hp]; [tauto|]). destruct Hp.
Defined.

(** C8.  For a multipicklist field, validating the value split on [;],
    trimmed part by part and joined again with [;] gives the same verdict
    (indeed the same result) as validating the value itself. *)
Theorem validate_rejoin_same_outcome (field value : string) :
  Dict.mem field MULTIPICKLIST_VALIDATORS = true ->
  accepts field (rejoin value) = accepts field value
  /\ validate_picklist field (rejoin value) = validate_picklist field value.
Proof.
  unfold Dict.mem. intros H.
  destruct (Dict.lookup field MULTIPICKLIST_VALIDATORS) as [valid|] eqn:E;
    [|discriminate].
  assert (Heq : validate_picklist field (rejoin value)
                = validate_picklist field value).
  { rewrite !(ValidationFacts.validate_multi _ _ _ E).
    now rewrite ValidationFacts.split_parts_rejoin. }
  split; [unfold accepts; now rewrite Heq | exact Heq].
Qed.

Lemma validate_rejoin_same_outcome_witness :
  rejoin " Caggs ;bogus;  Vector" = "Caggs;bogus;Vector"
  /\ accepts "Features__c" "Caggs;bogus;Vector"
     = accepts "Features__c" " Caggs ;bogus;  Vector".
Proof.
  split; [reflexivity|].
  exact (proj1 (validate_rejoin_same_outcome "Features__c"
                  " Caggs ;bogus;  Vector" eq_refl)).
Defined.

(* ------------------------------------------------------------------ *)
(** * Reasoning about computations: weakest preconditions *)
(* ------------------------------------------------------------------ *)

Section WpRules.

Context {A B : Type}.

Lemma wp_ret (a : A) (Q : outcome A -> World -> Prop) (w : World) :
  Q (Ret a) w -> wp (ret a) Q w.
Proof. exact (fun H => H). Qed.

Lemma wp_raise (e : exn) (Q : outcome A -> World -> Prop) (w : World) :
  Q (Raise e) w -> wp (raise e) Q w.
Proof. exact (fun H => H). Qed.

Lemma wp_lift (o : outcome A) (Q : outcome A -> World -> Prop) (w : World) :
  Q o w -> wp (lift o) Q w.
Proof. exact (fun H => H). Qed.

Lemma wp_bind (m : M A) (k : A -> M B) (Q : outcome B -> World -> Prop)
      (w : World) :
  wp m (fun r w1 =>
          match r with
          | Ret a => wp (k a) Q w1
          | Raise e => Q (Raise e) w1
          end) w ->
  wp (bind m k) Q w.
Proof.
  unfold wp, bind. destruct (m w) as [[a|e] w1]; simpl; auto.
Qed.

Lemma wp_mono (m : M A) (Q Q' : outcome A -> World -> Prop) (w : World) :
  wp m Q w -> (forall r w', Q r w' -> Q' r w') -> wp m Q' w.
Proof. unfold wp. auto. Qed.

Lemma wp_run (m : M A) (Q : outcome A -> World -> Prop) (w : World)
      (r : outcome A) (w' : World) :
  m w = (r, w') -> wp m Q w -> Q r w'.
Proof. unfold wp. intros ->. auto. Qed.

Lemma wp_except (m : M A) (h : string -> M A)
      (Q : outcome A -> World -> Prop) (w : World) :
  wp m (fun r w1 =>
          match r with
          | Raise (ValueError msg) => wp (h msg) Q w1
          | Raise (JSONDecodeError msg) => wp (h msg) Q w1
          | _ => Q r w1
          end) w ->
  wp (except_ValueError m h) Q w.
Proof.
  unfold wp, except_ValueError.
  destruct (m w) as [[a|[]] w1]; simpl; auto.
Qed.

End WpRules.

Lemma wp_get_world (Q : outcome World -> World -> Prop) (w : World) :
  Q (Ret w) w -> wp get_world Q w.
Proof. exact (fun H => H). Qed.

Lemma wp_return_if_error (err : option string) (rest : M string)
      (Q : outcome string -> World -> Prop) (w : World) :
  (forall e, err = Some e -> PyStr.is_empty e = false -> Q (Ret e) w) ->
  wp rest Q w ->
  wp (return_if_error err rest) Q w.
Proof.
  intros He Hr. unfold return_if_error.
  destruct err as [e|]; [|exact Hr].
  destruct (PyStr.is_empty e) eqn:E; [exact Hr|].
  apply wp_ret. now apply He.
Qed.

(* ------------------------------------------------------------------ *)
(** * The REST client *)
(* ------------------------------------------------------------------ *)

Module ClientFacts.

Lemma http_send_eq (env : Env) (req : Request) (w : World) :
  http_send env req w
  = (match server env (trace w) req with
     | Replied resp => Ret resp
     | NoReply => Raise TransportError
     end,
     with_trace w (trace w ++ [EvHttp req (server env (trace w) req)])).
Proof.
  unfold http_send, log, with_trace.
  destruct (server env (trace w) req); reflexivity.
Qed.

Lemma authenticate_post (env : Env) (w : World) :
  authenticated env w (snd (authenticate env w)).
Proof.
  unfold authenticated, same_state, authenticate, bind, get_world, log.
  cbn [fst snd sf_client access_ctl create_timestamps trace ticks].
  rewrite http_send_eq.
  fold (token_request (sf_client w)).
  cbn [fst snd sf_client access_ctl create_timestamps trace ticks with_trace].
  destruct (server env (trace w ++ [EvAuthenticate])
              (token_request (sf_client w))) as [resp|];
    cbn [fst snd sf_client access_ctl create_timestamps trace ticks];
    [|rewrite <- app_assoc; repeat split].
  unfold raise_for_status, resp_json, lift, set_token, ret, raise.
  destruct ((200 <=? status_code resp) && (status_code resp <=? 299))%Z;
    cbn [fst snd sf_client access_ctl create_timestamps trace ticks];
    [|rewrite <- app_assoc; repeat split].
  destruct (body resp) as [j|msg];
    cbn [fst snd sf_client access_ctl create_timestamps trace ticks];
    [|rewrite <- app_assoc; repeat split].
  destruct (Py.getitem j "access_token");
    cbn [fst snd sf_client access_ctl create_timestamps trace ticks
         client_id client_secret instance_url];
    rewrite <- app_assoc; repeat split.
Qed.

(** The unfolding of [_request] along its three paths. *)
Lemma _request_eq (env : Env) (method url : string) (extra : dict string)
      (payload : Payload) (w : World) :
  let req1 := api_request method url extra payload (sf_client w) env in
  let rep1 := server env (trace w) req1 in
  let w1 := with_trace w (trace w ++ [EvHttp req1 rep1]) in
  _request env method url extra payload w
  = match rep1 with
    | NoReply => (Raise TransportError, w1)
    | Replied resp =>
        if (status_code resp =? 401)%Z then
          match authenticate env w1 with
          | (Ret _, w2) =>
              http_send env
                (api_request method url extra payload (sf_client w2) env) w2
          | (Raise e, w2) => (Raise e, w2)
          end
        else (Ret resp, w1)
    end.
Proof.
  intros req1 rep1 w1. unfold _request, bind, get_world.
  rewrite http_send_eq. fold (api_request method url extra payload (sf_client w) env).
  fold req1. fold rep1. fold w1.
  destruct rep1 as [resp|]; [|reflexivity].
  destruct (status_code resp =? 401)%Z; [|reflexivity].
  destruct (authenticate env w1) as [[[]|e] w2]; reflexivity.
Qed.

End ClientFacts.

Module TraceFacts.

Lemma events_since_app (w w' : World) (evs : list Event) :
  trace w' = trace w ++ evs -> events_since w w' = evs.
Proof.
  unfold events_since. intros ->.
  rewrite skipn_app, skipn_all, Nat.sub_diag. reflexivity.
Qed.

Lemma mem_set {V} (k k' : string) (v : V) (d : dict V) :
  Dict.mem k d = true -> Dict.mem k (Dict.set k' v d) = true.
Proof.
  unfold Dict.mem. induction d as [|[k0 v0] r IH]; simpl; [discriminate|].
  destruct (String.eqb k' k0) eqn:E'; simpl;
    destruct (String.eqb k k0); auto.
Qed.

Lemma mem_merge {V} (k : string) (a b : dict V) :
  Dict.mem k a = true -> Dict.mem k (Dict.merge a b) = true.
Proof.
  unfold Dict.merge. revert a.
  induction b as [|[k' v'] r IH]; simpl; intros a H; [exact H|].
  apply IH. now apply mem_set.
Qed.

Lemma api_request_carries_token (env : Env) (method url : string)
      (extra : dict string) (payload : Payload) (c : SalesforceClient)
      (rep : Reply) :
  carries_token (EvHttp (api_request method url extra payload c env) rep)
  = true.
Proof. simpl. now apply mem_merge. Qed.

End TraceFacts.

Module RequestFacts.
Import ClientFacts TraceFacts.

Lemma token_request_no_token (c : SalesforceClient) (rep : Reply) :
  carries_token (EvHttp (token_request c) rep) = false.
Proof. reflexivity. Qed.

Lemma raise_for_status_failure (env : Env) (resp : Response) (w : World) :
  is_success resp = false ->
  raise_for_status resp w = (Raise (HTTPStatusError (status_code resp)), w).
Proof.
  unfold raise_for_status, is_success. intros ->. reflexivity.
Qed.

Lemma raise_for_status_success (env : Env) (resp : Response) (w : World) :
  is_success resp = true -> raise_for_status resp w = (Ret tt, w).
Proof.
  unfold raise_for_status, is_success. intros ->. reflexivity.
Qed.

(** The four typed methods raise on a response that is not a success,
    also when it is the response to the one retry. *)
Lemma query_surfaces_failure (env : Env) (soql : string) (w w' : World)
      (resp : Response) :
  _request env "GET" (base_url (sf_client w) +++ "/query/") []
    (Params [("q", soql)]) (with_trace w (trace w ++ [EvQuery soql]))
  = (Ret resp, w') ->
  is_success resp = false ->
  query env soql w = (Raise (HTTPStatusError (status_code resp)), w').
Proof.
  intros Hr Hs. unfold query, bind, log, get_world.
  cbn [sf_client]. unfold with_trace in Hr. rewrite Hr.
  now rewrite raise_for_status_failure.
Qed.

Lemma get_record_surfaces_failure (env : Env) (sobject : string)
      (record_id : json) (fields : list string) (w w' : World)
      (resp : Response) :
  _request env "GET"
    (base_url (sf_client w) +++ "/sobjects/" +++ sobject +++ "/"
     +++ py_str env record_id) []
    (Params (fields_params fields))
    (with_trace w (trace w ++ [EvGetRecord sobject record_id fields]))
  = (Ret resp, w') ->
  is_success resp = false ->
  get_record env sobject record_id fields w
  = (Raise (HTTPStatusError (status_code resp)), w').
Proof.
  intros Hr Hs. unfold get_record, bind, log, get_world.
  cbv beta zeta. cbn [sf_client]. unfold with_trace in Hr. rewrite Hr.
  now rewrite raise_for_status_failure.
Qed.

Lemma create_record_surfaces_failure (env : Env) (sobject : string)
      (data : dict json) (w w' : World) (resp : Response) :
  _request env "POST"
    (base_url (sf_client w) +++ "/sobjects/" +++ sobject +++ "/")
    [("Content-Type", "application/json")] (JsonBody data)
    (with_trace w (trace w ++ [EvCreateRecord sobject data]))
  = (Ret resp, w') ->
  is_success resp = false ->
  create_record env sobject data w
  = (Raise (HTTPStatusError (status_code resp)), w').
Proof.
  intros Hr Hs. unfold create_record, bind, log, get_world.
  cbn [sf_client]. unfold with_trace in Hr. rewrite Hr.
  now rewrite raise_for_status_failure.
Qed.

Lemma update_record_surfaces_failure (env : Env) (sobject : string)
      (record_id : json) (data : dict json) (w w' : World)
      (resp : Response) :
  _request env "PATCH"
    (base_url (sf_client w) +++ "/sobjects/" +++ sobject +++ "/"
     +++ py_str env record_id)
    [("Content-Type", "application/json")] (JsonBody data)
    (with_trace w (trace w ++ [EvUpdateRecord sobject record_id data]))
  = (Ret resp, w') ->
  is_success resp = false ->
  update_record env sobject record_id data w
  = (Raise (HTTPStatusError (status_code resp)), w').
Proof.
  intros Hr Hs. unfold update_record, bind, log, get_world.
  cbn [sf_client]. unfold with_trace in Hr. rewrite Hr.
  now rewrite raise_for_status_failure.
Qed.

(** The events of one [_request], path by path. *)
Lemma _request_events (env : Env) (method url : string)
      (extra : dict string) (payload : Payload) (w : World) :
  let req1 := api_request method url extra payload (sf_client w) env in
  let rep1 := server env (trace w) req1 in
  let w1 := with_trace w (trace w ++ [EvHttp req1 rep1]) in
  let run := _request env method url extra payload w in
  match rep1 with
  | NoReply =>
      run = (Raise TransportError, w1)
  | Replied resp =>
      if (status_code resp =? 401)%Z then
        let auth :=
          [ EvAuthenticate;
            EvHttp (token_request (sf_client w))
                   (server env (trace w1 ++ [EvAuthenticate])
                           (token_request (sf_client w))) ] in
        match authenticate env w1 with
        | (Ret _, w2) =>
            let req2 := api_request method url extra payload
                          (sf_client w2) env in
            let rep2 := server env (trace w2) req2 in
            fst run = delivered rep2
            /\ trace (snd run)
               = trace w ++ EvHttp req1 rep1 :: auth ++ [EvHttp req2 rep2]
            /\ same_state w (snd run)
        | (Raise e, w2) =>
            run = (Raise e, w2)
            /\ trace w2 = trace w ++ EvHttp req1 rep1 :: auth
            /\ same_state w w2
        end
      else run = (Ret resp, w1)
  end.
Proof.
  intros req1 rep1 w1 run. unfold run. rewrite _request_eq.
  fold req1. fold rep1. fold w1.
  destruct rep1 as [resp|]; [|reflexivity].
  destruct (status_code resp =? 401)%Z; [|reflexivity].
  pose proof (authenticate_post env w1) as (Hs & _ & _ & _ & Ht).
  destruct (authenticate env w1) as [[[]|e] w2]; cbn [snd] in *.
  - rewrite http_send_eq. cbn [fst snd with_trace trace].
    split; [reflexivity|]. split.
    + rewrite Ht. unfold w1. cbn [trace with_trace sf_client].
      rewrite <- !app_assoc. reflexivity.
    + unfold same_state, with_trace in *. cbn in *. exact Hs.
  - split; [reflexivity|]. split.
    + rewrite Ht. unfold w1. cbn [trace with_trace sf_client].
      rewrite <- !app_assoc. reflexivity.
    + exact Hs.
Qed.

End RequestFacts.

(** C5, as the code has it.  One [_request] makes at most one
    re-authentication and at most two attempts, all of them the same
    request up to the bearer token.  When the first response is a 401 there
    is exactly one re-authentication; if it succeeds the request is sent
    exactly once more and what comes back is the result, whatever its
    status; if it fails its exception is the result and the request is not
    sent again.  On any other first response nothing more is sent.  The
    typed methods turn a response that is not a 2xx, retried or not, into
    [HTTPStatusError]. *)
Theorem request_reauthenticates_once (env : Env) (method url : string)
        (extra : dict string) (payload : Payload) (w : World) :
  let run := _request env method url extra payload w in
  let evs := events_since w (snd run) in
  let req1 := api_request method url extra payload (sf_client w) env in
  let rep1 := server env (trace w) req1 in
  let w1 := with_trace w (trace w ++ [EvHttp req1 rep1]) in
  (reauthentications evs <= 1 /\ attempts evs <= 2)
  /\ Forall (fun e => carries_token e = true ->
                      exists c rep,
                        e = EvHttp (api_request method url extra payload c env)
                                   rep) evs
  /\ (forall resp, rep1 = Replied resp -> status_code resp = 401%Z ->
      reauthentications evs = 1
      /\ (forall w2, authenticate env w1 = (Ret tt, w2) ->
          attempts evs = 2
          /\ fst run
             = delivered
                 (server env (trace w2)
                    (api_request method url extra payload (sf_client w2) env)))
      /\ (forall e w2, authenticate env w1 = (Raise e, w2) ->
          attempts evs = 1 /\ run = (Raise e, w2)))
  /\ (forall resp, rep1 = Replied resp -> status_code resp <> 401%Z ->
      reauthentications evs = 0 /\ attempts evs = 1 /\ run = (Ret resp, w1))
  /\ (rep1 = NoReply ->
      reauthentications evs = 0 /\ attempts evs = 1
      /\ run = (Raise TransportError, w1))
  /\ failure_surfaced_by_callers env.
Proof.
  intros run evs req1 rep1 w1.
  pose proof (RequestFacts._request_events env method url extra payload w)
    as H.
  cbv zeta in H. fold req1 rep1 w1 run in H.
  assert (Hone : trace w1 = trace w ++ [EvHttp req1 rep1]) by reflexivity.
  assert (Hc1 : carries_token (EvHttp req1 rep1) = true)
    by apply TraceFacts.api_request_carries_token.
  assert (Hsurf : failure_surfaced_by_callers env).
  { repeat split; intros.
    - now apply RequestFacts.query_surfaces_failure.
    - now apply RequestFacts.get_record_surfaces_failure.
    - now apply RequestFacts.create_record_surfaces_failure.
    - now apply RequestFacts.update_record_surfaces_failure. }
  destruct rep1 as [resp|] eqn:Erep.
  - destruct (status_code resp =? 401)%Z eqn:E401.
    + apply Z.eqb_eq in E401.
      destruct (authenticate env w1) as [[[]|e] w2] eqn:Eauth.
      * destruct H as (Hr & Ht & _).
        assert (Hevs : evs = EvHttp req1 (Replied resp)
                       :: [EvAuthenticate;
                           EvHttp (token_request (sf_client w))
                             (server env (trace w1 ++ [EvAuthenticate])
                                (token_request (sf_client w)))]
                       ++ [EvHttp (api_request method url extra payload
                                     (sf_client w2) env)
                             (server env (trace w2)
                                (api_request method url extra payload
                                   (sf_client w2) env))])
          by (apply TraceFacts.events_since_app; exact Ht).
        pose proof (TraceFacts.api_request_carries_token env method url extra
                      payload (sf_client w2)
                      (server env (trace w2)
                         (api_request method url extra payload
                            (sf_client w2) env))) as Hc2.
        assert (Hn : reauthentications evs = 1 /\ attempts evs = 2).
        { rewrite Hevs. unfold reauthentications, attempts.
          cbn [filter app]. rewrite Hc1, Hc2.
          cbn [is_authenticate carries_token token_request req_headers
               Dict.mem Dict.lookup List.length]. auto. }
        destruct Hn as [Hn1 Hn2].
        split; [lia|]. split.
        { rewrite Hevs. repeat constructor; try discriminate; intros _.
          - now exists (sf_client w), (Replied resp).
          - eexists _, _. reflexivity. }
        split.
        { intros resp' [= <-] _. split; [exact Hn1|]. split.
          - intros w2' [= <-]. split; [exact Hn2 | exact Hr].
          - intros e w2' [=]. }
        split; [intros resp' [= <-] Hne; contradiction|].
        split; [discriminate | exact Hsurf].
      * destruct H as (Hr & Ht & _).
        assert (Hevs : evs = EvHttp req1 (Replied resp)
                       :: [EvAuthenticate;
                           EvHttp (token_request (sf_client w))
                             (server env (trace w1 ++ [EvAuthenticate])
                                (token_request (sf_client w)))]).
        { apply TraceFacts.events_since_app. rewrite Hr.
          exact Ht. }
        assert (Hn : reauthentications evs = 1 /\ attempts evs = 1).
        { rewrite Hevs. unfold reauthentications, attempts.
          cbn [filter app]. rewrite Hc1.
          cbn [is_authenticate carries_token token_request req_headers
               Dict.mem Dict.lookup List.length]. auto. }
        destruct Hn as [Hn1 Hn2].
        split; [lia|]. split.
        { rewrite Hevs. repeat constructor; try discriminate; intros _.
          now exists (sf_client w), (Replied resp). }
        split.
        { intros resp' [= <-] _. split; [exact Hn1|]. split.
          - intros w2' [=].
          - intros e' w2' [= <- <-]. split; [exact Hn2 | exact Hr]. }
        split; [intros resp' [= <-] Hne; contradiction|].
        split; [discriminate | exact Hsurf].
    + apply Z.eqb_neq in E401.
      assert (Hevs : evs = [EvHttp req1 (Replied resp)]).
      { apply TraceFacts.events_since_app. rewrite H.
        exact Hone. }
      assert (Hn : reauthentications evs = 0 /\ attempts evs = 1).
      { rewrite Hevs. unfold reauthentications, attempts.
        cbn [filter]. rewrite Hc1. auto. }
      destruct Hn as [Hn1 Hn2].
      split; [lia|]. split.
      { rewrite Hevs. repeat constructor. intros _.
        now exists (sf_client w), (Replied resp). }
      split; [intros resp' [= <-] He; contradiction|].
      split; [intros resp' [= <-] _; auto|].
      split; [discriminate | exact Hsurf].
  - assert (Hevs : evs = [EvHttp req1 NoReply]).
    { apply TraceFacts.events_since_app. rewrite H. exact Hone. }
    assert (Hn : reauthentications evs = 0 /\ attempts evs = 1).
    { rewrite Hevs. unfold reauthentications, attempts.
      cbn [filter]. rewrite Hc1. auto. }
    destruct Hn as [Hn1 Hn2].
    split; [lia|]. split.
    { rewrite Hevs. repeat constructor. intros _.
      now exists (sf_client w), NoReply. }
    split; [discriminate|]. split; [discriminate|].
    split; [auto | exact Hsurf].
Qed.

Lemma request_reauthenticates_once_witness :
  attempts
    (events_since sample_world
       (snd (_request expired_env "GET" probe_url [] (Params [])
               sample_world))) = 2.
Proof.
  destruct (request_reauthenticates_once expired_env "GET" probe_url []
              (Params []) sample_world) as (_ & _ & H & _).
  destruct (H (mkResponse 401%Z
                 (BText "Expecting value: line 1 column 1 (char 0)"))
              eq_refl eq_refl) as (_ & H2 & _).
  refine (proj1 (H2 (snd (authenticate expired_env
                            (with_trace sample_world
                               (trace sample_world ++
                                [EvHttp (api_request "GET" probe_url []
                                           (Params []) sample_client
                                           expired_env)
                                   (failure 401%Z)])))) _)).
  vm_compute. reflexivity.
Defined.

(** C5 as the claim states it fails when the re-authentication itself is
    refused: the first response is a 401, [authenticate] gets a 503 from the
    token endpoint, its exception leaves [_request] and the request is not
    sent a second time. *)
Lemma request_no_retry_when_reauthentication_fails :
  server down_env (trace sample_world)
    (api_request "GET" probe_url [] (Params []) sample_client down_env)
  = failure 401%Z
  /\ reauthentications
       (events_since sample_world
          (snd (_request down_env "GET" probe_url [] (Params [])
                  sample_world))) = 1
  /\ attempts
       (events_since sample_world
          (snd (_request down_env "GET" probe_url [] (Params [])
                  sample_world))) = 1
  /\ fst (_request down_env "GET" probe_url [] (Params []) sample_world)
     = Raise (HTTPStatusError 503%Z).
Proof. vm_compute. repeat split. Qed.

(* ------------------------------------------------------------------ *)
(** * The client methods, as the tools see them *)
(* ------------------------------------------------------------------ *)

Module CallFacts.
Import ClientFacts TraceFacts RequestFacts.

Lemma same_state_refl (w : World) : same_state w w.
Proof. repeat split. Qed.

Lemma same_state_trans (w1 w2 w3 : World) :
  same_state w1 w2 -> same_state w2 w3 -> same_state w1 w3.
Proof.
  unfold same_state. intros (A & B & C) (A' & B' & C').
  repeat split; congruence.
Qed.

(** The events of one [_request] are low-level, and carry a JSON body
    only if the request does. *)
Lemma _request_post (env : Env) (method url : string)
      (extra : dict string) (payload : Payload) (w : World) :
  let w' := snd (_request env method url extra payload w) in
  same_state w w'
  /\ exists evs,
       trace w' = trace w ++ evs
       /\ Forall (fun e => low_level e = true
                           /\ (is_mutating e = true ->
                               is_json_payload payload = true)) evs.
Proof.
  pose proof (_request_events env method url extra payload w) as H.
  cbv zeta in *.
  set (req1 := api_request method url extra payload (sf_client w) env) in *.
  set (rep1 := server env (trace w) req1) in *.
  assert (Hlow : forall c rep,
             low_level (EvHttp (api_request method url extra payload c env)
                               rep) = true
             /\ (is_mutating (EvHttp (api_request method url extra payload
                                        c env) rep) = true ->
                 is_json_payload payload = true)).
  { intros c rep. split; [reflexivity|]. simpl. destruct payload; auto. }
  destruct rep1 as [resp|].
  - destruct (status_code resp =? 401)%Z.
    + destruct (authenticate env _) as [[[]|e] w2].
      * destruct H as (_ & Ht & Hs). split; [exact Hs|].
        eexists. split; [exact Ht|].
        repeat constructor; try apply Hlow; discriminate.
      * destruct H as (Hr & Ht & Hs). rewrite Hr. cbn [snd].
        split; [exact Hs|]. eexists. split; [exact Ht|].
        repeat constructor; try apply Hlow; discriminate.
    + rewrite H. cbn [snd]. split; [repeat split|].
      eexists. split; [reflexivity|]. repeat constructor; apply Hlow.
  - rewrite H. cbn [snd]. split; [repeat split|].
    eexists. split; [reflexivity|]. repeat constructor; apply Hlow.
Qed.

(** With a healthy upstream the first attempt succeeds. *)
Lemma _request_healthy (env : Env) (method url : string)
      (extra : dict string) (payload : Payload) (w : World) :
  healthy env ->
  exists resp j,
    fst (_request env method url extra payload w) = Ret resp
    /\ is_success resp = true
    /\ body resp = BJson j
    /\ well_formed_body j = true.
Proof.
  intros Hh. rewrite _request_eq. cbv zeta.
  specialize (Hh (trace w)
                (api_request method url extra payload (sf_client w) env)).
  destruct (server env (trace w) _) as [resp|]; [|discriminate].
  simpl in Hh. apply andb_prop in Hh as [Hs Hb].
  destruct (body resp) as [j|] eqn:Eb; [|discriminate].
  assert (H401 : (status_code resp =? 401)%Z = false).
  { unfold is_success in Hs. apply andb_prop in Hs as [_ Hs].
    apply Z.leb_le in Hs. apply Z.eqb_neq. lia. }
  rewrite H401. exists resp, j. auto.
Qed.

Lemma called_intro (call : Event) (payload : Payload) (w w' : World) :
  (is_json_payload payload = true -> is_mutating call = true) ->
  (same_state (with_trace w (trace w ++ [call])) w'
   /\ exists evs,
        trace w' = trace (with_trace w (trace w ++ [call])) ++ evs
        /\ Forall (fun e => low_level e = true
                            /\ (is_mutating e = true ->
                                is_json_payload payload = true)) evs) ->
  called call w w'.
Proof.
  intros Hp (Hs & evs & Ht & Hf). split; [exact Hs|].
  exists evs. split.
  - rewrite Ht. cbn [trace with_trace]. now rewrite <- app_assoc.
  - eapply Forall_impl; [|exact Hf]. intros e [Hl Hm]. auto.
Qed.

End CallFacts.

Module MethodFacts.
Import ClientFacts TraceFacts RequestFacts CallFacts.

(** Runs the shared prefix of a typed method: the logged call, then
    [_request], whose post-conditions are put in the context. *)
Ltac method_prefix env call payload :=
  unfold wp, bind, log, get_world; cbv beta zeta;
  cbn [fst snd sf_client];
  match goal with
  | |- context [_request env ?m ?u ?h ?p ?w0] =>
      pose proof (_request_post env m u h p w0) as Hpost;
      pose proof (_request_healthy env m u h p w0) as Hhealthy;
      cbv zeta in Hpost;
      destruct (_request env m u h p w0) as [[resp|e] w1];
      cbn [fst snd] in *
  end.

Lemma query_spec (env : Env) (soql : string) (w : World) :
  wp (query env soql)
     (fun r w' =>
        called (EvQuery soql) w w'
        /\ (healthy env ->
            exists j, r = Ret j /\ well_formed_body j = true)) w.
Proof.
  unfold query. method_prefix env (EvQuery soql) (Params [("q", soql)]).
  - unfold raise_for_status. fold (is_success resp).
    destruct (is_success resp) eqn:Es; cbn [fst snd ret raise].
    + unfold resp_json. destruct (body resp) as [j|msg] eqn:Eb;
        cbn [fst snd ret raise]; (split;
          [apply (called_intro _ (Params [("q", soql)])); [discriminate|exact Hpost]|]);
        intros Hh; destruct (Hhealthy Hh) as (resp' & j' & [= <-] & _ & Hb & Hw).
      * exists j. split; congruence.
      * congruence.
    + split;
        [apply (called_intro _ (Params [("q", soql)])); [discriminate|exact Hpost]|].
      intros Hh. destruct (Hhealthy Hh) as (resp' & j' & [= <-] & Hs & _).
      congruence.
  - split;
      [apply (called_intro _ (Params [("q", soql)])); [discriminate|exact Hpost]|].
    intros Hh. destruct (Hhealthy Hh) as (resp' & j' & [=] & _).
Qed.

Lemma get_record_spec (env : Env) (sobject : string) (record_id : json)
      (fields : list string) (w : World) :
  wp (get_record env sobject record_id fields)
     (fun r w' =>
        called (EvGetRecord sobject record_id fields) w w'
        /\ (healthy env ->
            exists j, r = Ret j /\ well_formed_body j = true)) w.
Proof.
  unfold get_record.
  method_prefix env (EvGetRecord sobject record_id fields)
                (Params (fields_params fields)).
  - unfold raise_for_status. fold (is_success resp).
    destruct (is_success resp) eqn:Es; cbn [fst snd ret raise].
    + unfold resp_json. destruct (body resp) as [j|msg] eqn:Eb;
        cbn [fst snd ret raise]; (split;
          [apply (called_intro _ (Params (fields_params fields)));
           [discriminate|exact Hpost]|]);
        intros Hh; destruct (Hhealthy Hh) as (resp' & j' & [= <-] & _ & Hb & Hw).
      * exists j. split; congruence.
      * congruence.
    + split;
        [apply (called_intro _ (Params (fields_params fields)));
         [discriminate|exact Hpost]|].
      intros Hh. destruct (Hhealthy Hh) as (resp' & j' & [= <-] & Hs & _).
      congruence.
  - split;
      [apply (called_intro _ (Params (fields_params fields)));
       [discriminate|exact Hpost]|].
    intros Hh. destruct (Hhealthy Hh) as (resp' & j' & [=] & _).
Qed.

Lemma create_record_spec (env : Env) (sobject : string) (data : dict json)
      (w : World) :
  wp (create_record env sobject data)
     (fun r w' =>
        called (EvCreateRecord sobject data) w w'
        /\ (healthy env ->
            exists j, r = Ret j /\ well_formed_body j = true)) w.
Proof.
  unfold create_record.
  method_prefix env (EvCreateRecord sobject data) (JsonBody data).
  - unfold raise_for_status. fold (is_success resp).
    destruct (is_success resp) eqn:Es; cbn [fst snd ret raise].
    + unfold resp_json. destruct (body resp) as [j|msg] eqn:Eb;
        cbn [fst snd ret raise]; (split;
          [apply (called_intro _ (JsonBody data)); [reflexivity|exact Hpost]|]);
        intros Hh; destruct (Hhealthy Hh) as (resp' & j' & [= <-] & _ & Hb & Hw).
      * exists j. split; congruence.
      * congruence.
    + split;
        [apply (called_intro _ (JsonBody data)); [reflexivity|exact Hpost]|].
      intros Hh. destruct (Hhealthy Hh) as (resp' & j' & [= <-] & Hs & _).
      congruence.
  - split;
      [apply (called_intro _ (JsonBody data)); [reflexivity|exact Hpost]|].
    intros Hh. destruct (Hhealthy Hh) as (resp' & j' & [=] & _).
Qed.

Lemma update_record_spec (env : Env) (sobject : string) (record_id : json)
      (data : dict json) (w : World) :
  wp (update_record env sobject record_id data)
     (fun r w' =>
        called (EvUpdateRecord sobject record_id data) w w'
        /\ (healthy env -> exists b, r = Ret b)) w.
Proof.
  unfold update_record.
  method_prefix env (EvUpdateRecord sobject record_id data) (JsonBody data).
  - unfold raise_for_status. fold (is_success resp).
    destruct (is_success resp) eqn:Es; cbn [fst snd ret raise].
    + split;
        [apply (called_intro _ (JsonBody data)); [reflexivity|exact Hpost]|].
      intros _. eexists. reflexivity.
    + split;
        [apply (called_intro _ (JsonBody data)); [reflexivity|exact Hpost]|].
      intros Hh. destruct (Hhealthy Hh) as (resp' & j' & [= <-] & Hs & _).
      congruence.
  - split;
      [apply (called_intro _ (JsonBody data)); [reflexivity|exact Hpost]|].
    intros Hh. destruct (Hhealthy Hh) as (resp' & j' & [=] & _).
Qed.

End MethodFacts.

Module CalledFacts.
Import CallFacts.

Lemma filter_low_level_events (P : Event -> Prop) (evs : list Event) :
  Forall (fun e => low_level e = true /\ P e) evs ->
  filter (fun e => negb (low_level e)) evs = [].
Proof.
  induction 1 as [|e l [Hl _] _ IH]; simpl; [reflexivity|].
  now rewrite Hl.
Qed.

Lemma called_client_calls (call : Event) (w w' : World) :
  low_level call = false ->
  called call w w' ->
  client_calls (trace w') = client_calls (trace w) ++ [call].
Proof.
  intros Hc (_ & evs & Ht & Hf). unfold client_calls.
  rewrite Ht, filter_app. cbn [filter]. rewrite Hc. cbn [negb].
  now rewrite (filter_low_level_events _ _ Hf).
Qed.

Lemma called_writes (call : Event) (w w' : World) :
  is_mutating call = false ->
  called call w w' ->
  mutating_calls (trace w') = mutating_calls (trace w).
Proof.
  intros Hc (_ & evs & Ht & Hf). unfold mutating_calls.
  rewrite Ht, filter_app. cbn [filter]. rewrite Hc.
  assert (Hnil : filter is_mutating evs = []).
  { clear Ht. induction Hf as [|e l [_ Hm] _ IH]; simpl; [reflexivity|].
    destruct (is_mutating e); [|exact IH].
    specialize (Hm eq_refl). congruence. }
  rewrite Hnil. apply app_nil_r.
Qed.

Lemma called_same_state (call : Event) (w w' : World) :
  called call w w' -> same_state w w'.
Proof. now intros [H _]. Qed.

Lemma eq_strings (a b : string) : Py.eq (JStr a) (JStr b) = true <-> a = b.
Proof. simpl. apply String.eqb_eq. Qed.

End CalledFacts.

(* ------------------------------------------------------------------ *)
(** * Access control *)
(* ------------------------------------------------------------------ *)

(** C2.  [can_update] on any record id.  An admin or manager is allowed at
    once, with an empty reason and without any upstream call.  Otherwise
    the only client call is one [get_record] on the record asking for the
    single field [CDE__c], nothing is written, and when that fetch returns a
    record the answer is allow with an empty reason exactly when the
    record's [CDE__c] equals the resolved user id, and deny with the fixed
    reason otherwise; a failed fetch propagates. *)
Theorem can_update_decision (env : Env) (implementation_id : json) (w : World) :
  let run := can_update env implementation_id w in
  let fetch :=
    get_record env "Implementation__c" implementation_id ["CDE__c"] w in
  (is_admin (access_ctl w) || is_manager (access_ctl w) = true ->
   run = (Ret (true, EmptyString), w))
  /\ (is_admin (access_ctl w) || is_manager (access_ctl w) = false ->
      snd run = snd fetch
      /\ client_calls (trace (snd run))
         = client_calls (trace w)
           ++ [EvGetRecord "Implementation__c" implementation_id ["CDE__c"]]
      /\ mutating_calls (trace (snd run)) = mutating_calls (trace w)
      /\ (forall e, fst fetch = Raise e -> fst run = Raise e)
      /\ (forall record cde_id,
             fst fetch = Ret record ->
             Py.get record "CDE__c" JNull = Ret cde_id ->
             (Py.eq cde_id (user_id (access_ctl w)) = true ->
              fst run = Ret (true, EmptyString))
             /\ (Py.eq cde_id (user_id (access_ctl w)) = false ->
                 fst run
                 = Ret (false,
                        "Access denied: you are not the assigned CDE on this record. Only the CDE, admins, or the manager can update it."))))
  /\ (forall a b, Py.eq (JStr a) (JStr b) = true <-> a = b).
Proof.
  intros run fetch. split; [|split; [|apply CalledFacts.eq_strings]].
  - intros Hp. unfold run, can_update, bind, get_world. now rewrite Hp.
  - intros Hp.
    pose proof (MethodFacts.get_record_spec env "Implementation__c"
                  implementation_id ["CDE__c"] w) as [Hc _].
    fold fetch in Hc.
    assert (Hrun : run = match fetch with
                         | (Ret record, w1) =>
                             match Py.get record "CDE__c" JNull with
                             | Ret cde_id =>
                                 (Ret (if Py.eq cde_id (user_id (access_ctl w1))
                                       then (true, EmptyString)
                                       else (false, ACCESS_DENIED)), w1)
                             | Raise e => (Raise e, w1)
                             end
                         | (Raise e, w1) => (Raise e, w1)
                         end).
    { unfold run, can_update, bind, get_world. rewrite Hp. fold fetch.
      destruct fetch as [[record|e] w1]; [|reflexivity].
      unfold lift. destruct (Py.get record "CDE__c" JNull); [|reflexivity].
      destruct (Py.eq _ _); reflexivity. }
    assert (Hsnd : snd run = snd fetch).
    { rewrite Hrun. destruct fetch as [[record|e] w1]; [|reflexivity].
      destruct (Py.get record "CDE__c" JNull); reflexivity. }
    split; [exact Hsnd|]. rewrite Hsnd.
    split; [now apply CalledFacts.called_client_calls with (1 := eq_refl)|].
    split; [now apply CalledFacts.called_writes with (2 := Hc)|].
    destruct Hc as [(Ha & _ & _) _].
    split.
    + intros e He. rewrite Hrun. destruct fetch as [[record|e'] w1];
        cbn [fst] in *; congruence.
    + intros record cde_id Hf Hg. rewrite Hrun.
      destruct fetch as [[record'|e'] w1]; cbn [fst snd] in *; [|discriminate].
      injection Hf as ->. rewrite Hg, Ha. cbn [fst].
      split; intros ->; reflexivity.
Qed.

Lemma can_update_decision_witness :
  can_update expired_env (JStr "a0B000000000001") manager_world
  = (Ret (true, EmptyString), manager_world).
Proof.
  exact (proj1 (can_update_decision expired_env (JStr "a0B000000000001")
                  manager_world) eq_refl).
Defined.

(* ------------------------------------------------------------------ *)
(** * The identifier resolver *)
(* ------------------------------------------------------------------ *)

Module ResolverFacts.

Lemma lower_char_a (c : ascii) :
  PyStr.lower_char c = "a"%char <-> c = "a"%char \/ c = "A"%char.
Proof.
  split.
  - destruct c as [[] [] [] [] [] [] [] []]; vm_compute; intros H;
      try discriminate H; auto.
  - intros [-> | ->]; reflexivity.
Qed.

Lemma lower_char_0 (c : ascii) :
  PyStr.lower_char c = "0"%char <-> c = "0"%char.
Proof.
  split.
  - destruct c as [[] [] [] [] [] [] [] []]; vm_compute; intros H;
      try discriminate H; auto.
  - intros ->; reflexivity.
Qed.

(** The test of the source, spelled out: length 15 or 18, and the first
    two characters are [a] or [A] followed by [0]. *)
Lemma looks_like_id_iff (s : string) :
  looks_like_id s = true
  <-> (String.length s = 15 \/ String.length s = 18)
      /\ exists c r, s = String c (String "0" r)
                     /\ (c = "a"%char \/ c = "A"%char).
Proof.
  unfold looks_like_id.
  rewrite andb_true_iff, orb_true_iff, !Nat.eqb_eq, String.eqb_eq.
  split; intros [Hl H]; (split; [exact Hl|]).
  - destruct s as [|c [|d r]];
      [destruct Hl; discriminate | destruct Hl; discriminate|].
    unfold PyStr.take in H. simpl in H.
    injection H as Hc Hd.
    apply (proj1 (lower_char_a c)) in Hc.
    apply (proj1 (lower_char_0 d)) in Hd. subst d.
    now exists c, r.
  - destruct H as (c & r & -> & Hc). unfold PyStr.take. simpl.
    apply (proj2 (lower_char_a c)) in Hc. rewrite Hc.
    destruct r; reflexivity.
Qed.

End ResolverFacts.

(** C4, as the code has it.  The input is first stripped of surrounding
    white space.  If the stripped text has length 15 or 18 and starts with
    [a] or [A] followed by [0], it is returned at once and the world is
    untouched: no query.  Otherwise the only client call is one query, the
    exact-match lookup of the stripped text by [Name]; when its result has
    no records the resolver raises [ValueError] (record not found), and a
    failure of the query propagates.  For an input without surrounding
    white space this is the behaviour on the input itself. *)
Theorem resolve_after_strip (env : Env) (name_or_id : string) (w : World) :
  let s := PyStr.strip name_or_id in
  let run := resolve_implementation_id env name_or_id w in
  let lookup :=
    query env ("SELECT Id FROM Implementation__c WHERE Name = '" +++ s
               +++ "' LIMIT 1") w in
  (looks_like_id s = true
   <-> (String.length s = 15 \/ String.length s = 18)
       /\ exists c r, s = String c (String "0" r)
                      /\ (c = "a"%char \/ c = "A"%char))
  /\ (looks_like_id s = true -> run = (Ret (JStr s), w))
  /\ (looks_like_id s = false ->
      snd run = snd lookup
      /\ client_calls (trace (snd run))
         = client_calls (trace w)
           ++ [EvQuery ("SELECT Id FROM Implementation__c WHERE Name = '"
                        +++ s +++ "' LIMIT 1")]
      /\ mutating_calls (trace (snd run)) = mutating_calls (trace w)
      /\ (forall result records,
             fst lookup = Ret result ->
             Py.get result "records" JNull = Ret records ->
             Py.truthy records = false ->
             fst run
             = Raise (ValueError
                        ("No Implementation record found with Name: " +++ s)))
      /\ (forall e, fst lookup = Raise e -> fst run = Raise e))
  /\ (PyStr.strip name_or_id = name_or_id ->
      looks_like_id name_or_id = true ->
      run = (Ret (JStr name_or_id), w)).
Proof.
  intros s run lookup.
  assert (Hid : looks_like_id s = true -> run = (Ret (JStr s), w)).
  { intros H. unfold run, resolve_implementation_id. fold s. now rewrite H. }
  split; [apply ResolverFacts.looks_like_id_iff|].
  split; [exact Hid|]. split.
  - intros Hn.
    pose proof (MethodFacts.query_spec env (name_lookup_soql s) w) as [Hc _].
    change (query env (name_lookup_soql s) w) with lookup in Hc.
    assert (Hrun : run
                   = match lookup with
                     | (Ret result, w1) =>
                         match Py.get result "records" JNull with
                         | Ret records =>
                             if negb (Py.truthy records)
                             then (Raise (ValueError (not_found_message s)), w1)
                             else (records <- lift (Py.getitem result "records") ;;
                                   row <- lift (Py.first records) ;;
                                   lift (Py.getitem row "Id")) w1
                         | Raise e => (Raise e, w1)
                         end
                     | (Raise e, w1) => (Raise e, w1)
                     end).
    { unfold run, resolve_implementation_id. fold s. rewrite Hn.
      unfold bind at 1. change (query env (name_lookup_soql s) w) with lookup.
      destruct lookup as [[result|e] w1]; [|reflexivity].
      unfold bind at 1, lift at 1.
      destruct (Py.get result "records" JNull) as [records|]; [|reflexivity].
      destruct (negb (Py.truthy records)); reflexivity. }
    assert (Hsnd : snd run = snd lookup).
    { rewrite Hrun. destruct lookup as [[result|e] w1]; [|reflexivity].
      destruct (Py.get result "records" JNull) as [records|]; [|reflexivity].
      destruct (negb (Py.truthy records)); [reflexivity|].
      unfold bind, lift.
      destruct (Py.getitem result "records") as [x|]; [|reflexivity].
      destruct (Py.first x) as [y|]; [|reflexivity].
      destruct (Py.getitem y "Id"); reflexivity. }
    split; [exact Hsnd|]. rewrite Hsnd.
    split; [now apply CalledFacts.called_client_calls with (1 := eq_refl)|].
    split; [now apply CalledFacts.called_writes with (2 := Hc)|].
    split.
    + intros result records Hr Hg Ht. rewrite Hrun.
      destruct lookup as [[result'|e] w1]; cbn [fst] in *; [|discriminate].
      injection Hr as ->. rewrite Hg, Ht. reflexivity.
    + intros e He. rewrite Hrun.
      destruct lookup as [[result'|e'] w1]; cbn [fst] in *; congruence.
  - intros Hs. unfold s in Hid. rewrite Hs in Hid. exact Hid.
Qed.

Lemma resolve_after_strip_witness :
  resolve_implementation_id empty_env "  a0B000000000001 " sample_world
  = (Ret (JStr "a0B000000000001"), sample_world)
  /\ fst (resolve_implementation_id empty_env "IMPL-0042" sample_world)
     = Raise (ValueError "No Implementation record found with Name: IMPL-0042").
Proof.
  pose proof (resolve_after_strip empty_env "  a0B000000000001 " sample_world)
    as (_ & H1 & _).
  pose proof (resolve_after_strip empty_env "IMPL-0042" sample_world)
    as (_ & _ & H2 & _).
  split; [exact (H1 eq_refl)|].
  destruct (H2 eq_refl) as (_ & _ & _ & H3 & _).
  exact (H3 (JObj [("records", JArr []); ("totalSize", JNum (NInt 0))])
            (JArr []) eq_refl eq_refl eq_refl).
Defined.

(** C4 as the claim states it fails on inputs with surrounding white space.
    An input of length 15 that starts with [a0] and ends with a space is not
    returned unchanged: it is stripped to 14 characters and looked up by
    name.  An input of length 16 made of a space and a 15-character id is
    not looked up: the stripped id is returned without any query. *)
Lemma resolve_tests_the_stripped_input :
  (String.length "a0B00000000000 " = 15
   /\ PyStr.lower (PyStr.take 2 "a0B00000000000 ") = "a0"
   /\ client_calls
        (trace (snd (resolve_implementation_id empty_env "a0B00000000000 "
                       sample_world)))
      = [EvQuery "SELECT Id FROM Implementation__c WHERE Name = 'a0B00000000000' LIMIT 1"]
   /\ fst (resolve_implementation_id empty_env "a0B00000000000 " sample_world)
      <> Ret (JStr "a0B00000000000 "))
  /\ (String.length " a0B000000000001" = 16
      /\ resolve_implementation_id empty_env " a0B000000000001" sample_world
         = (Ret (JStr "a0B000000000001"), sample_world)
      /\ client_calls
           (trace (snd (resolve_implementation_id empty_env " a0B000000000001"
                          sample_world))) = []).
Proof. vm_compute. repeat split. discriminate. Qed.

(* ------------------------------------------------------------------ *)
(** * The manager flag *)
(* ------------------------------------------------------------------ *)

Module ManagerFacts.
Import PyStr.









End ManagerFacts.

(* ------------------------------------------------------------------ *)
(** * What the steps of a tool leave untouched *)
(* ------------------------------------------------------------------ *)

Module FrameFacts.
Import CallFacts CalledFacts.

Lemma untouched_refl (w : World) : untouched w w.
Proof. repeat split. apply Nat.le_refl. Qed.

Lemma untouched_trans (w1 w2 w3 : World) :
  untouched w1 w2 -> untouched w2 w3 -> untouched w1 w3.
Proof.
  intros (A & B & C & D) (A' & B' & C' & D').
  repeat split; try congruence. eapply Nat.le_trans; eassumption.
Qed.

Lemma untouched_ticked (w : World) : untouched w (ticked w).
Proof. repeat split. cbn. apply Nat.le_succ_diag_r. Qed.

Lemma called_untouched (call : Event) (w w' : World) :
  is_mutating call = false -> called call w w' -> untouched w w'.
Proof.
  intros Hm Hc. pose proof (called_writes _ _ _ Hm Hc) as Hw.
  destruct Hc as [(A & B & C) _]. repeat split; try assumption.
  rewrite C. apply Nat.le_refl.
Qed.

Lemma wp_time_time (env : Env) (Q : outcome Q -> World -> Prop) (w : World) :
  Q (Ret (clock env (ticks w))) (ticked w) -> wp (time_time env) Q w.
Proof. exact (fun H => H). Qed.

Lemma wp_date_today (env : Env) (Q : outcome string -> World -> Prop)
      (w : World) :
  Q (Ret (calendar env (ticks w))) (ticked w) ->
  wp (date_today_isoformat env) Q w.
Proof. exact (fun H => H). Qed.

Lemma wp_append_timestamp (t : Q) (Q : outcome unit -> World -> Prop)
      (w : World) :
  Q (Ret tt) (stamped t w) -> wp (append_timestamp t) Q w.
Proof. exact (fun H => H). Qed.

(** Using the specification of a step inside a larger computation. *)
Lemma wp_bind_spec {A B} (m : M A) (k : A -> M B)
      (P : outcome A -> World -> Prop) (Q : outcome B -> World -> Prop)
      (w : World) :
  wp m P w ->
  (forall a w1, P (Ret a) w1 -> wp (k a) Q w1) ->
  (forall e w1, P (Raise e) w1 -> Q (Raise e) w1) ->
  wp (bind m k) Q w.
Proof.
  intros Hm Hk He. apply wp_bind. eapply wp_mono; [exact Hm|].
  intros [a|e] w1 HP; auto.
Qed.

(** A pure step that may raise, inside a larger computation. *)
Lemma wp_bind_lift {A B} (o : outcome A) (k : A -> M B)
      (Q : outcome B -> World -> Prop) (w : World) :
  (forall a, o = Ret a -> wp (k a) Q w) ->
  (forall e, o = Raise e -> Q (Raise e) w) ->
  wp (bind (lift o) k) Q w.
Proof.
  intros Hk He. apply wp_bind, wp_lift. destruct o; auto.
Qed.

End FrameFacts.

(* ------------------------------------------------------------------ *)
(** * Well-formed bodies under the Python operations *)
(* ------------------------------------------------------------------ *)

Module ShapeFacts.

Lemma body_is_object (j : json) :
  well_formed_body j = true -> exists kvs, j = JObj kvs.
Proof. destruct j; try discriminate. eauto. Qed.

Lemma get_of_object (kvs : list (string * json)) (key : string) (d : json) :
  exists v, Py.get (JObj kvs) key d = Ret v.
Proof. simpl. eauto. Qed.

Lemma row_fields (row : json) :
  well_formed_row row = true ->
  exists kv,
    row = JObj kv
    /\ (exists v, Py.getitem row "Id" = Ret v)
    /\ (exists v, Py.getitem row "AccountId" = Ret v)
    /\ exists account name,
         Py.get row "Account" (JObj []) = Ret account
         /\ Py.get account "Name" (JStr "Unknown") = Ret name.
Proof.
  destruct row as [| | | | |kv]; try discriminate. simpl. unfold Dict.mem.
  intros H. apply andb_prop in H as [H Hacc]. apply andb_prop in H as [Hid Haid].
  exists kv. split; [reflexivity|].
  destruct (Dict.lookup "Id" kv); [|discriminate].
  destruct (Dict.lookup "AccountId" kv); [|discriminate].
  split; [eauto|]. split; [eauto|].
  destruct (Dict.lookup "Account" kv) as [[| | | | |a]|]; try discriminate;
    eexists _, _; split; reflexivity.
Qed.

(** A truthy [records] of a well-formed body is a non-empty list whose
    first row is well formed. *)
Lemma first_row (result records : json) :
  well_formed_body result = true ->
  Py.get result "records" JNull = Ret records ->
  Py.truthy records = true ->
  exists row,
    Py.getitem result "records" = Ret records
    /\ Py.first records = Ret row
    /\ well_formed_row row = true.
Proof.
  destruct result as [| | | | |kvs]; try discriminate. simpl.
  destruct (Dict.lookup "records" kvs) as [[| | | |rows|]|];
    try discriminate.
  - intros Hw [= <-] Ht. destruct rows as [|row rows]; [discriminate|].
    exists row. simpl in Hw. apply andb_prop in Hw as [Hw _]. auto.
  - intros _ [= <-]. discriminate.
Qed.


End ShapeFacts.

(* ------------------------------------------------------------------ *)
(** * The steps shared by the tools *)
(* ------------------------------------------------------------------ *)

Module StepFacts.
Import FrameFacts MethodFacts ShapeFacts.

Lemma query_step (env : Env) (soql : string) (w : World) :
  wp (query env soql)
     (fun r w' =>
        untouched w w'
        /\ (healthy env ->
            exists j, r = Ret j /\ well_formed_body j = true)) w.
Proof.
  eapply wp_mono; [apply query_spec|]. intros r w' [Hc Hh].
  split; [|exact Hh]. eapply called_untouched; [|exact Hc]. reflexivity.
Qed.

Lemma get_record_step (env : Env) (sobject : string) (record_id : json)
      (fields : list string) (w : World) :
  wp (get_record env sobject record_id fields)
     (fun r w' =>
        untouched w w'
        /\ (healthy env ->
            exists j, r = Ret j /\ well_formed_body j = true)) w.
Proof.
  eapply wp_mono; [apply get_record_spec|]. intros r w' [Hc Hh].
  split; [|exact Hh]. eapply called_untouched; [|exact Hc]. reflexivity.
Qed.

(** The resolver reads only; with a healthy upstream it returns an id or
    raises its own [ValueError]. *)
Lemma resolve_step (env : Env) (name_or_id : string) (w : World) :
  wp (resolve_implementation_id env name_or_id)
     (fun r w' =>
        untouched w w'
        /\ (healthy env ->
            (exists id, r = Ret id) \/ (exists m, r = Raise (ValueError m))))
     w.
Proof.
  unfold resolve_implementation_id.
  destruct (looks_like_id (PyStr.strip name_or_id)).
  { apply wp_ret. split; [apply untouched_refl | eauto]. }
  eapply wp_bind_spec; [apply query_step| |].
  - intros result w1 [Hu Hh].
    apply wp_bind_lift; [intros records Hrec | intros e He].
    + destruct (Py.truthy records) eqn:Ht; cbn [negb].
      * apply wp_bind_lift; [intros recs Hrecs | intros e He].
        -- apply wp_bind_lift; [intros row Hrow | intros e He].
           ++ apply wp_lift. split; [exact Hu|]. intros Hhealthy.
              destruct (Hh Hhealthy) as (j & [= <-] & Hw).
              destruct (first_row _ _ Hw Hrec Ht) as (row' & Hg & Hf & Hr).
              assert (recs = records) by congruence. subst recs.
              assert (row' = row) by congruence. subst row'.
              destruct (row_fields _ Hr) as (kv & _ & [v Hv] & _).
              left. eauto.
           ++ split; [exact Hu|]. intros Hhealthy.
              destruct (Hh Hhealthy) as (j & [= <-] & Hw).
              destruct (first_row _ _ Hw Hrec Ht) as (row' & Hg & Hf & Hr).
              congruence.
        -- split; [exact Hu|]. intros Hhealthy.
           destruct (Hh Hhealthy) as (j & [= <-] & Hw).
           destruct (first_row _ _ Hw Hrec Ht) as (row' & Hg & Hf & Hr).
           congruence.
      * apply wp_raise. split; [exact Hu | eauto].
    + split; [exact Hu|]. intros Hhealthy.
      destruct (Hh Hhealthy) as (j & [= <-] & Hw).
      destruct (body_is_object _ Hw) as [kvs ->]. discriminate.
  - intros e w1 [Hu Hh]. split; [exact Hu|]. intros Hhealthy.
    destruct (Hh Hhealthy) as (j & [=] & _).
Qed.

(** [try_resolve] never lets a [ValueError] through. *)
Lemma try_resolve_step (env : Env) (name_or_id : string) (w : World) :
  wp (try_resolve env name_or_id)
     (fun r w' =>
        untouched w w'
        /\ (forall m, r <> Raise (ValueError m))
        /\ (healthy env -> exists x, r = Ret x)) w.
Proof.
  unfold try_resolve. apply wp_except. apply wp_bind.
  eapply wp_mono; [apply resolve_step|].
  intros [id|e] w1 [Hu Hh].
  - apply wp_ret. split; [exact Hu|]. split; [discriminate | eauto].
  - destruct e;
      try solve [split; [exact Hu|]; split; [discriminate|];
                 intros Hhealthy;
                 destruct (Hh Hhealthy) as [[id [=]]|[m [=]]]].
    apply wp_ret. split; [exact Hu|]. split; [discriminate | eauto].
Qed.

Lemma can_update_step (env : Env) (implementation_id : json) (w : World) :
  wp (can_update env implementation_id)
     (fun r w' =>
        untouched w w' /\ (healthy env -> exists d, r = Ret d)) w.
Proof.
  unfold can_update. apply wp_bind, wp_get_world.
  destruct (is_admin (access_ctl w) || is_manager (access_ctl w)).
  { apply wp_ret. split; [apply untouched_refl | eauto]. }
  eapply wp_bind_spec; [apply get_record_step| |].
  - intros record w1 [Hu Hh].
    apply wp_bind_lift; [intros cde Hcde | intros e He].
    + apply wp_bind, wp_get_world.
      destruct (Py.eq cde (user_id (access_ctl w1))); apply wp_ret;
        (split; [exact Hu | eauto]).
    + split; [exact Hu|]. intros Hhealthy.
      destruct (Hh Hhealthy) as (j & [= <-] & Hw).
      destruct (body_is_object _ Hw) as [kvs ->]. discriminate.
  - intros e w1 [Hu Hh]. split; [exact Hu|]. intros Hhealthy.
    destruct (Hh Hhealthy) as (j & [=] & _).
Qed.

End StepFacts.

(* ------------------------------------------------------------------ *)
(** * Effects of the three mutating tools *)
(* ------------------------------------------------------------------ *)

Module EffectFacts.
Import FrameFacts MethodFacts StepFacts CallFacts.

(** A write call adds itself and low-level events to the data-changing
    calls, and nothing else changes. *)
Lemma called_write (call : Event) (w w' : World) :
  is_mutating call = true ->
  called call w w' ->
  same_state w w'
  /\ exists evs,
       mutating_calls (trace w') = mutating_calls (trace w) ++ call :: evs
       /\ Forall (fun e => low_level e = true) evs.
Proof.
  intros Hm (Hs & evs & Ht & Hf). split; [exact Hs|].
  exists (filter is_mutating evs). split.
  - unfold mutating_calls. rewrite Ht, filter_app. cbn [filter].
    now rewrite Hm.
  - apply Forall_forall. intros e He. apply filter_In in He as [He _].
    rewrite Forall_forall in Hf. now apply Hf.
Qed.

Lemma fixed_fields_of_data (env : Env) (opportunity_id type contract_type
      today : string) (contracted_hours : option number)
      (features migration_type : option string)
      (opp account account_id account_name : json) :
  Py.get opp "Account" (JObj []) = Ret account ->
  Py.get account "Name" (JStr "Unknown") = Ret account_name ->
  fixed_fields env type today
    (opt_set "Migration_Type__c" (option_map JStr (given migration_type))
       (opt_set "Features__c" (option_map JStr (given features))
          (opt_set "Contracted_Hours__c" (option_map JNum contracted_hours)
             [ ("Name", JStr (py_str env account_name +++ " - " +++ type
                              +++ " - " +++ today));
               ("Opportunity__c", JStr opportunity_id);
               ("Account__c", account_id);
               ("Type__c", JStr type);
               ("Contract_Type__c", JStr contract_type);
               ("Implementation_Stage__c", JStr "00 - Kick Off Call");
               ("Program_Health__c", JStr "Healthy");
               ("In_Production__c", JBool false) ]))).
Proof.
  intros Ha Hn. unfold fixed_fields.
  destruct (given migration_type), (given features), contracted_hours;
    (repeat split; try reflexivity;
     exists opp, account, account_name; repeat split; assumption).
Qed.

Lemma create_implementation_effects (env : Env)
      (opportunity_id type contract_type : string)
      (contracted_hours : option number)
      (features migration_type : option string) (w : World) :
  wp (create_implementation env opportunity_id type contract_type
        contracted_hours features migration_type)
     (create_effects env type w) w.
Proof.
  unfold create_implementation.
  apply wp_bind, wp_time_time. apply wp_bind, wp_get_world.
  pose proof (untouched_ticked w) as Hu0.
  change (create_timestamps (ticked w)) with (create_timestamps w).
  destruct (rate_limited (clock env (ticks w)) (create_timestamps w)) eqn:Erl.
  { apply wp_ret. now left. }
  repeat (apply wp_return_if_error; [intros; now left|]).
  eapply wp_bind_spec; [apply query_step| |];
    [|intros e w1 [Hu _]; left; eapply untouched_trans; eassumption].
  intros result w1 [Hu1 _].
  assert (Hu : untouched w w1) by (eapply untouched_trans; eassumption).
  apply wp_bind_lift; [intros records _ | intros; now left].
  destruct (negb (Py.truthy records)); [apply wp_ret; now left|].
  apply wp_bind_lift; [intros recs _ | intros; now left].
  apply wp_bind_lift; [intros opp _ | intros; now left].
  apply wp_bind_lift; [intros account_id _ | intros; now left].
  apply wp_bind_lift; [intros account Hacc | intros; now left].
  apply wp_bind_lift; [intros account_name Hname | intros; now left].
  apply wp_bind, wp_date_today.
  eapply wp_bind_spec; [apply create_record_spec| |].
  - intros resp w2 [Hc _].
    apply called_write in Hc as [(Ha & Hts & Htk) (evs & Hm & Hlow)];
      [|reflexivity].
    cbn [access_ctl create_timestamps ticks trace ticked] in Ha, Hts, Htk, Hm.
    destruct Hu as (Ua & Uts & Um & _).
    destruct Hu1 as (_ & _ & _ & Utk). cbn [ticks ticked] in Utk.
    assert (Hwrote :
      exists data evs day,
        ticks w < day
        /\ fixed_fields env type (calendar env day) data
        /\ mutating_calls (trace w2)
           = mutating_calls (trace w)
             ++ EvCreateRecord "Implementation__c" data :: evs
        /\ Forall (fun e => low_level e = true) evs).
    { eexists _, evs, (ticks w1). split; [lia|]. split;
        [eapply fixed_fields_of_data; eassumption|].
      split; [rewrite Hm, Um; reflexivity | exact Hlow]. }
    destruct Hwrote as (data & evs' & day & Hday & Hff & Hm' & Hlow').
    apply wp_bind_lift; [intros record_id _ | intros e _].
    + apply wp_bind, wp_time_time. apply wp_bind, wp_append_timestamp.
      apply wp_ret. right.
      split; [cbn; congruence|]. split; [exact Erl|].
      exists data, evs', day.
      split; [exact Hday|]. split; [exact Hff|]. split; [exact Hm'|].
      split; [exact Hlow'|].
      right. eexists _, (ticks w2). split; [reflexivity|].
      split; [rewrite Htk; cbn; lia|].
      cbn. rewrite Hts, Uts. reflexivity.
    + right. split; [congruence|]. split; [exact Erl|].
      exists data, evs', day.
      split; [exact Hday|]. split; [exact Hff|]. split; [exact Hm'|].
      split; [exact Hlow'|].
      left. exists e. split; [reflexivity | congruence].
  - intros e w2 [Hc _].
    apply called_write in Hc as [(Ha & Hts & Htk) (evs & Hm & Hlow)];
      [|reflexivity].
    cbn [access_ctl create_timestamps ticks trace ticked] in Ha, Hts, Htk, Hm.
    destruct Hu as (Ua & Uts & Um & _).
    destruct Hu1 as (_ & _ & _ & Utk). cbn [ticks ticked] in Utk.
    right. split; [congruence|]. split; [exact Erl|].
    eexists _, evs, (ticks w1). split; [lia|]. split;
      [eapply fixed_fields_of_data; eassumption|].
    split; [rewrite Hm, Um; reflexivity|]. split; [exact Hlow|].
    left. exists e. split; [reflexivity | congruence].
Qed.

Lemma update_implementation_effects (env : Env)
      (record_name_or_id : string) (updates : dict json) (w : World) :
  wp (update_implementation env record_name_or_id updates)
     (update_effects env w) w.
Proof.
  unfold update_implementation.
  eapply wp_bind_spec; [apply try_resolve_step| |];
    [|intros e w1 [Hu _]; now left].
  intros [msg|record_id] w1 [Hu1 _]; [apply wp_ret; now left|].
  eapply wp_bind_spec; [apply can_update_step| |];
    [|intros e w2 [Hu _]; left; eapply untouched_trans; eassumption].
  intros [allowed reason] w2 [Hu2 _].
  assert (Hu : untouched w w2) by (eapply untouched_trans; eassumption).
  destruct (negb allowed); [apply wp_ret; now left|].
  destruct (filter _ (Dict.keys updates)); [|apply wp_ret; now left].
  destruct (first_picklist_error updates); [apply wp_ret; now left|].
  destruct Hu as (Ua & Uts & Um & _).
  eapply wp_bind_spec; [apply update_record_spec| |].
  - intros b w3 [Hc _].
    apply called_write in Hc as [(Ha & Hts & _) (evs & Hm & Hlow)];
      [|reflexivity].
    apply wp_ret. right.
    split; [congruence|]. split; [congruence|].
    exists record_id, updates, evs.
    split; [rewrite Hm, Um; reflexivity|]. split; [exact Hlow|].
    right. eexists. reflexivity.
  - intros e w3 [Hc _].
    apply called_write in Hc as [(Ha & Hts & _) (evs & Hm & Hlow)];
      [|reflexivity].
    right. split; [congruence|]. split; [congruence|].
    exists record_id, updates, evs.
    split; [rewrite Hm, Um; reflexivity|]. split; [exact Hlow|].
    left. eauto.
Qed.

Lemma log_hours_effects (env : Env) (record_name_or_id : string)
      (hours : number)
      (project_task notes task_date project_type record_stage
         : option string) (w : World) :
  wp (log_hours env record_name_or_id hours project_task notes task_date
        project_type record_stage)
     (log_effects env w) w.
Proof.
  unfold log_hours.
  apply wp_bind, wp_time_time. apply wp_bind, wp_get_world.
  pose proof (untouched_ticked w) as Hu0.
  change (create_timestamps (ticked w)) with (create_timestamps w).
  destruct (rate_limited (clock env (ticks w)) (create_timestamps w)) eqn:Erl.
  { apply wp_ret. now left. }
  destruct (given project_task) as [task|]; [|apply wp_ret; now left].
  eapply wp_bind_spec; [apply try_resolve_step| |];
    [|intros e w1 [Hu _]; left; eapply untouched_trans; eassumption].
  intros [msg|record_id] w1 [Hu1 _];
    [apply wp_ret; left; eapply untouched_trans; eassumption|].
  assert (Hu : untouched w w1) by (eapply untouched_trans; eassumption).
  destruct (invalid_parts VALID_PROJECT_TASKS (split_parts task));
    [|apply wp_ret; now left].
  destruct (project_type_error project_type); [apply wp_ret; now left|].
  destruct (record_stage_error record_stage); [apply wp_ret; now left|].
  destruct Hu1 as (_ & _ & _ & Utk1). cbn [ticks ticked] in Utk1.
  assert (Hstep : forall (day : string) (w2 : World) (data : dict json),
             untouched w1 w2 ->
             wp (resp <- create_record env "Implementation_Hours__c" data ;;
                 hours_id <- lift (Py.get resp "id" (JStr "unknown")) ;;
                 t <- time_time env ;;
                 append_timestamp t ;;;
                 ret ("Hours logged successfully." +++ newline
                      +++ "  Hours Record ID: " +++ py_str env hours_id
                      +++ newline
                      +++ "  Implementation: " +++ record_name_or_id
                      +++ " (ID: " +++ py_str env record_id +++ ")"
                      +++ newline
                      +++ "  Hours: " +++ num_str env hours +++ newline
                      +++ "  Task: " +++ task +++ newline
                      +++ "  Date: " +++ day
                      +++ match given notes with
                          | Some n => newline +++ "  Notes: " +++ n
                          | None => EmptyString
                          end))
                (log_effects env w) w2).
  { intros day w2 data Hu2.
    assert (Hu' : untouched w w2) by (eapply untouched_trans; eassumption).
    destruct Hu' as (Ua & Uts & Um & _).
    destruct Hu2 as (_ & _ & _ & Utk2).
    eapply wp_bind_spec; [apply create_record_spec| |].
    - intros resp w3 [Hc _].
      apply called_write in Hc as [(Ha & Hts & Htk) (evs & Hm & Hlow)];
        [|reflexivity].
      apply wp_bind_lift; [intros hours_id _ | intros e _].
      + apply wp_bind, wp_time_time. apply wp_bind, wp_append_timestamp.
        apply wp_ret. right.
        split; [cbn; congruence|]. split; [exact Erl|].
        exists data, evs.
        split; [cbn [trace stamped ticked]; rewrite Hm, Um; reflexivity|].
        split; [exact Hlow|].
        right. eexists _, (ticks w3). split; [reflexivity|].
        split; [lia|]. cbn. rewrite Hts, Uts. reflexivity.
      + right. split; [congruence|]. split; [exact Erl|].
        exists data, evs.
        split; [rewrite Hm, Um; reflexivity|]. split; [exact Hlow|].
        left. exists e. split; [reflexivity | congruence].
    - intros e w3 [Hc _].
      apply called_write in Hc as [(Ha & Hts & Htk) (evs & Hm & Hlow)];
        [|reflexivity].
      right. split; [congruence|]. split; [exact Erl|].
      exists data, evs.
      split; [rewrite Hm, Um; reflexivity|]. split; [exact Hlow|].
      left. exists e. split; [reflexivity | congruence]. }
  destruct (given task_date) as [d|].
  - apply wp_bind, wp_ret. apply Hstep, untouched_refl.
  - apply wp_bind, wp_date_today. apply Hstep, untouched_ticked.
Qed.

(** The two reading tools leave the guarded state untouched. *)
Lemma query_implementations_untouched (env : Env) (query_type : string)
      (custom_soql : option string) (w : World) :
  wp (query_implementations env query_type custom_soql)
     (fun _ w' => untouched w w') w.
Proof.
  unfold query_implementations.
  destruct (select_soql query_type custom_soql) as [msg|soql];
    [apply wp_ret, untouched_refl|].
  eapply wp_bind_spec; [apply query_step| |];
    [|intros e w1 [Hu _]; exact Hu].
  intros result w1 [Hu _].
  apply wp_bind_lift; [intros records _ | intros; exact Hu].
  apply wp_bind_lift; [intros total _ | intros; exact Hu].
  destruct (Py.eq total (JNum (NInt 0))); [apply wp_ret; exact Hu|].
  destruct (String.eqb query_type "by_stage");
    (apply wp_bind_lift; [intros rows _ | intros; exact Hu]);
    (apply wp_bind_lift; [intros lines _ | intros; exact Hu]);
    apply wp_ret; exact Hu.
Qed.

Lemma get_implementation_untouched (env : Env) (record_name_or_id : string)
      (w : World) :
  wp (get_implementation env record_name_or_id)
     (fun _ w' => untouched w w') w.
Proof.
  unfold get_implementation.
  eapply wp_bind_spec; [apply try_resolve_step| |];
    [|intros e w1 [Hu _]; exact Hu].
  intros [msg|record_id] w1 [Hu1 _]; [apply wp_ret; exact Hu1|].
  eapply wp_bind_spec; [apply get_record_step| |];
    [|intros e w2 [Hu _]; eapply untouched_trans; eassumption].
  intros record w2 [Hu2 _].
  assert (Hu : untouched w w2) by (eapply untouched_trans; eassumption).
  apply wp_bind_lift; [intros record' _ | intros; exact Hu].
  apply wp_ret. exact Hu.
Qed.

End EffectFacts.

(* ------------------------------------------------------------------ *)
(** * The tools: rejected requests, created records, the manager flag *)
(* ------------------------------------------------------------------ *)

Module RejectionFacts.

Lemma validate_error_is_rejection (field value msg : string) :
  validate_picklist field value = Some msg -> is_rejection msg = true.
Proof.
  unfold validate_picklist.
  destruct (Dict.lookup field PICKLIST_VALIDATORS) as [valid|].
  - destruct (negb (PyStr.str_in value valid)).
    + intros [= <-]. reflexivity.
    + destruct (Dict.lookup field MULTIPICKLIST_VALIDATORS) as [valid'|];
        [|discriminate].
      destruct (invalid_parts valid' (split_parts value));
        [discriminate | intros [= <-]; reflexivity].
  - destruct (Dict.lookup field MULTIPICKLIST_VALIDATORS) as [valid'|];
      [|discriminate].
    destruct (invalid_parts valid' (split_parts value));
      [discriminate | intros [= <-]; reflexivity].
Qed.

Lemma project_type_error_is_rejection (arg : option string) (msg : string) :
  project_type_error arg = Some msg -> is_rejection msg = true.
Proof.
  unfold project_type_error. destruct (given arg) as [pt|]; [|discriminate].
  destruct (negb _); [intros [= <-]; reflexivity | discriminate].
Qed.

Lemma record_stage_error_is_rejection (arg : option string) (msg : string) :
  record_stage_error arg = Some msg -> is_rejection msg = true.
Proof.
  unfold record_stage_error. destruct (given arg) as [rs|]; [|discriminate].
  destruct (negb _); [intros [= <-]; reflexivity | discriminate].
Qed.

End RejectionFacts.

(** C1.  A run of [create_implementation], [update_implementation] or
    [log_hours] that returns a rejection (rate limit, invalid field name,
    invalid field or picklist value, missing task, access denied) has made
    no data-changing upstream call: neither a [create_record] or
    [update_record] call nor an HTTP request with a JSON body was added to
    the trace.  The last part checks that the texts the code returns for
    these rejections are the ones recognised. *)
Theorem rejected_request_writes_nothing (env : Env) :
  (forall opportunity_id type contract_type contracted_hours features
          migration_type w msg,
      let run := create_implementation env opportunity_id type contract_type
                   contracted_hours features migration_type w in
      fst run = Ret msg -> is_rejection msg = true -> wrote_nothing w (snd run))
  /\ (forall record_name_or_id updates w msg,
      let run := update_implementation env record_name_or_id updates w in
      fst run = Ret msg -> is_rejection msg = true -> wrote_nothing w (snd run))
  /\ (forall record_name_or_id hours project_task notes task_date project_type
             record_stage w msg,
      let run := log_hours env record_name_or_id hours project_task notes
                   task_date project_type record_stage w in
      fst run = Ret msg -> is_rejection msg = true -> wrote_nothing w (snd run))
  /\ (is_rejection RATE_LIMIT_MESSAGE = true
      /\ is_rejection ACCESS_DENIED = true
      /\ is_rejection TASK_REQUIRED_MESSAGE = true
      /\ (forall field value msg,
             validate_picklist field value = Some msg ->
             is_rejection msg = true)
      /\ (forall invalid_fields,
             is_rejection ("Cannot update field(s): "
                           +++ PyStr.join ", " invalid_fields
                           +++ ". Not in the allowed update list.") = true)
      /\ (forall invalid,
             is_rejection ("Invalid Project Task value(s): "
                           +++ PyStr.repr_list invalid +++ ". Valid values: "
                           +++ PyStr.join ", " VALID_PROJECT_TASKS) = true)
      /\ (forall arg msg, project_type_error arg = Some msg ->
                          is_rejection msg = true)
      /\ (forall arg msg, record_stage_error arg = Some msg ->
                          is_rejection msg = true)).
Proof.
  split; [|split; [|split]].
  - intros opportunity_id type contract_type contracted_hours features
           migration_type w msg run Hr Hrej.
    pose proof (EffectFacts.create_implementation_effects env opportunity_id
                  type contract_type contracted_hours features migration_type w)
      as H.
    unfold wp in H. fold run in H. rewrite Hr in H.
    destruct H as [(_ & _ & Hm & _) | (_ & _ & data & evs & day & _ & _ & _ & _ & H)];
      [exact Hm|].
    destruct H as [(e & [=] & _) | (tail & k & [= ->] & _)].
    discriminate Hrej.
  - intros record_name_or_id updates w msg run Hr Hrej.
    pose proof (EffectFacts.update_implementation_effects env
                  record_name_or_id updates w) as H.
    unfold wp in H. fold run in H. rewrite Hr in H.
    destruct H as [(_ & _ & Hm & _) | (_ & _ & rid & data & evs & _ & _ & H)];
      [exact Hm|].
    destruct H as [(e & [=]) | (tail & [= ->])].
    discriminate Hrej.
  - intros record_name_or_id hours project_task notes task_date project_type
           record_stage w msg run Hr Hrej.
    pose proof (EffectFacts.log_hours_effects env record_name_or_id hours
                  project_task notes task_date project_type record_stage w)
      as H.
    unfold wp in H. fold run in H. rewrite Hr in H.
    destruct H as [(_ & _ & Hm & _) | (_ & _ & data & evs & _ & _ & H)];
      [exact Hm|].
    destruct H as [(e & [=] & _) | (tail & k & [= ->] & _)].
    discriminate Hrej.
  - repeat split; try reflexivity.
    + apply RejectionFacts.validate_error_is_rejection.
    + apply RejectionFacts.project_type_error_is_rejection.
    + apply RejectionFacts.record_stage_error_is_rejection.
Qed.

Lemma rejected_request_writes_nothing_witness :
  fst (update_implementation empty_env "a0B000000000001"
         [("Risks__c", JStr "none")] sample_world)
  = Ret ACCESS_DENIED
  /\ wrote_nothing sample_world
       (snd (update_implementation empty_env "a0B000000000001"
               [("Risks__c", JStr "none")] sample_world)).
Proof.
  split; [reflexivity|].
  exact (proj1 (proj2 (rejected_request_writes_nothing empty_env))
           "a0B000000000001" [("Risks__c", JStr "none")] sample_world
           ACCESS_DENIED eq_refl eq_refl).
Defined.




(* ------------------------------------------------------------------ *)
(** * The rate limiter *)
(* ------------------------------------------------------------------ *)

Module RateFacts.












End RateFacts.



(* ------------------------------------------------------------------ *)
(** * The tool boundary *)
(* ------------------------------------------------------------------ *)

Module BoundaryFacts.
Import FrameFacts MethodFacts StepFacts ShapeFacts.









End BoundaryFacts.




(* ------------------------------------------------------------------ *)
(** * The tools on concrete inputs *)
(* ------------------------------------------------------------------ *)

Module Examples.

Example create_then_summary :
  fst (create_implementation busy_env "006000000000001" "Join" "Annual" None
         (Some "Caggs; Vector") None sample_world)
  = Ret ("Implementation created successfully." +++ newline
         +++ "  Record ID: a0B000000000009" +++ newline
         +++ "  Name: Acme - Join - 2024-05-01" +++ newline
         +++ "  Account: Acme" +++ newline
         +++ "  Type: Join" +++ newline
         +++ "  Contract: Annual" +++ newline
         +++ "  Stage: 00 - Kick Off Call" +++ newline
         +++ "  Health: Healthy").
Proof. vm_compute. reflexivity. Qed.

Example create_calls_query_then_create :
  map (fun e => match e with
                | EvQuery _ => "query"
                | EvCreateRecord sobject _ => "create " +++ sobject
                | _ => "other"
                end)
      (client_calls
         (trace (snd (create_implementation busy_env "006000000000001" "Join"
                        "Annual" None None None sample_world))))
  = ["query"; "create Implementation__c"].
Proof. vm_compute. reflexivity. Qed.

Example unknown_task_is_listed :
  fst (log_hours busy_env "IMPL-1" (NInt 2) (Some "POC; bogus") None None
         None None sample_world)
  = Ret ("Invalid Project Task value(s): ['bogus']. Valid values: "
         +++ PyStr.join ", " VALID_PROJECT_TASKS).
Proof. vm_compute. reflexivity. Qed.

Example unknown_field_is_refused :
  fst (update_implementation busy_env "IMPL-1"
         [("Program_Health__c", JStr "Great"); ("Nope", JNull)] manager_world)
  = Ret "Cannot update field(s): Nope. Not in the allowed update list.".
Proof. vm_compute. reflexivity. Qed.

Example update_confirms :
  fst (update_implementation busy_env "IMPL-1"
         [("Program_Health__c", JStr "Risk"); ("In_Production__c", JBool true)]
         manager_world)
  = Ret "Updated IMPL-1 (ID: 006000000000001): Program_Health__c = Risk, In_Production__c = True".
Proof. vm_compute. reflexivity. Qed.

Example only_select_is_allowed :
  fst (query_implementations busy_env "custom" (Some "DELETE FROM X")
         sample_world)
  = Ret "Only SELECT queries are allowed."
  /\ trace (snd (query_implementations busy_env "custom" (Some "DELETE FROM X")
                   sample_world)) = [].
Proof. vm_compute. split; reflexivity. Qed.

Example repr_of_parts :
  PyStr.repr_list ["it's"; "x"] = "[" +++ String PyStr.dquote "it's"
                                 +++ String PyStr.dquote ", 'x']".
Proof. vm_compute. reflexivity. Qed.

End Examples.

(* ------------------------------------------------------------------ *)
(** * A frame rule for the whole module *)
(* ------------------------------------------------------------------ *)

Section ToolFrame.

Variable env : Env.
Variable R : World -> World -> Prop.
Hypothesis F : Frame env R.

Let kept {A} (w : World) : outcome A -> World -> Prop := fun _ w' => R w w'.

Local Ltac from_here Hu := first [exact Hu | intros; exact Hu].

Lemma query_kept (soql : string) (w : World) :
  wp (query env soql) (kept w) w.
Proof. exact (frame_query _ _ F soql w). Qed.

Lemma get_record_kept (sobject : string) (record_id : json)
      (fields : list string) (w : World) :
  wp (get_record env sobject record_id fields) (kept w) w.
Proof. exact (frame_get_record _ _ F sobject record_id fields w). Qed.

Lemma create_record_kept (sobject : string) (data : dict json) (w : World) :
  wp (create_record env sobject data) (kept w) w.
Proof. exact (frame_create_record _ _ F sobject data w). Qed.

Lemma update_record_kept (sobject : string) (record_id : json)
      (data : dict json) (w : World) :
  wp (update_record env sobject record_id data) (kept w) w.
Proof. exact (frame_update_record _ _ F sobject record_id data w). Qed.

Lemma resolve_in_frame (name_or_id : string) (w : World) :
  wp (resolve_implementation_id env name_or_id) (kept w) w.
Proof.
  unfold kept, resolve_implementation_id.
  destruct (looks_like_id _); [apply wp_ret, (frame_refl _ _ F)|].
  eapply FrameFacts.wp_bind_spec; [apply query_kept| |];
    [|intros e w1 Hu; exact Hu].
  intros result w1 Hu.
  apply FrameFacts.wp_bind_lift; [intros records _ | from_here Hu].
  destruct (negb _); [apply wp_raise; exact Hu|].
  apply FrameFacts.wp_bind_lift; [intros recs _ | from_here Hu].
  apply FrameFacts.wp_bind_lift; [intros row _ | from_here Hu].
  apply wp_lift. exact Hu.
Qed.

Lemma try_resolve_in_frame (name_or_id : string) (w : World) :
  wp (try_resolve env name_or_id) (kept w) w.
Proof.
  unfold try_resolve. apply wp_except, wp_bind.
  eapply wp_mono; [apply resolve_in_frame|].
  unfold kept. intros [id|e] w1 Hu; [apply wp_ret; exact Hu|].
  destruct e; try exact Hu; apply wp_ret; exact Hu.
Qed.

Lemma can_update_in_frame (implementation_id : json) (w : World) :
  wp (can_update env implementation_id) (kept w) w.
Proof.
  unfold kept, can_update. apply wp_bind, wp_get_world.
  destruct (_ || _); [apply wp_ret, (frame_refl _ _ F)|].
  eapply FrameFacts.wp_bind_spec; [apply get_record_kept| |];
    [|intros e w1 Hu; exact Hu].
  intros record w1 Hu.
  apply FrameFacts.wp_bind_lift; [intros cde _ | from_here Hu].
  apply wp_bind, wp_get_world.
  destruct (Py.eq _ _); apply wp_ret; exact Hu.
Qed.


(** Chains the frame over a step that starts from an intermediate world. *)
Local Ltac chain Hu H :=
  first [exact (frame_trans _ _ F _ _ _ Hu H)
        | intros; exact (frame_trans _ _ F _ _ _ Hu H)].

Lemma create_implementation_in_frame
      (opportunity_id type contract_type : string)
      (contracted_hours : option number)
      (features migration_type : option string) (w : World) :
  wp (create_implementation env opportunity_id type contract_type
        contracted_hours features migration_type) (kept w) w.
Proof.
  unfold kept, create_implementation.
  apply wp_bind, FrameFacts.wp_time_time. apply wp_bind, wp_get_world.
  pose proof (frame_tick _ _ F w) as H0.
  destruct (rate_limited _ _); [apply wp_ret; exact H0|].
  repeat (apply wp_return_if_error; [intros; exact H0|]).
  eapply FrameFacts.wp_bind_spec; [apply query_kept| |];
    [|intros e w1 H1; chain H0 H1].
  intros result w1 H1.
  assert (Hu : R w w1) by chain H0 H1.
  apply FrameFacts.wp_bind_lift; [intros records _ | from_here Hu].
  destruct (negb _); [apply wp_ret; exact Hu|].
  apply FrameFacts.wp_bind_lift; [intros recs _ | from_here Hu].
  apply FrameFacts.wp_bind_lift; [intros opp _ | from_here Hu].
  apply FrameFacts.wp_bind_lift; [intros account_id _ | from_here Hu].
  apply FrameFacts.wp_bind_lift; [intros account _ | from_here Hu].
  apply FrameFacts.wp_bind_lift; [intros account_name _ | from_here Hu].
  apply wp_bind, FrameFacts.wp_date_today.
  assert (Hu2 : R w (ticked w1)) by chain Hu (frame_tick _ _ F w1).
  eapply FrameFacts.wp_bind_spec; [apply create_record_kept| |];
    [|intros e w2 H2; chain Hu2 H2].
  intros resp w2 H2.
  assert (Hu3 : R w w2) by chain Hu2 H2.
  apply FrameFacts.wp_bind_lift; [intros record_id _ | from_here Hu3].
  apply wp_bind, FrameFacts.wp_time_time.
  apply wp_bind, FrameFacts.wp_append_timestamp. apply wp_ret.
  eapply (frame_trans _ _ F); [exact Hu3|].
  eapply (frame_trans _ _ F); [apply (frame_tick _ _ F)|].
  apply (frame_stamp _ _ F).
Qed.

Lemma update_implementation_in_frame (record_name_or_id : string)
      (updates : dict json) (w : World) :
  wp (update_implementation env record_name_or_id updates) (kept w) w.
Proof.
  unfold update_implementation.
  eapply FrameFacts.wp_bind_spec; [apply try_resolve_in_frame| |];
    [|intros e w1 H1; exact H1].
  unfold kept. intros [msg|record_id] w1 H1; [apply wp_ret; exact H1|].
  eapply FrameFacts.wp_bind_spec; [apply can_update_in_frame| |];
    [|intros e w2 H2; chain H1 H2].
  intros [allowed reason] w2 H2.
  assert (Hu : R w w2) by chain H1 H2.
  destruct (negb allowed); [apply wp_ret; exact Hu|].
  destruct (filter _ (Dict.keys updates)); [|apply wp_ret; exact Hu].
  destruct (first_picklist_error updates); [apply wp_ret; exact Hu|].
  eapply FrameFacts.wp_bind_spec; [apply update_record_kept| |];
    [|intros e w3 H3; chain Hu H3].
  intros b w3 H3. apply wp_ret. chain Hu H3.
Qed.

Lemma log_hours_in_frame (record_name_or_id : string) (hours : number)
      (project_task notes task_date project_type record_stage : option string)
      (w : World) :
  wp (log_hours env record_name_or_id hours project_task notes task_date
        project_type record_stage) (kept w) w.
Proof.
  unfold kept, log_hours.
  apply wp_bind, FrameFacts.wp_time_time. apply wp_bind, wp_get_world.
  pose proof (frame_tick _ _ F w) as H0.
  destruct (rate_limited _ _); [apply wp_ret; exact H0|].
  destruct (given project_task) as [task|]; [|apply wp_ret; exact H0].
  eapply FrameFacts.wp_bind_spec; [apply try_resolve_in_frame| |];
    [|intros e w1 H1; chain H0 H1].
  intros [msg|record_id] w1 H1; [apply wp_ret; chain H0 H1|].
  assert (Hu : R w w1) by chain H0 H1.
  destruct (invalid_parts _ _); [|apply wp_ret; exact Hu].
  destruct (project_type_error _); [apply wp_ret; exact Hu|].
  destruct (record_stage_error _); [apply wp_ret; exact Hu|].
  assert (Hstep : forall (day : string) (w2 : World) (data : dict json),
             R w w2 ->
             wp (resp <- create_record env "Implementation_Hours__c" data ;;
                 hours_id <- lift (Py.get resp "id" (JStr "unknown")) ;;
                 t <- time_time env ;;
                 append_timestamp t ;;;
                 ret ("Hours logged successfully." +++ newline
                      +++ "  Hours Record ID: " +++ py_str env hours_id
                      +++ newline
                      +++ "  Implementation: " +++ record_name_or_id
                      +++ " (ID: " +++ py_str env record_id +++ ")"
                      +++ newline
                      +++ "  Hours: " +++ num_str env hours +++ newline
                      +++ "  Task: " +++ task +++ newline
                      +++ "  Date: " +++ day
                      +++ match given notes with
                          | Some n => newline +++ "  Notes: " +++ n
                          | None => EmptyString
                          end))
                (fun _ w' => R w w') w2).
  { intros day w2 data Hu2.
    eapply FrameFacts.wp_bind_spec; [apply create_record_kept| |];
      [|intros e w3 H3; chain Hu2 H3].
    intros resp w3 H3.
    assert (Hu3 : R w w3) by chain Hu2 H3.
    apply FrameFacts.wp_bind_lift; [intros hours_id _ | from_here Hu3].
    apply wp_bind, FrameFacts.wp_time_time.
    apply wp_bind, FrameFacts.wp_append_timestamp. apply wp_ret.
    eapply (frame_trans _ _ F); [exact Hu3|].
    eapply (frame_trans _ _ F); [apply (frame_tick _ _ F)|].
    apply (frame_stamp _ _ F). }
  destruct (given task_date) as [d|].
  - apply wp_bind, wp_ret. apply Hstep. exact Hu.
  - apply wp_bind, FrameFacts.wp_date_today. apply Hstep.
    chain Hu (frame_tick _ _ F w1).
Qed.

Lemma query_implementations_in_frame (query_type : string)
      (custom_soql : option string) (w : World) :
  wp (query_implementations env query_type custom_soql) (kept w) w.
Proof.
  unfold kept, query_implementations.
  destruct (select_soql query_type custom_soql) as [msg|soql];
    [apply wp_ret, (frame_refl _ _ F)|].
  eapply FrameFacts.wp_bind_spec; [apply query_kept| |];
    [|intros e w1 Hu; exact Hu].
  intros result w1 Hu.
  apply FrameFacts.wp_bind_lift; [intros records _ | from_here Hu].
  apply FrameFacts.wp_bind_lift; [intros total _ | from_here Hu].
  destruct (Py.eq total _); [apply wp_ret; exact Hu|].
  destruct (String.eqb query_type "by_stage");
    (apply FrameFacts.wp_bind_lift; [intros rows _ | from_here Hu]);
    (apply FrameFacts.wp_bind_lift; [intros lines _ | from_here Hu]);
    apply wp_ret; exact Hu.
Qed.

Lemma get_implementation_in_frame (record_name_or_id : string) (w : World) :
  wp (get_implementation env record_name_or_id) (kept w) w.
Proof.
  unfold get_implementation.
  eapply FrameFacts.wp_bind_spec; [apply try_resolve_in_frame| |];
    [|intros e w1 H1; exact H1].
  unfold kept. intros [msg|record_id] w1 H1; [apply wp_ret; exact H1|].
  eapply FrameFacts.wp_bind_spec; [apply get_record_kept| |];
    [|intros e w2 H2; chain H1 H2].
  intros record w2 H2.
  assert (Hu : R w w2) by chain H1 H2.
  apply FrameFacts.wp_bind_lift; [intros record' _ | from_here Hu].
  apply wp_ret. exact Hu.
Qed.

End ToolFrame.

(** The frame rule for one invocation and for a session. *)
Lemma run_tool_in_frame (env : Env) (R : World -> World -> Prop)
      (F : Frame env R) (c : ToolCall) (w : World) :
  R w (snd (run_tool env c w)).
Proof.
  destruct c; cbn [run_tool].
  - apply (create_implementation_in_frame env R F).
  - apply (update_implementation_in_frame env R F).
  - apply (log_hours_in_frame env R F).
  - apply (query_implementations_in_frame env R F).
  - apply (get_implementation_in_frame env R F).
Qed.

Lemma run_session_in_frame (env : Env) (R : World -> World -> Prop)
      (F : Frame env R) (calls : list ToolCall) (w : World) :
  R w (snd (run_session env calls w)).
Proof.
  revert w. induction calls as [|c rest IH]; intros w; cbn [run_session].
  - apply (frame_refl _ _ F).
  - pose proof (run_tool_in_frame env R F c w) as H1.
    destruct (run_tool env c w) as [r w1]. cbn [snd] in H1.
    specialize (IH w1). destruct (run_session env rest w1) as [rs w2].
    cbn [snd] in *. exact (frame_trans _ _ F _ _ _ H1 IH).
Qed.

(* ------------------------------------------------------------------ *)
(** * Where the requests go *)
(* ------------------------------------------------------------------ *)

Module InstanceFacts.
Import ClientFacts RequestFacts.

Lemma prefix_append (a b : string) : String.prefix a (a +++ b) = true.
Proof.
  induction a as [|c a IH]; simpl; [destruct b; reflexivity|].
  destruct (ascii_dec c c) as [_|n]; [exact IH | now destruct n].
Qed.

Lemma append_assoc (a b c : string) : (a +++ b) +++ c = a +++ (b +++ c).
Proof. induction a as [|x a IH]; simpl; [reflexivity | now rewrite IH]. Qed.

Lemma base_url_on_instance (c : SalesforceClient) (rest : string) :
  PyStr.startswith (instance_url c) (base_url c +++ rest) = true.
Proof.
  unfold PyStr.startswith, base_url. rewrite append_assoc.
  apply prefix_append.
Qed.

Lemma stays_refl (w : World) : stays_on_instance w w.
Proof.
  repeat split. exists []. split; [now rewrite app_nil_r | constructor].
Qed.

Lemma stays_trans (a b c : World) :
  stays_on_instance a b -> stays_on_instance b c -> stays_on_instance a c.
Proof.
  intros (U1 & I1 & S1 & e1 & T1 & F1) (U2 & I2 & S2 & e2 & T2 & F2).
  repeat split; try congruence.
  exists (e1 ++ e2). split.
  - rewrite T2, T1. now rewrite app_assoc.
  - apply Forall_app. split; [exact F1|]. now rewrite <- U1.
Qed.

(** A step that leaves the client and the trace alone. *)
Lemma stays_same (w w' : World) :
  sf_client w' = sf_client w -> trace w' = trace w -> stays_on_instance w w'.
Proof.
  intros Hc Ht. unfold stays_on_instance. rewrite Hc, Ht. repeat split.
  exists []. split; [now rewrite app_nil_r | constructor].
Qed.

(** The exchanges of [_request] stay on the instance when its URL does. *)
Lemma _request_stays (env : Env) (method url : string) (extra : dict string)
      (payload : Payload) (w : World) :
  allowed_method method = true ->
  PyStr.startswith (instance_url (sf_client w)) url = true ->
  stays_on_instance w (snd (_request env method url extra payload w)).
Proof.
  intros Hm Hu. rewrite _request_eq. cbv zeta.
  set (req1 := api_request method url extra payload (sf_client w) env).
  set (rep1 := server env (trace w) req1).
  set (w1 := with_trace w (trace w ++ [EvHttp req1 rep1])).
  assert (Hgood : forall c rep,
             on_instance (instance_url (sf_client w))
               (EvHttp (api_request method url extra payload c env) rep) = true).
  { intros c rep. unfold on_instance, api_request. cbn [req_method req_url].
    now rewrite Hm, Hu. }
  assert (Htok : forall rep,
             on_instance (instance_url (sf_client w))
               (EvHttp (token_request (sf_client w)) rep) = true).
  { intros rep. unfold on_instance, token_request. cbn [req_method req_url].
    change (allowed_method "POST") with true. cbn [andb].
    apply prefix_append. }
  assert (H1 : stays_on_instance w w1).
  { repeat split. exists [EvHttp req1 rep1]. split; [reflexivity|].
    repeat constructor. apply Hgood. }
  destruct rep1 as [resp|]; [|exact H1].
  destruct (status_code resp =? 401)%Z; [|exact H1].
  pose proof (authenticate_post env w1) as (_ & Hi & Hs & Hurl & Ht).
  assert (H2 : stays_on_instance w1 (snd (authenticate env w1))).
  { repeat split; try assumption. eexists. split; [exact Ht|].
    repeat constructor; apply Htok. }
  destruct (authenticate env w1) as [[[]|e] w2]; cbn [snd] in *.
  - rewrite http_send_eq. cbn [snd].
    eapply stays_trans; [exact H1|]. eapply stays_trans; [exact H2|].
    repeat split. eexists. split; [reflexivity|].
    repeat constructor. rewrite Hurl. apply Hgood.
  - eapply stays_trans; eassumption.
Qed.

(** The world a typed method ends in is the one [_request] leaves. *)
Lemma query_world (env : Env) (soql : string) (w : World) :
  snd (query env soql w)
  = snd (_request env "GET" (base_url (sf_client w) +++ "/query/") []
           (Params [("q", soql)]) (with_trace w (trace w ++ [EvQuery soql]))).
Proof.
  unfold query, bind, log, get_world, with_trace. cbv beta zeta.
  cbn [fst snd sf_client].
  destruct (_request _ _ _ _ _ _) as [[resp|e] w1]; [|reflexivity].
  unfold raise_for_status. destruct (_ && _)%bool; [|reflexivity].
  unfold resp_json. destruct (body resp); reflexivity.
Qed.

Lemma get_record_world (env : Env) (sobject : string) (record_id : json)
      (fields : list string) (w : World) :
  snd (get_record env sobject record_id fields w)
  = snd (_request env "GET"
           (base_url (sf_client w) +++ "/sobjects/" +++ sobject +++ "/"
            +++ py_str env record_id) [] (Params (fields_params fields))
           (with_trace w (trace w ++ [EvGetRecord sobject record_id fields]))).
Proof.
  unfold get_record, bind, log, get_world, with_trace. cbv beta zeta.
  cbn [fst snd sf_client].
  destruct (_request _ _ _ _ _ _) as [[resp|e] w1]; [|reflexivity].
  unfold raise_for_status. destruct (_ && _)%bool; [|reflexivity].
  unfold resp_json. destruct (body resp); reflexivity.
Qed.

Lemma create_record_world (env : Env) (sobject : string) (data : dict json)
      (w : World) :
  snd (create_record env sobject data w)
  = snd (_request env "POST"
           (base_url (sf_client w) +++ "/sobjects/" +++ sobject +++ "/")
           [("Content-Type", "application/json")] (JsonBody data)
           (with_trace w (trace w ++ [EvCreateRecord sobject data]))).
Proof.
  unfold create_record, bind, log, get_world, with_trace. cbv beta zeta.
  cbn [fst snd sf_client].
  destruct (_request _ _ _ _ _ _) as [[resp|e] w1]; [|reflexivity].
  unfold raise_for_status. destruct (_ && _)%bool; [|reflexivity].
  unfold resp_json. destruct (body resp); reflexivity.
Qed.

Lemma update_record_world (env : Env) (sobject : string) (record_id : json)
      (data : dict json) (w : World) :
  snd (update_record env sobject record_id data w)
  = snd (_request env "PATCH"
           (base_url (sf_client w) +++ "/sobjects/" +++ sobject +++ "/"
            +++ py_str env record_id)
           [("Content-Type", "application/json")] (JsonBody data)
           (with_trace w (trace w ++ [EvUpdateRecord sobject record_id data]))).
Proof.
  unfold update_record, bind, log, get_world, with_trace. cbv beta zeta.
  cbn [fst snd sf_client].
  destruct (_request _ _ _ _ _ _) as [[resp|e] w1]; [|reflexivity].
  unfold raise_for_status. destruct (_ && _)%bool; reflexivity.
Qed.

(** Logging a client call and then running [_request] on the instance. *)
Lemma logged_request_stays (env : Env) (call : Event) (method rest : string)
      (extra : dict string) (payload : Payload) (w : World) :
  on_instance (instance_url (sf_client w)) call = true ->
  allowed_method method = true ->
  stays_on_instance w
    (snd (_request env method (base_url (sf_client w) +++ rest) extra payload
            (with_trace w (trace w ++ [call])))).
Proof.
  intros Hc Hm. eapply stays_trans.
  - instantiate (1 := with_trace w (trace w ++ [call])).
    repeat split. exists [call]. split; [reflexivity|].
    repeat constructor. exact Hc.
  - apply _request_stays; [exact Hm|]. apply base_url_on_instance.
Qed.

Lemma stays_frame (env : Env) : Frame env stays_on_instance.
Proof.
  constructor.
  - apply stays_refl.
  - apply stays_trans.
  - intros w. now apply stays_same.
  - intros t w. now apply stays_same.
  - intros a w. now apply stays_same.
  - intros soql w. rewrite query_world.
    now apply logged_request_stays.
  - intros sobject record_id fields w. rewrite get_record_world.
    now apply logged_request_stays.
  - intros sobject data w. rewrite create_record_world.
    now apply logged_request_stays.
  - intros sobject record_id data w. rewrite update_record_world.
    now apply logged_request_stays.
Qed.

End InstanceFacts.

(** X1.  Over any session, whatever the upstream answers, the client keeps
    its id, secret and instance URL, the trace is only extended, and every
    HTTP exchange added uses GET, POST or PATCH on a URL that starts with
    the instance URL: no tool ever sends a DELETE or talks to another
    host. *)
Theorem session_requests_stay_on_instance (env : Env) (calls : list ToolCall)
        (w : World) :
  let w' := snd (run_session env calls w) in
  instance_url (sf_client w') = instance_url (sf_client w)
  /\ client_id (sf_client w') = client_id (sf_client w)
  /\ client_secret (sf_client w') = client_secret (sf_client w)
  /\ exists evs,
       trace w' = trace w ++ evs
       /\ forall req rep,
            In (EvHttp req rep) evs ->
            (req_method req = "GET" \/ req_method req = "POST"
             \/ req_method req = "PATCH")
            /\ String.prefix (instance_url (sf_client w)) (req_url req) = true.
Proof.
  intros w'.
  pose proof (run_session_in_frame env stays_on_instance
                (InstanceFacts.stays_frame env) calls w)
    as (Hu & Hi & Hs & evs & Ht & Hf).
  fold w' in Hu, Hi, Hs, Ht.
  repeat split; try assumption.
  exists evs. split; [exact Ht|].
  intros req rep Hin. rewrite Forall_forall in Hf.
  specialize (Hf _ Hin). cbn [on_instance] in Hf.
  apply andb_prop in Hf as [Hm Hp]. split; [|exact Hp].
  unfold allowed_method in Hm.
  apply orb_prop in Hm as [Hm|Hm]; [apply orb_prop in Hm as [Hm|Hm]|];
    apply String.eqb_eq in Hm; auto.
Qed.

Module SessionFacts.

(** What one invocation does to the recorded timestamps. *)
Lemma tool_timestamps (env : Env) (c : ToolCall) (w : World) :
  let w' := snd (run_tool env c w) in
  create_timestamps w' = create_timestamps w
  \/ (is_creating c = true
      /\ rate_limited (clock env (ticks w)) (create_timestamps w) = false
      /\ exists k, ticks w < k
                   /\ create_timestamps w'
                      = create_timestamps w ++ [clock env k]).
Proof.
  destruct c; cbn [run_tool is_creating].
  - pose proof (EffectFacts.create_implementation_effects env opportunity_id
                  type contract_type contracted_hours features migration_type
                  w) as H.
    destruct H as [(_ & H & _) | (_ & Hrl & d & evs & day & _ & _ & _ & _ & H)];
      [now left|].
    destruct H as [(e & _ & H) | (tail & k & _ & Hk & H)]; [now left|].
    right. eauto.
  - pose proof (EffectFacts.update_implementation_effects env
                  record_name_or_id updates w) as H.
    destruct H as [(_ & H & _) | (_ & H & _)]; now left.
  - pose proof (EffectFacts.log_hours_effects env record_name_or_id hours
                  project_task notes task_date project_type record_stage w)
      as H.
    destruct H as [(_ & H & _) | (_ & Hrl & d & evs & _ & _ & H)];
      [now left|].
    destruct H as [(e & _ & H) | (tail & k & _ & Hk & H)]; [now left|].
    right. eauto.
  - pose proof (EffectFacts.query_implementations_untouched env query_type
                  custom_soql w) as (_ & H & _). now left.
  - pose proof (EffectFacts.get_implementation_untouched env
                  record_name_or_id w) as (_ & H & _). now left.
Qed.

End SessionFacts.

(** X2.  The list of timestamps is never pruned: after any session it is
    the list before followed by the timestamps added, at most one for each
    [create_implementation] or [log_hours] invocation of the session. *)
Theorem session_timestamps_only_grow (env : Env) (calls : list ToolCall)
        (w : World) :
  exists added,
    create_timestamps (snd (run_session env calls w))
    = create_timestamps w ++ added
    /\ List.length added <= List.length (filter is_creating calls).
Proof.
  revert w. induction calls as [|c rest IH]; intros w; cbn [run_session].
  - exists []. split; [now rewrite app_nil_r | apply Nat.le_refl].
  - pose proof (SessionFacts.tool_timestamps env c w) as H1. cbv zeta in H1.
    destruct (run_tool env c w) as [r w1]. cbn [snd] in H1.
    destruct (IH w1) as (added & Ha & Hl).
    destruct (run_session env rest w1) as [rs w2]. cbn [snd] in *.
    cbn [filter].
    destruct H1 as [H1 | (Hc & _ & k & _ & H1)].
    + exists added. rewrite Ha, H1. split; [reflexivity|].
      destruct (is_creating c); cbn [List.length]; lia.
    + exists (clock env k :: added). rewrite Ha, H1, Hc, <- app_assoc.
      split; [reflexivity | cbn [List.length]; lia].
Qed.



(* ------------------------------------------------------------------ *)
(** * The token *)
(* ------------------------------------------------------------------ *)

Module TokenFacts.
Import ClientFacts.

(** [authenticate], unfolded along its outcomes. *)
Lemma authenticate_eq (env : Env) (w : World) :
  let req := token_request (sf_client w) in
  let rep := server env (trace w ++ [EvAuthenticate]) req in
  let w1 := with_trace w (trace w ++ [EvAuthenticate; EvHttp req rep]) in
  authenticate env w
  = match rep with
    | NoReply => (Raise TransportError, w1)
    | Replied resp =>
        if is_success resp then
          match body resp with
          | BText msg => (Raise (JSONDecodeError msg), w1)
          | BJson j =>
              match Py.getitem j "access_token" with
              | Raise e => (Raise e, w1)
              | Ret tok => set_token tok w1
              end
          end
        else (Raise (HTTPStatusError (status_code resp)), w1)
    end.
Proof.
  intros req rep w1. unfold authenticate, bind, log, get_world.
  cbn [fst snd sf_client]. rewrite http_send_eq.
  fold (token_request (sf_client w)). fold req.
  cbn [trace with_trace]. fold rep.
  assert (Hw : with_trace
                 (mkWorld (sf_client w) (access_ctl w) (create_timestamps w)
                          (trace w ++ [EvAuthenticate]) (ticks w))
                 ((trace w ++ [EvAuthenticate]) ++ [EvHttp req rep]) = w1).
  { unfold w1, with_trace. cbn. now rewrite <- app_assoc. }
  rewrite Hw. destruct rep as [resp|]; [|reflexivity].
  unfold raise_for_status. fold (is_success resp).
  destruct (is_success resp); [|reflexivity].
  unfold resp_json. destruct (body resp) as [j|msg]; [|reflexivity].
  unfold lift. cbn [ret raise fst snd].
  destruct (Py.getitem j "access_token"); reflexivity.
Qed.








(** A successful [authenticate] stored the [access_token] of the reply. *)
Lemma authenticate_success (env : Env) (w : World) :
  fst (authenticate env w) = Ret tt ->
  exists resp j,
    server env (trace w ++ [EvAuthenticate]) (token_request (sf_client w))
    = Replied resp
    /\ is_success resp = true /\ body resp = BJson j
    /\ Py.getitem j "access_token"
       = Ret (token (sf_client (snd (authenticate env w)))).
Proof.
  rewrite authenticate_eq. cbv zeta.
  destruct (server env _ _) as [resp|]; [|discriminate].
  destruct (is_success resp) eqn:Es; [|discriminate].
  destruct (body resp) as [j|msg] eqn:Eb; [|discriminate].
  destruct (Py.getitem j "access_token") as [tok|e] eqn:Eg; [|discriminate].
  intros _. exists resp, j. auto.
Qed.

End TokenFacts.

(** X4.  [authenticate] stores a token only when the token endpoint answers
    with a 2xx whose JSON body has [access_token]; in every other case it
    raises (no reply, an error status, a body that is not JSON, a body
    without the key) and the client, old token included, is left as it
    was. *)
Theorem authenticate_keeps_token_on_failure (env : Env) (w : World) :
  let run := authenticate env w in
  let rep := server env (trace w ++ [EvAuthenticate])
                    (token_request (sf_client w)) in
  (forall e, fst run = Raise e -> sf_client (snd run) = sf_client w)
  /\ (fst run = Ret tt ->
      exists resp j,
        rep = Replied resp /\ is_success resp = true /\ body resp = BJson j
        /\ Py.getitem j "access_token" = Ret (token (sf_client (snd run))))
  /\ (rep = NoReply -> fst run = Raise TransportError)
  /\ (forall resp, rep = Replied resp -> is_success resp = false ->
                   fst run = Raise (HTTPStatusError (status_code resp)))
  /\ (forall resp msg, rep = Replied resp -> is_success resp = true ->
                       body resp = BText msg ->
                       fst run = Raise (JSONDecodeError msg))
  /\ (forall resp kvs, rep = Replied resp -> is_success resp = true ->
                       body resp = BJson (JObj kvs) ->
                       Dict.lookup "access_token" kvs = None ->
                       fst run = Raise (KeyError (JStr "access_token"))).
Proof.
  intros run rep.
  pose proof (TokenFacts.authenticate_eq env w) as Heq. cbv zeta in Heq.
  fold run rep in Heq.
  split; [|split; [|split; [|split; [|split]]]].
  - intros e He. rewrite Heq in *.
    destruct rep as [resp|]; [|reflexivity].
    destruct (is_success resp); [|reflexivity].
    destruct (body resp) as [j|msg]; [|reflexivity].
    destruct (Py.getitem j "access_token"); [discriminate He | reflexivity].
  - exact (TokenFacts.authenticate_success env w).
  - intros Hrep. rewrite Heq, Hrep. reflexivity.
  - intros resp Hrep Hs. rewrite Heq, Hrep, Hs. reflexivity.
  - intros resp msg Hrep Hs Hb. rewrite Heq, Hrep, Hs, Hb. reflexivity.
  - intros resp kvs Hrep Hs Hb Hk. rewrite Heq, Hrep, Hs, Hb.
    cbn [Py.getitem]. rewrite Hk. reflexivity.
Qed.

Lemma authenticate_keeps_token_on_failure_witness :
  fst (authenticate down_env sample_world) = Raise (HTTPStatusError 503%Z)
  /\ token (sf_client (snd (authenticate down_env sample_world)))
     = JStr "stale".
Proof.
  split; [reflexivity|].
  destruct (authenticate_keeps_token_on_failure down_env sample_world)
    as (H & _).
  now rewrite (H (HTTPStatusError 503%Z) eq_refl).
Defined.



(* ------------------------------------------------------------------ *)
(** * Start-up and the resolved user *)
(* ------------------------------------------------------------------ *)

Module StartFacts.

Lemma rstrip_char_ends (ch : ascii) (s : string) :
  ends_with_char ch (PyStr.rstrip_char ch s) = false.
Proof.
  induction s as [|c r IH]; simpl; [reflexivity|].
  destruct (Ascii.eqb c ch && PyStr.is_empty (PyStr.rstrip_char ch r)) eqn:E;
    [reflexivity|].
  destruct (PyStr.rstrip_char ch r) as [|d r'] eqn:Er.
  - simpl in *. now rewrite andb_true_r in E.
  - cbn [ends_with_char] in *. exact IH.
Qed.

Lemma rstrip_char_split (s : string) :
  exists n, s = PyStr.rstrip_char (ascii_of_nat 47) s +++ slashes n.
Proof.
  induction s as [|c r [n IH]]; simpl; [now exists 0|].
  destruct (Ascii.eqb_spec c (ascii_of_nat 47)) as [->|Hne]; cbn [andb].
  - destruct (PyStr.rstrip_char (ascii_of_nat 47) r) as [|d r'] eqn:Er;
      cbn [PyStr.is_empty].
    + exists (S n). cbn [slashes String.append]. simpl in IH. now rewrite IH at 1.
    + exists n. cbn [String.append]. now rewrite IH at 1.
  - exists n. cbn [String.append]. now rewrite IH at 1.
Qed.

(** [resolve_user], unfolded along its outcomes. *)
Lemma resolve_user_eq (env : Env) (w : World) :
  let email := user_email (access_ctl w) in
  let soql := "SELECT Id, Profile.Name FROM User WHERE Email = '" +++ email
              +++ "' AND IsActive = true LIMIT 1" in
  resolve_user env w
  = match query env soql w with
    | (Raise e, w1) => (Raise e, w1)
    | (Ret result, w1) =>
        match Py.get result "records" JNull with
        | Raise e => (Raise e, w1)
        | Ret records =>
            if negb (Py.truthy records) then
              (Raise (RuntimeError
                        ("No active Salesforce user found for email: "
                         +++ email)), w1)
            else
              match Py.getitem result "records" with
              | Raise e => (Raise e, w1)
              | Ret recs =>
                  match Py.first recs with
                  | Raise e => (Raise e, w1)
                  | Ret user =>
                      match Py.getitem user "Id" with
                      | Raise e => (Raise e, w1)
                      | Ret uid =>
                          let a := access_ctl w1 in
                          let a1 := mkAccess (user_email a) uid (profile_name a)
                                      (is_admin a) (is_manager a) in
                          match Py.get user "Profile" (JObj []) with
                          | Raise e => (Raise e, with_access a1 w1)
                          | Ret profile =>
                              match Py.get profile "Name" (JStr EmptyString) with
                              | Raise e => (Raise e, with_access a1 w1)
                              | Ret name =>
                                  (Ret tt,
                                   with_access
                                     (mkAccess (user_email a) uid name
                                        (Py.eq name
                                           (JStr "System Administrator"))
                                        (is_manager a)) w1)
                              end
                          end
                      end
                  end
              end
        end
    end.
Proof.
  intros email soql. unfold resolve_user.
  unfold bind at 1. unfold get_world at 1. fold email. fold soql.
  unfold bind at 1.
  destruct (query env soql w) as [[result|e] w1]; [|reflexivity].
  unfold bind at 1, lift at 1.
  destruct (Py.get result "records" JNull) as [records|]; [|reflexivity].
  destruct (negb (Py.truthy records)); [reflexivity|].
  unfold bind at 1, lift at 1.
  destruct (Py.getitem result "records") as [recs|]; [|reflexivity].
  unfold bind at 1, lift at 1.
  destruct (Py.first recs) as [user|]; [|reflexivity].
  unfold bind at 1, lift at 1.
  destruct (Py.getitem user "Id") as [uid|]; [|reflexivity].
  unfold set_user_id, set_profile_name, set_is_admin.
  unfold bind, get_world, set_access, lift, with_access.
  cbn [fst snd access_ctl sf_client create_timestamps trace ticks
       user_email user_id profile_name is_admin is_manager].
  destruct (Py.get user "Profile" (JObj [])) as [profile|]; [|reflexivity].
  destruct (Py.get profile "Name" (JStr EmptyString)); reflexivity.
Qed.

End StartFacts.

(** X6.  The constructor removes exactly the trailing slashes of the
    instance URL: what it keeps does not end with a slash, the given URL is
    what it keeps followed by slashes only, and so the base URL never holds
    a doubled slash at the join.  The client starts without a token. *)
Theorem instance_url_without_trailing_slash (cid secret url : string) :
  let c := SalesforceClient_init cid secret url in
  ends_with_char (ascii_of_nat 47) (instance_url c) = false
  /\ (exists n, url = instance_url c +++ slashes n)
  /\ base_url c = instance_url c +++ "/services/data/v62.0"
  /\ token c = JNull.
Proof.
  cbn [SalesforceClient_init instance_url token].
  split; [apply StartFacts.rstrip_char_ends|].
  split; [apply StartFacts.rstrip_char_split|].
  split; reflexivity.
Qed.

Module UserFacts.

(** A truthy value read with [get] is the value the key holds. *)
Lemma get_then_getitem (j : json) (key : string) (v : json) :
  Py.get j key JNull = Ret v -> Py.truthy v = true -> Py.getitem j key = Ret v.
Proof.
  destruct j; try discriminate. simpl.
  destruct (Dict.lookup key kvs); [auto|].
  intros [= <-]. discriminate.
Qed.

(** What [resolve_user] does whatever the upstream answers. *)
Lemma resolve_user_always (env : Env) (w : World) :
  let email := user_email (access_ctl w) in
  let soql := "SELECT Id, Profile.Name FROM User WHERE Email = '" +++ email
              +++ "' AND IsActive = true LIMIT 1" in
  let run := resolve_user env w in
  let a := access_ctl w in
  let a' := access_ctl (snd run) in
  user_email a' = user_email a /\ is_manager a' = is_manager a
  /\ create_timestamps (snd run) = create_timestamps w
  /\ client_calls (trace (snd run)) = client_calls (trace w) ++ [EvQuery soql]
  /\ mutating_calls (trace (snd run)) = mutating_calls (trace w).
Proof.
  intros email soql run a a'.
  pose proof (StartFacts.resolve_user_eq env w) as Heq. cbv zeta in Heq.
  fold email soql run a in Heq.
  pose proof (MethodFacts.query_spec env soql w) as [Hc _].
  pose proof (CalledFacts.called_client_calls (EvQuery soql) w _ eq_refl Hc)
    as Hcc.
  pose proof (CalledFacts.called_writes (EvQuery soql) w _ eq_refl Hc) as Hmw.
  destruct Hc as [(Ha & Hts & _) _].
  assert (Hw : exists a2,
             snd run = with_access a2 (snd (query env soql w))
             /\ user_email a2 = user_email a
             /\ is_manager a2 = is_manager a).
  { assert (Hsame : forall w1 : World,
               access_ctl w1 = a ->
               exists a2, w1 = with_access a2 w1
                          /\ user_email a2 = user_email a
                          /\ is_manager a2 = is_manager a).
    { intros w1 H1. exists (access_ctl w1). rewrite H1.
      split; [destruct w1; cbn in *; now subst | auto]. }
    rewrite Heq.
    destruct (query env soql w) as [[result|e] w1]; cbn [fst snd] in *;
      [|now apply Hsame].
    destruct (Py.get result "records" JNull) as [records|];
      [|now apply Hsame].
    destruct (negb (Py.truthy records)); [now apply Hsame|].
    destruct (Py.getitem result "records") as [recs|]; [|now apply Hsame].
    destruct (Py.first recs) as [user|]; [|now apply Hsame].
    destruct (Py.getitem user "Id") as [uid|]; [|now apply Hsame].
    cbv zeta.
    destruct (Py.get user "Profile" (JObj [])) as [profile|];
      [|eexists; split; [reflexivity|]; cbn; now rewrite Ha].
    destruct (Py.get profile "Name" (JStr EmptyString));
      (eexists; split; [reflexivity|]; cbn; now rewrite Ha). }
  destruct Hw as (a2 & Hw & He & Hm). unfold a'. rewrite Hw.
  cbn [with_access access_ctl create_timestamps trace].
  auto.
Qed.

End UserFacts.

(** X7.  [resolve_user] makes one client call, the query of the active user
    with the stored e-mail; it never writes, and never changes the e-mail,
    the manager flag or the timestamps.  With no record it raises
    [RuntimeError] and leaves the access control object as it was.  With
    records it takes the first one: its [Id] becomes the user id, the name
    of its profile the profile name, and the admin flag says whether that
    name equals [System Administrator].  When the profile cannot be read
    (for instance it is null) the exception leaves the user id already
    overwritten and the admin flag as it was. *)
Theorem resolve_user_outcomes (env : Env) (w : World) :
  let email := user_email (access_ctl w) in
  let soql := "SELECT Id, Profile.Name FROM User WHERE Email = '" +++ email
              +++ "' AND IsActive = true LIMIT 1" in
  let run := resolve_user env w in
  let a := access_ctl w in
  let a' := access_ctl (snd run) in
  (user_email a' = user_email a /\ is_manager a' = is_manager a
   /\ create_timestamps (snd run) = create_timestamps w
   /\ client_calls (trace (snd run)) = client_calls (trace w) ++ [EvQuery soql]
   /\ mutating_calls (trace (snd run)) = mutating_calls (trace w))
  /\ (forall result records,
         fst (query env soql w) = Ret result ->
         Py.get result "records" JNull = Ret records ->
         Py.truthy records = false ->
         fst run
         = Raise (RuntimeError ("No active Salesforce user found for email: "
                                +++ email))
         /\ a' = a)
  /\ (forall result user rest uid profile name,
         fst (query env soql w) = Ret result ->
         Py.get result "records" JNull = Ret (JArr (user :: rest)) ->
         Py.getitem user "Id" = Ret uid ->
         Py.get user "Profile" (JObj []) = Ret profile ->
         Py.get profile "Name" (JStr EmptyString) = Ret name ->
         fst run = Ret tt
         /\ a' = mkAccess (user_email a) uid name
                          (Py.eq name (JStr "System Administrator"))
                          (is_manager a))
  /\ (forall result user rest uid profile e,
         fst (query env soql w) = Ret result ->
         Py.get result "records" JNull = Ret (JArr (user :: rest)) ->
         Py.getitem user "Id" = Ret uid ->
         Py.get user "Profile" (JObj []) = Ret profile ->
         Py.get profile "Name" (JStr EmptyString) = Raise e ->
         fst run = Raise e
         /\ user_id a' = uid /\ profile_name a' = profile_name a
         /\ is_admin a' = is_admin a)
  /\ (forall name,
         Py.eq (JStr name) (JStr "System Administrator") = true
         <-> name = "System Administrator").
Proof.
  intros email soql run a a'.
  pose proof (StartFacts.resolve_user_eq env w) as Heq. cbv zeta in Heq.
  fold email soql run a in Heq.
  pose proof (MethodFacts.query_spec env soql w) as [Hc _].
  pose proof (CalledFacts.called_client_calls (EvQuery soql) w _ eq_refl Hc)
    as Hcc.
  pose proof (CalledFacts.called_writes (EvQuery soql) w _ eq_refl Hc) as Hmw.
  destruct Hc as [(Ha & Hts & _) _].
  split; [|split; [|split; [|split]]].
  - exact (UserFacts.resolve_user_always env w).
  - intros result records Hq Hrec Ht. unfold a'. rewrite Heq.
    destruct (query env soql w) as [[result'|e] w1]; cbn [fst snd] in *;
      [|discriminate].
    injection Hq as ->. rewrite Hrec, Ht. cbn [negb fst snd]. auto.
  - intros result user rest uid profile name Hq Hrec Hid Hp Hn.
    unfold a'. rewrite Heq.
    destruct (query env soql w) as [[result'|e] w1]; cbn [fst snd] in *;
      [|discriminate].
    injection Hq as ->.
    rewrite Hrec, (UserFacts.get_then_getitem _ _ _ Hrec eq_refl).
    cbn [Py.truthy negb Py.first]. rewrite Hid. cbv zeta. rewrite Hp, Hn.
    cbn [fst snd with_access access_ctl]. fold a. rewrite Ha. auto.
  - intros result user rest uid profile e Hq Hrec Hid Hp Hn.
    unfold a'. rewrite Heq.
    destruct (query env soql w) as [[result'|e'] w1]; cbn [fst snd] in *;
      [|discriminate].
    injection Hq as ->.
    rewrite Hrec, (UserFacts.get_then_getitem _ _ _ Hrec eq_refl).
    cbn [Py.truthy negb Py.first]. rewrite Hid. cbv zeta. rewrite Hp, Hn.
    cbn [fst snd with_access access_ctl user_id profile_name is_admin].
    fold a. rewrite Ha. auto.
  - intros name. apply CalledFacts.eq_strings.
Qed.

Lemma resolve_user_outcomes_witness :
  fst (resolve_user empty_env sample_world)
  = Raise (RuntimeError
             "No active Salesforce user found for email: cde@example.com")
  /\ access_ctl (snd (resolve_user empty_env sample_world)) = sample_access.
Proof.
  exact (proj1 (proj2 (resolve_user_outcomes empty_env sample_world))
           (JObj [("records", JArr []); ("totalSize", JNum (NInt 0))])
           (JArr []) eq_refl eq_refl eq_refl).
Defined.

(* ------------------------------------------------------------------ *)
(** * Start-up *)

Module LifespanFacts.

Lemma given_some (arg : option string) (s : string) :
  given arg = Some s <-> arg = Some s /\ PyStr.is_empty s = false.
Proof.
  unfold given. destruct arg as [t|]; [|split; [discriminate|intros [? _]; discriminate]].
  destruct (PyStr.is_empty t) eqn:E; split.
  - discriminate.
  - intros [H1 H2]. injection H1 as ->. congruence.
  - intros H. injection H as ->. auto.
  - intros [H _]. exact H.
Qed.


End LifespanFacts.


(* ------------------------------------------------------------------ *)
(** * What the mutating tools write *)

Module WriteFacts.

Lemma first_picklist_error_none (items : dict json) :
  first_picklist_error items = None ->
  forall field value,
    In (field, JStr value) items -> validate_picklist field value = None.
Proof.
  induction items as [|[f v] rest IH]; intros H field value Hin;
    [contradiction|].
  cbn [first_picklist_error] in H.
  destruct Hin as [Heq|Hin].
  - injection Heq as -> ->.
    destruct (validate_picklist field value) as [e|] eqn:E; [|reflexivity].
    rewrite (ValidationFacts.validate_error_not_empty _ _ _ E) in H.
    discriminate.
  - apply IH; [|exact Hin].
    destruct v; try exact H.
    destruct (validate_picklist f s) as [e|]; [|exact H].
    destruct (PyStr.is_empty e); [exact H | discriminate].
Qed.

Lemma no_invalid_fields (updates : dict json) :
  filter (fun f => negb (PyStr.str_in f UPDATABLE_FIELDS)) (Dict.keys updates)
  = [] ->
  Forall (fun f => PyStr.str_in f UPDATABLE_FIELDS = true) (Dict.keys updates).
Proof.
  induction (Dict.keys updates) as [|f fs IH]; intros H; constructor.
  - cbn [filter] in H. destruct (PyStr.str_in f UPDATABLE_FIELDS);
      [reflexivity | discriminate].
  - apply IH. cbn [filter] in H.
    destruct (negb (PyStr.str_in f UPDATABLE_FIELDS)); [discriminate | exact H].
Qed.

End WriteFacts.

(** X9.  Whenever [update_implementation] changes anything upstream, it
    does so by one [update_record] on [Implementation__c], for the id the
    resolver returned and with the caller's [updates] as they were given;
    and by then [can_update] has granted access for that id, every field is
    on the list of updatable fields, and every string value has passed the
    picklist validation of its field. *)
Theorem update_writes_what_it_checked (env : Env) (record_name_or_id : string)
        (updates : dict json) (w : World) :
  let run := update_implementation env record_name_or_id updates w in
  let resolved := try_resolve env record_name_or_id w in
  ~ wrote_nothing w (snd run) ->
  exists record_id reason evs,
    fst resolved = Ret (inr record_id)
    /\ fst (can_update env record_id (snd resolved)) = Ret (true, reason)
    /\ checked_updates updates
    /\ mutating_calls (trace (snd run))
       = mutating_calls (trace w)
         ++ EvUpdateRecord "Implementation__c" record_id updates :: evs
    /\ Forall (fun e => low_level e = true) evs.
Proof.
  intros run resolved Hwrote. subst run resolved.
  unfold update_implementation, bind in *.
  pose proof (StepFacts.try_resolve_step env record_name_or_id w) as H1.
  unfold wp in H1.
  destruct (try_resolve env record_name_or_id w) as [[[msg|record_id]|e] w1];
    cbn [fst snd] in *; destruct H1 as [(_ & _ & U1 & _) _];
    try (exfalso; apply Hwrote; exact U1).
  pose proof (StepFacts.can_update_step env record_id w1) as H2.
  unfold wp in H2.
  destruct (can_update env record_id w1) as [[[allowed reason]|e] w2] eqn:E2;
    cbn [fst snd] in *; destruct H2 as [(_ & _ & U2 & _) _];
    try (exfalso; apply Hwrote; unfold wrote_nothing; congruence).
  destruct allowed; cbn [negb] in *;
    [|exfalso; apply Hwrote; unfold wrote_nothing, ret; cbn; congruence].
  destruct (filter _ (Dict.keys updates)) eqn:Ef;
    [|exfalso; apply Hwrote; unfold wrote_nothing, ret; cbn; congruence].
  destruct (first_picklist_error updates) eqn:Ep;
    [exfalso; apply Hwrote; unfold wrote_nothing, ret; cbn; congruence|].
  pose proof (MethodFacts.update_record_spec env "Implementation__c" record_id
                updates w2) as [Hc _].
  apply EffectFacts.called_write in Hc as [_ (evs & Hm & Hlow)];
    [|reflexivity].
  exists record_id, reason, evs.
  split; [reflexivity|]. split; [now rewrite E2|].
  split; [split; [now apply WriteFacts.no_invalid_fields
                 | now apply WriteFacts.first_picklist_error_none]|].
  split; [|exact Hlow].
  destruct (update_record env "Implementation__c" record_id updates w2)
    as [[b|e] w3]; cbn [fst snd ret] in *; rewrite Hm; congruence.
Qed.

Lemma update_writes_what_it_checked_witness :
  exists record_id reason evs,
    fst (try_resolve busy_env "IMPL-1" manager_world) = Ret (inr record_id)
    /\ fst (can_update busy_env record_id
              (snd (try_resolve busy_env "IMPL-1" manager_world)))
       = Ret (true, reason)
    /\ checked_updates [("Program_Health__c", JStr "Risk")]
    /\ mutating_calls
         (trace (snd (update_implementation busy_env "IMPL-1"
                        [("Program_Health__c", JStr "Risk")] manager_world)))
       = mutating_calls (trace manager_world)
         ++ EvUpdateRecord "Implementation__c" record_id
              [("Program_Health__c", JStr "Risk")] :: evs
    /\ Forall (fun e => low_level e = true) evs.
Proof.
  apply (update_writes_what_it_checked busy_env "IMPL-1"
           [("Program_Health__c", JStr "Risk")] manager_world).
  intros H. vm_compute in H. discriminate.
Defined.

Module CreateFacts.
Import FrameFacts MethodFacts StepFacts.

(** Past [return_if_error] there was no error. *)
Lemma wp_return_if_error_passed (err : option string) (rest : M string)
      (Q : outcome string -> World -> Prop) (w : World) :
  (forall e, err = Some e -> PyStr.is_empty e = false -> Q (Ret e) w) ->
  ((forall e, err = Some e -> PyStr.is_empty e = true) -> wp rest Q w) ->
  wp (return_if_error err rest) Q w.
Proof.
  intros He Hr. unfold return_if_error.
  destruct err as [e|]; [|apply Hr; discriminate].
  destruct (PyStr.is_empty e) eqn:E.
  - apply Hr. now intros e' [= <-].
  - apply wp_ret. now apply He.
Qed.

Lemma validated (field value : string) :
  (forall e, validate_picklist field value = Some e ->
             PyStr.is_empty e = true) ->
  validate_picklist field value = None.
Proof.
  intros H. destruct (validate_picklist field value) as [e|] eqn:E;
    [|reflexivity].
  specialize (H e eq_refl).
  rewrite (ValidationFacts.validate_error_not_empty _ _ _ E) in H.
  discriminate.
Qed.

Lemma validated_single (field value : string) (valid : list string) :
  Dict.lookup field PICKLIST_VALIDATORS = Some valid ->
  validate_picklist field value = None -> In value valid.
Proof.
  intros Hl Hv. rewrite (ValidationFacts.validate_single _ _ _ Hl) in Hv.
  destruct (PyStr.str_in value valid) eqn:E; [|discriminate].
  now apply PyStrFacts.str_in_In.
Qed.

Lemma validated_multi (field value : string) (valid : list string) :
  Dict.lookup field MULTIPICKLIST_VALIDATORS = Some valid ->
  validate_picklist field value = None ->
  forall p, In p (split_parts value) -> In p valid.
Proof.
  intros Hl Hv. rewrite (ValidationFacts.validate_multi _ _ _ Hl) in Hv.
  apply ValidationFacts.invalid_parts_nil.
  destruct (invalid_parts valid (split_parts value)); [reflexivity|discriminate].
Qed.

Lemma created_from_data (opportunity_id type contract_type : string)
      (contracted_hours : option number)
      (features migration_type : option string) (name account_id : json) :
  created_from opportunity_id type contract_type contracted_hours features
    migration_type
    (opt_set "Migration_Type__c" (option_map JStr (given migration_type))
       (opt_set "Features__c" (option_map JStr (given features))
          (opt_set "Contracted_Hours__c" (option_map JNum contracted_hours)
             [ ("Name", name);
               ("Opportunity__c", JStr opportunity_id);
               ("Account__c", account_id);
               ("Type__c", JStr type);
               ("Contract_Type__c", JStr contract_type);
               ("Implementation_Stage__c", JStr "00 - Kick Off Call");
               ("Program_Health__c", JStr "Healthy");
               ("In_Production__c", JBool false) ]))).
Proof.
  unfold created_from.
  destruct (given migration_type), (given features), contracted_hours;
    cbn [option_map opt_set];
    (split; [reflexivity|]); (split; [reflexivity|]); (split; [reflexivity|]);
    (split; [reflexivity|]); (split; [reflexivity|]); (split; [reflexivity|]);
    (split; [|intros k Hk; vm_compute in Hk; vm_compute; tauto]);
    vm_compute; repeat constructor; cbn; intuition discriminate.
Qed.

Lemma create_implementation_writes (env : Env)
      (opportunity_id type contract_type : string)
      (contracted_hours : option number)
      (features migration_type : option string) (w : World) :
  wp (create_implementation env opportunity_id type contract_type
        contracted_hours features migration_type)
     (fun _ w' =>
        wrote_nothing w w'
        \/ (checked_create type contract_type features migration_type
            /\ rate_limited (clock env (ticks w)) (create_timestamps w) = false
            /\ exists data evs,
                 mutating_calls (trace w')
                 = mutating_calls (trace w)
                   ++ EvCreateRecord "Implementation__c" data :: evs
                 /\ Forall (fun e => low_level e = true) evs
                 /\ created_from opportunity_id type contract_type
                      contracted_hours features migration_type data)) w.
Proof.
  unfold create_implementation.
  apply wp_bind, wp_time_time. apply wp_bind, wp_get_world.
  change (create_timestamps (ticked w)) with (create_timestamps w).
  destruct (rate_limited (clock env (ticks w)) (create_timestamps w)) eqn:Erl.
  { apply wp_ret. now left. }
  apply wp_return_if_error_passed; [intros; now left|intros V1].
  apply wp_return_if_error_passed; [intros; now left|intros V2].
  apply wp_return_if_error_passed; [intros; now left|intros V3].
  apply wp_return_if_error_passed; [intros; now left|intros V4].
  assert (Hchecked : checked_create type contract_type features migration_type).
  { split; [|split; [|split]].
    - apply (validated_single "Type__c" _ _ eq_refl). now apply validated.
    - apply (validated_single "Contract_Type__c" _ _ eq_refl).
      now apply validated.
    - intros m Hm. rewrite Hm in V3.
      apply (validated_single "Migration_Type__c" _ _ eq_refl).
      now apply validated.
    - intros f Hf. rewrite Hf in V4.
      apply (validated_multi "Features__c" _ _ eq_refl). now apply validated. }
  eapply wp_bind_spec; [apply query_step| |];
    [|intros e w1 [(_ & _ & Hu & _) _]; left; exact Hu].
  intros result w1 [(_ & _ & Um & _) _].
  cbn [trace ticked] in Um.
  apply wp_bind_lift; [intros records _ | intros; now left].
  destruct (negb (Py.truthy records)); [apply wp_ret; now left|].
  apply wp_bind_lift; [intros recs _ | intros; now left].
  apply wp_bind_lift; [intros opp _ | intros; now left].
  apply wp_bind_lift; [intros account_id _ | intros; now left].
  apply wp_bind_lift; [intros account _ | intros; now left].
  apply wp_bind_lift; [intros account_name _ | intros; now left].
  apply wp_bind, wp_date_today.
  assert (Hwrite : forall w2,
             called (EvCreateRecord "Implementation__c"
                       (opt_set "Migration_Type__c"
                          (option_map JStr (given migration_type))
                          (opt_set "Features__c"
                             (option_map JStr (given features))
                             (opt_set "Contracted_Hours__c"
                                (option_map JNum contracted_hours)
                                [ ("Name",
                                   JStr (py_str env account_name +++ " - "
                                         +++ type +++ " - "
                                         +++ calendar env (ticks w1)));
                                  ("Opportunity__c", JStr opportunity_id);
                                  ("Account__c", account_id);
                                  ("Type__c", JStr type);
                                  ("Contract_Type__c", JStr contract_type);
                                  ("Implementation_Stage__c",
                                   JStr "00 - Kick Off Call");
                                  ("Program_Health__c", JStr "Healthy");
                                  ("In_Production__c", JBool false) ]))))
                    (ticked w1) w2 ->
             forall w3 : World, trace w3 = trace w2 ->
             wrote_nothing w w3
             \/ (checked_create type contract_type features migration_type
                 /\ false = false
                 /\ exists data evs,
                      mutating_calls (trace w3)
                      = mutating_calls (trace w)
                        ++ EvCreateRecord "Implementation__c" data :: evs
                      /\ Forall (fun e => low_level e = true) evs
                      /\ created_from opportunity_id type contract_type
                           contracted_hours features migration_type data)).
  { intros w2 Hc w3 Hw3.
    apply EffectFacts.called_write in Hc as [_ (evs & Hm & Hlow)];
      [|reflexivity].
    cbn [trace ticked] in Hm.
    right. split; [exact Hchecked|]. split; [reflexivity|].
    eexists _, evs. split; [rewrite Hw3, Hm, Um; reflexivity|].
    split; [exact Hlow | apply created_from_data]. }
  eapply wp_bind_spec; [apply create_record_spec| |].
  - intros resp w2 [Hc _].
    apply wp_bind_lift; [intros record_id _ | intros e _].
    + apply wp_bind, wp_time_time. apply wp_bind, wp_append_timestamp.
      apply wp_ret. apply (Hwrite _ Hc); reflexivity.
    + apply (Hwrite _ Hc); reflexivity.
  - intros e w2 [Hc _]. apply (Hwrite _ Hc); reflexivity.
Qed.

End CreateFacts.

(** X10.  Whenever [create_implementation] changes anything upstream, it
    does so by one [create_record] on [Implementation__c]; by then the rate
    limit was not reached, the type, the contract type and, when given, the
    migration type are on their lists and every part of the features is a
    known feature; and the record carries the opportunity id, the type, the
    contract type, the hours, the features and the migration type exactly as
    they were passed: each optional field is present only when its argument
    is given, the features are sent as the caller wrote them, and the record
    has no field besides the eleven the tool knows. *)
Theorem create_writes_what_it_checked (env : Env)
        (opportunity_id type contract_type : string)
        (contracted_hours : option number)
        (features migration_type : option string) (w : World) :
  let run := create_implementation env opportunity_id type contract_type
               contracted_hours features migration_type w in
  ~ wrote_nothing w (snd run) ->
  checked_create type contract_type features migration_type
  /\ rate_limited (clock env (ticks w)) (create_timestamps w) = false
  /\ exists data evs,
       mutating_calls (trace (snd run))
       = mutating_calls (trace w)
         ++ EvCreateRecord "Implementation__c" data :: evs
       /\ Forall (fun e => low_level e = true) evs
       /\ created_from opportunity_id type contract_type contracted_hours
            features migration_type data.
Proof.
  intros run Hwrote.
  destruct (CreateFacts.create_implementation_writes env opportunity_id type
              contract_type contracted_hours features migration_type w)
    as [H|H]; [contradiction | exact H].
Qed.

Lemma create_writes_what_it_checked_witness :
  checked_create "Join" "Annual" (Some "Caggs; Vector") None
  /\ rate_limited (clock busy_env (ticks sample_world))
       (create_timestamps sample_world) = false
  /\ exists data evs,
       mutating_calls
         (trace (snd (create_implementation busy_env "006000000000001" "Join"
                        "Annual" None (Some "Caggs; Vector") None
                        sample_world)))
       = mutating_calls (trace sample_world)
         ++ EvCreateRecord "Implementation__c" data :: evs
       /\ Forall (fun e => low_level e = true) evs
       /\ created_from "006000000000001" "Join" "Annual" None
            (Some "Caggs; Vector") None data.
Proof.
  apply (create_writes_what_it_checked busy_env "006000000000001" "Join"
           "Annual" None (Some "Caggs; Vector") None sample_world).
  intros H. vm_compute in H. discriminate.
Defined.

Module HoursFacts.
Import FrameFacts MethodFacts StepFacts.

(** A bind whose first step is run, and its result kept. *)
Lemma wp_bind_run {A B} (m : M A) (k : A -> M B)
      (Q : outcome B -> World -> Prop) (w : World) :
  (forall a w1, m w = (Ret a, w1) -> wp (k a) Q w1) ->
  (forall e w1, m w = (Raise e, w1) -> Q (Raise e) w1) ->
  wp (bind m k) Q w.
Proof.
  intros Hk He. unfold wp, bind in *.
  destruct (m w) as [[a|e] w1]; cbn [fst snd]; [now apply Hk | now apply He].
Qed.

(** The calls of the resolver, caught or not. *)
Lemma resolve_calls (env : Env) (name_or_id : string) (w : World) :
  wp (resolve_implementation_id env name_or_id)
     (fun _ w' =>
        untouched w w'
        /\ client_calls (trace w')
           = client_calls (trace w) ++ resolver_calls name_or_id) w.
Proof.
  unfold resolve_implementation_id, resolver_calls.
  destruct (looks_like_id _).
  { apply wp_ret. split; [apply untouched_refl | now rewrite app_nil_r]. }
  eapply wp_bind_spec; [apply query_spec| |].
  - intros result w1 [Hc _].
    assert (H : untouched w w1
                /\ client_calls (trace w1)
                   = client_calls (trace w)
                     ++ [EvQuery (name_lookup_soql (PyStr.strip name_or_id))]).
    { split; [exact (called_untouched (EvQuery _) _ _ eq_refl Hc)|].
      now apply CalledFacts.called_client_calls. }
    apply wp_bind_lift; [intros records _ | intros; exact H].
    destruct (negb _); [apply wp_raise; exact H|].
    apply wp_bind_lift; [intros recs _ | intros; exact H].
    apply wp_bind_lift; [intros row _ | intros; exact H].
    apply wp_lift. exact H.
  - intros e w1 [Hc _].
    split; [exact (called_untouched (EvQuery _) _ _ eq_refl Hc)|].
    now apply CalledFacts.called_client_calls.
Qed.

Lemma try_resolve_calls (env : Env) (name_or_id : string) (w : World) :
  wp (try_resolve env name_or_id)
     (fun _ w' =>
        untouched w w'
        /\ client_calls (trace w')
           = client_calls (trace w) ++ resolver_calls name_or_id) w.
Proof.
  unfold try_resolve. apply wp_except, wp_bind.
  eapply wp_mono; [apply resolve_calls|].
  intros [id|e] w1 Hu; [apply wp_ret; exact Hu|].
  destruct e; try exact Hu; apply wp_ret; exact Hu.
Qed.

Lemma checked_type (project_type : option string) :
  project_type_error project_type = None ->
  forall pt, given project_type = Some pt -> In pt VALID_PROJECT_TYPES.
Proof.
  unfold project_type_error. intros H pt Hg. rewrite Hg in H.
  destruct (PyStr.str_in pt VALID_PROJECT_TYPES) eqn:E; [|discriminate].
  now apply PyStrFacts.str_in_In.
Qed.

Lemma checked_stage (record_stage : option string) :
  record_stage_error record_stage = None ->
  forall rs, given record_stage = Some rs -> In rs VALID_RECORD_STAGES.
Proof.
  unfold record_stage_error. intros H rs Hg. rewrite Hg in H.
  destruct (PyStr.str_in rs VALID_RECORD_STAGES) eqn:E; [|discriminate].
  now apply PyStrFacts.str_in_In.
Qed.

Lemma logged_from_data (env : Env) (record_id : json) (hours : number)
      (task day : string)
      (notes task_date project_type record_stage : option string)
      (w : World) :
  match given task_date with
  | Some d => day = d
  | None => exists k, ticks w < k /\ day = calendar env k
  end ->
  logged_from env record_id hours task notes task_date project_type
    record_stage w
    (opt_set "Record_Stage__c" (option_map JStr (given record_stage))
       (opt_set "Project_Type__c" (option_map JStr (given project_type))
          (Dict.set "Task_Date__c" (JStr day)
             (opt_set "Notes__c" (option_map JStr (given notes))
                [ ("Implementation__c", record_id);
                  ("Hours_Worked__c", JNum hours);
                  ("Project_Task__c", JStr task) ])))).
Proof.
  intros Hday. unfold logged_from.
  destruct (given record_stage), (given project_type), (given notes);
    cbn [option_map opt_set];
    (split; [reflexivity|]); (split; [reflexivity|]); (split; [reflexivity|]);
    (split; [reflexivity|]); (split; [reflexivity|]); (split; [reflexivity|]);
    (split; [exists day; split; [reflexivity | exact Hday]|]);
    (split; [|intros k Hk; vm_compute in Hk; vm_compute; tauto]);
    vm_compute; repeat constructor; cbn; intuition discriminate.
Qed.

Lemma log_hours_writes (env : Env) (record_name_or_id : string)
      (hours : number)
      (project_task notes task_date project_type record_stage
         : option string) (w : World) :
  wp (log_hours env record_name_or_id hours project_task notes task_date
        project_type record_stage)
     (fun _ w' =>
        wrote_nothing w w'
        \/ exists task record_id data evs,
             given project_task = Some task
             /\ rate_limited (clock env (ticks w)) (create_timestamps w)
                = false
             /\ checked_hours task project_type record_stage
             /\ fst (try_resolve env record_name_or_id (ticked w))
                = Ret (inr record_id)
             /\ logged_from env record_id hours task notes task_date
                  project_type record_stage w data
             /\ mutating_calls (trace w')
                = mutating_calls (trace w)
                  ++ EvCreateRecord "Implementation_Hours__c" data :: evs
             /\ Forall (fun e => low_level e = true) evs
             /\ client_calls (trace w')
                = client_calls (trace w)
                  ++ resolver_calls record_name_or_id
                  ++ [EvCreateRecord "Implementation_Hours__c" data]) w.
Proof.
  unfold log_hours.
  apply wp_bind, wp_time_time. apply wp_bind, wp_get_world.
  change (create_timestamps (ticked w)) with (create_timestamps w).
  destruct (rate_limited (clock env (ticks w)) (create_timestamps w)) eqn:Erl.
  { apply wp_ret. now left. }
  destruct (given project_task) as [task|] eqn:Etask; [|apply wp_ret; now left].
  pose proof (try_resolve_calls env record_name_or_id (ticked w)) as Hres.
  unfold wp in Hres.
  apply wp_bind_run;
    [|intros e w1 E; rewrite E in Hres; left; apply Hres].
  intros [msg|record_id] w1 E; rewrite E in Hres; cbn [fst snd] in Hres;
    destruct Hres as [(_ & _ & Um & Utk) Hcalls];
    cbn [trace ticks ticked] in Um, Utk, Hcalls;
    [apply wp_ret; now left|].
  destruct (invalid_parts VALID_PROJECT_TASKS (split_parts task)) eqn:Einv;
    [|apply wp_ret; now left].
  destruct (project_type_error project_type) eqn:Ept; [apply wp_ret; now left|].
  destruct (record_stage_error record_stage) eqn:Ers; [apply wp_ret; now left|].
  assert (Hchecked : checked_hours task project_type record_stage).
  { split; [|split; [|split]].
    - unfold given in Etask. destruct project_task as [t|]; [|discriminate].
      destruct (PyStr.is_empty t) eqn:Et; [discriminate|]. congruence.
    - now apply ValidationFacts.invalid_parts_nil.
    - now apply checked_type.
    - now apply checked_stage. }
  assert (Hstep : forall (day : string) (w2 : World),
             trace w2 = trace w1 ->
             match given task_date with
             | Some d => day = d
             | None => exists k, ticks w < k /\ day = calendar env k
             end ->
             forall (data : dict json) (w3 w4 : World),
               data = opt_set "Record_Stage__c"
                        (option_map JStr (given record_stage))
                        (opt_set "Project_Type__c"
                           (option_map JStr (given project_type))
                           (Dict.set "Task_Date__c" (JStr day)
                              (opt_set "Notes__c"
                                 (option_map JStr (given notes))
                                 [ ("Implementation__c", record_id);
                                   ("Hours_Worked__c", JNum hours);
                                   ("Project_Task__c", JStr task) ]))) ->
               called (EvCreateRecord "Implementation_Hours__c" data) w2 w3 ->
               trace w4 = trace w3 ->
               wrote_nothing w w4
               \/ exists task' record_id' data' evs,
                    Some task = Some task'
                    /\ false = false
                    /\ checked_hours task' project_type record_stage
                    /\ fst (try_resolve env record_name_or_id (ticked w))
                       = Ret (inr record_id')
                    /\ logged_from env record_id' hours task' notes task_date
                         project_type record_stage w data'
                    /\ mutating_calls (trace w4)
                       = mutating_calls (trace w)
                         ++ EvCreateRecord "Implementation_Hours__c" data'
                            :: evs
                    /\ Forall (fun e => low_level e = true) evs
                    /\ client_calls (trace w4)
                       = client_calls (trace w)
                         ++ resolver_calls record_name_or_id
                         ++ [EvCreateRecord "Implementation_Hours__c" data']).
  { intros day w2 Hw2 Hday data w3 w4 Hdata Hc Hw4.
    pose proof (CalledFacts.called_client_calls (EvCreateRecord _ _) _ _
                  eq_refl Hc) as Hcc.
    apply EffectFacts.called_write in Hc as [_ (evs & Hm & Hlow)];
      [|reflexivity].
    right. exists task, record_id, data, evs.
    split; [reflexivity|]. split; [reflexivity|]. split; [exact Hchecked|].
    split; [now rewrite E|].
    split; [subst data; now apply logged_from_data|].
    split; [rewrite Hw4, Hm, Hw2, Um; reflexivity|].
    split; [exact Hlow|].
    rewrite Hw4, Hcc, Hw2, Hcalls, <- app_assoc. reflexivity. }
  assert (Hrest : forall (day : string) (w2 : World),
             trace w2 = trace w1 ->
             match given task_date with
             | Some d => day = d
             | None => exists k, ticks w < k /\ day = calendar env k
             end ->
             wp (resp <- create_record env "Implementation_Hours__c"
                           (opt_set "Record_Stage__c"
                              (option_map JStr (given record_stage))
                              (opt_set "Project_Type__c"
                                 (option_map JStr (given project_type))
                                 (Dict.set "Task_Date__c" (JStr day)
                                    (opt_set "Notes__c"
                                       (option_map JStr (given notes))
                                       [ ("Implementation__c", record_id);
                                         ("Hours_Worked__c", JNum hours);
                                         ("Project_Task__c", JStr task) ]))))
                 ;;
                 hours_id <- lift (Py.get resp "id" (JStr "unknown")) ;;
                 t <- time_time env ;;
                 append_timestamp t ;;;
                 ret ("Hours logged successfully." +++ newline
                      +++ "  Hours Record ID: " +++ py_str env hours_id
                      +++ newline
                      +++ "  Implementation: " +++ record_name_or_id
                      +++ " (ID: " +++ py_str env record_id +++ ")"
                      +++ newline
                      +++ "  Hours: " +++ num_str env hours +++ newline
                      +++ "  Task: " +++ task +++ newline
                      +++ "  Date: " +++ day
                      +++ match given notes with
                          | Some n => newline +++ "  Notes: " +++ n
                          | None => EmptyString
                          end))
                (fun _ w4 =>
                   wrote_nothing w w4
                   \/ exists task' record_id' data' evs,
                        Some task = Some task'
                        /\ false = false
                        /\ checked_hours task' project_type record_stage
                        /\ fst (try_resolve env record_name_or_id (ticked w))
                           = Ret (inr record_id')
                        /\ logged_from env record_id' hours task' notes
                             task_date project_type record_stage w data'
                        /\ mutating_calls (trace w4)
                           = mutating_calls (trace w)
                             ++ EvCreateRecord "Implementation_Hours__c" data'
                                :: evs
                        /\ Forall (fun e => low_level e = true) evs
                        /\ client_calls (trace w4)
                           = client_calls (trace w)
                             ++ resolver_calls record_name_or_id
                             ++ [EvCreateRecord "Implementation_Hours__c"
                                   data']) w2).
  { intros day w2 Hw2 Hday.
    eapply wp_bind_spec; [apply create_record_spec| |].
    - intros resp w3 [Hc _].
      apply wp_bind_lift; [intros hours_id _ | intros e _].
      + apply wp_bind, wp_time_time. apply wp_bind, wp_append_timestamp.
        apply wp_ret.
        exact (Hstep day w2 Hw2 Hday _ w3 _ eq_refl Hc eq_refl).
      + exact (Hstep day w2 Hw2 Hday _ w3 _ eq_refl Hc eq_refl).
    - intros e w3 [Hc _].
      exact (Hstep day w2 Hw2 Hday _ w3 _ eq_refl Hc eq_refl). }
  destruct (given task_date) as [d|].
  - apply wp_bind, wp_ret. apply Hrest; reflexivity.
  - apply wp_bind, wp_date_today. apply Hrest; [reflexivity|].
    exists (ticks w1). split; [exact Utk | reflexivity].
Qed.

End HoursFacts.

(** X11.  Whenever [log_hours] changes anything upstream, it does so by one
    [create_record] on [Implementation_Hours__c]; by then the rate limit was
    not reached, a task was given and each of its parts is a known task, and
    the project type and the record stage, when given, are on their lists.
    The record points to the id the resolver returned and carries the hours,
    the task, the notes, the type and the stage exactly as they were passed
    (the task as the caller wrote it, the hours unchecked); the date is the
    given one, else the day of the calendar; optional fields are present only
    when given.  The client calls of such a run are the resolver's lookup
    followed by the creation: [can_update] is not consulted. *)
Theorem log_hours_writes_what_it_checked (env : Env)
        (record_name_or_id : string) (hours : number)
        (project_task notes task_date project_type record_stage
           : option string) (w : World) :
  let run := log_hours env record_name_or_id hours project_task notes
               task_date project_type record_stage w in
  ~ wrote_nothing w (snd run) ->
  exists task record_id data evs,
    given project_task = Some task
    /\ rate_limited (clock env (ticks w)) (create_timestamps w) = false
    /\ checked_hours task project_type record_stage
    /\ fst (try_resolve env record_name_or_id (ticked w))
       = Ret (inr record_id)
    /\ logged_from env record_id hours task notes task_date project_type
         record_stage w data
    /\ mutating_calls (trace (snd run))
       = mutating_calls (trace w)
         ++ EvCreateRecord "Implementation_Hours__c" data :: evs
    /\ Forall (fun e => low_level e = true) evs
    /\ client_calls (trace (snd run))
       = client_calls (trace w)
         ++ resolver_calls record_name_or_id
         ++ [EvCreateRecord "Implementation_Hours__c" data].
Proof.
  intros run Hwrote.
  destruct (HoursFacts.log_hours_writes env record_name_or_id hours
              project_task notes task_date project_type record_stage w)
    as [H|H]; [contradiction | exact H].
Qed.

Lemma log_hours_writes_what_it_checked_witness :
  exists task record_id data evs,
    given (Some "POC; Sizing") = Some task
    /\ rate_limited (clock busy_env (ticks sample_world))
         (create_timestamps sample_world) = false
    /\ checked_hours task None (Some "Trial")
    /\ fst (try_resolve busy_env "IMPL-1" (ticked sample_world))
       = Ret (inr record_id)
    /\ logged_from busy_env record_id (NInt 2) task None None None
         (Some "Trial") sample_world data
    /\ mutating_calls
         (trace (snd (log_hours busy_env "IMPL-1" (NInt 2)
                        (Some "POC; Sizing") None None None (Some "Trial")
                        sample_world)))
       = mutating_calls (trace sample_world)
         ++ EvCreateRecord "Implementation_Hours__c" data :: evs
    /\ Forall (fun e => low_level e = true) evs
    /\ client_calls
         (trace (snd (log_hours busy_env "IMPL-1" (NInt 2)
                        (Some "POC; Sizing") None None None (Some "Trial")
                        sample_world)))
       = client_calls (trace sample_world)
         ++ resolver_calls "IMPL-1"
         ++ [EvCreateRecord "Implementation_Hours__c" data].
Proof.
  apply (log_hours_writes_what_it_checked busy_env "IMPL-1" (NInt 2)
           (Some "POC; Sizing") None None None (Some "Trial") sample_world).
  intros H. vm_compute in H. discriminate.
Defined.

(* ------------------------------------------------------------------ *)
(** * The reading tools *)

Module ReadFacts.
Import FrameFacts MethodFacts StepFacts.

Lemma lookup_In {V} (k : string) (d : dict V) (v : V) :
  Dict.lookup k d = Some v -> In (k, v) d.
Proof.
  induction d as [|[k' v'] r IH]; cbn [Dict.lookup]; [discriminate|].
  destruct (String.eqb_spec k k') as [->|_].
  - intros [= ->]. now left.
  - intros H. right. now apply IH.
Qed.

(** Each of the five canned queries is a [SELECT]. *)
Lemma canned_select (query_type soql : string) :
  Dict.lookup query_type queries = Some soql ->
  PyStr.startswith "SELECT" (PyStr.upper (PyStr.strip soql)) = true.
Proof.
  intros H. apply lookup_In in H.
  assert (Hall : forallb (fun kv : string * string =>
                            PyStr.startswith "SELECT"
                              (PyStr.upper (PyStr.strip (snd kv))))
                         queries = true) by (vm_compute; reflexivity).
  rewrite forallb_forall in Hall. exact (Hall _ H).
Qed.

Lemma query_then_format (env : Env) (query_type soql : string) (w : World) :
  wp (result <- query env soql ;;
      records <- lift (Py.get result "records" (JArr [])) ;;
      total <- lift (Py.get result "totalSize" (JNum (NInt 0))) ;;
      if Py.eq total (JNum (NInt 0)) then
        ret ("No results found for query type '" +++ query_type +++ "'.")
      else if String.eqb query_type "by_stage" then
        rows <- lift (Py.iter records) ;;
        lines <- lift (stage_lines env rows) ;;
        ret (PyStr.join newline
               (("Implementations by stage (" +++ py_str env total
                 +++ " groups):") :: lines))
      else
        rows <- lift (Py.iter records) ;;
        lines <- lift (record_lines env rows) ;;
        ret (PyStr.join newline
               (("Found " +++ py_str env total +++ " record(s):") :: lines)))
     (fun _ w' =>
        mutating_calls (trace w') = mutating_calls (trace w)
        /\ client_calls (trace w') = client_calls (trace w) ++ [EvQuery soql])
     w.
Proof.
  eapply wp_bind_spec; [apply query_spec| |].
  - intros result w1 [Hc _].
    assert (H : mutating_calls (trace w1) = mutating_calls (trace w)
                /\ client_calls (trace w1)
                   = client_calls (trace w) ++ [EvQuery soql]).
    { split; [exact (CalledFacts.called_writes (EvQuery _) _ _ eq_refl Hc)|].
      exact (CalledFacts.called_client_calls (EvQuery _) _ _ eq_refl Hc). }
    apply wp_bind_lift; [intros records _ | intros; exact H].
    apply wp_bind_lift; [intros total _ | intros; exact H].
    destruct (Py.eq total (JNum (NInt 0))); [apply wp_ret; exact H|].
    destruct (String.eqb query_type "by_stage");
      (apply wp_bind_lift; [intros rows _ | intros; exact H]);
      (apply wp_bind_lift; [intros lines _ | intros; exact H]);
      apply wp_ret; exact H.
  - intros e w1 [Hc _].
    split; [exact (CalledFacts.called_writes (EvQuery _) _ _ eq_refl Hc)|].
    exact (CalledFacts.called_client_calls (EvQuery _) _ _ eq_refl Hc).
Qed.

End ReadFacts.

(** X12.  [query_implementations] either answers with a text and leaves the
    world as it was, without any upstream call, or makes exactly one client
    call, a query, and writes nothing.  The query it sends is one of the
    five canned ones, or, for the type [custom], the caller's text as it was
    passed; in both cases the text, stripped and upper-cased, starts with
    [SELECT]. *)
Theorem query_implementations_sends_one_select (env : Env)
        (query_type : string) (custom_soql : option string) (w : World) :
  let run := query_implementations env query_type custom_soql w in
  (snd run = w /\ exists msg, fst run = Ret msg)
  \/ exists soql,
       client_calls (trace (snd run)) = client_calls (trace w) ++ [EvQuery soql]
       /\ mutating_calls (trace (snd run)) = mutating_calls (trace w)
       /\ PyStr.startswith "SELECT" (PyStr.upper (PyStr.strip soql)) = true
       /\ (if String.eqb query_type "custom" then custom_soql = Some soql
           else Dict.lookup query_type queries = Some soql).
Proof.
  intros run. subst run. unfold query_implementations, select_soql.
  destruct (String.eqb query_type "custom") eqn:Eq.
  - destruct (given custom_soql) as [soql|] eqn:Eg; [|left; split; [reflexivity | eexists; reflexivity]].
    destruct (PyStr.startswith "SELECT" (PyStr.upper (PyStr.strip soql)))
      eqn:Es; cbn [negb]; [|left; split; [reflexivity | eexists; reflexivity]].
    right. exists soql.
    destruct (ReadFacts.query_then_format env query_type soql w) as [Hm Hc].
    split; [exact Hc|]. split; [exact Hm|]. split; [exact Es|].
    exact (proj1 (proj1 (LifespanFacts.given_some _ _) Eg)).
  - destruct (Dict.lookup query_type queries) as [soql|] eqn:El;
      [|left; split; [reflexivity | eexists; reflexivity]].
    right. exists soql.
    destruct (ReadFacts.query_then_format env query_type soql w) as [Hm Hc].
    split; [exact Hc|]. split; [exact Hm|].
    split; [now apply (ReadFacts.canned_select query_type) | reflexivity].
Qed.

Module FormatFacts.

Lemma lookup_remove_other {V} (k k' : string) (d : dict V) :
  k' <> k -> Dict.lookup k' (Dict.remove k d) = Dict.lookup k' d.
Proof.
  intros Hne. induction d as [|[k1 v1] r IH]; [reflexivity|].
  cbn [Dict.remove Dict.lookup].
  destruct (String.eqb_spec k k1) as [->|Hk].
  - destruct (String.eqb_spec k' k1) as [->|_]; [contradiction | reflexivity].
  - cbn [Dict.lookup]. now rewrite IH.
Qed.

Lemma dict_get_same (r1 r2 : dict json) (k : string) (default : json) :
  same_display r1 r2 -> In k displayed_keys ->
  dict_get r1 k default = dict_get r2 k default.
Proof. intros H Hk. unfold dict_get. now rewrite (H k Hk). Qed.

Lemma format_same_display (env : Env) (r1 r2 : dict json) :
  same_display r1 r2 ->
  format_implementation env r1 = format_implementation env r2.
Proof.
  intros H. unfold format_implementation, relation_line.
  rewrite (dict_get_same r1 r2 "Name" _ H) by (vm_compute; tauto).
  rewrite (dict_get_same r1 r2 "Id" _ H) by (vm_compute; tauto).
  rewrite (dict_get_same r1 r2 "Account__r" _ H) by (vm_compute; tauto).
  rewrite (dict_get_same r1 r2 "Opportunity__r" _ H) by (vm_compute; tauto).
  do 3 f_equal.
  rewrite !flat_map_concat_map. f_equal. apply map_ext_in.
  intros [api_name label] Hin.
  rewrite (dict_get_same r1 r2 api_name _ H); [reflexivity|].
  unfold displayed_keys. right. right. apply in_or_app. left.
  change api_name with (fst (api_name, label)). now apply in_map.
Qed.

Lemma remove_same_display (key : string) (record : dict json) :
  ~ In key displayed_keys -> same_display (Dict.remove key record) record.
Proof.
  intros Hk k Hin. apply lookup_remove_other. intros ->. contradiction.
Qed.

End FormatFacts.

(** X13.  [format_implementation] reads the record only under the keys it
    displays: the name, the id, the twenty-two labelled fields and the two
    relationship fields.  Two records that agree on these give the same
    text, so removing any other key, as the tools do with [attributes],
    or reordering the record, changes nothing. *)
Theorem format_reads_displayed_keys (env : Env) (r1 r2 : dict json)
        (key : string) :
  same_display r1 r2 ->
  ~ In key displayed_keys ->
  format_implementation env r1 = format_implementation env r2
  /\ format_implementation env (Dict.remove key r1)
     = format_implementation env r2.
Proof.
  intros H Hk. split; [now apply FormatFacts.format_same_display|].
  rewrite (FormatFacts.format_same_display env _ r1
             (FormatFacts.remove_same_display key r1 Hk)).
  now apply FormatFacts.format_same_display.
Qed.

Lemma format_reads_displayed_keys_witness :
  format_implementation busy_env
    [("Name", JStr "IMPL-1"); ("attributes", JObj []); ("Id", JStr "a0B1")]
  = format_implementation busy_env
      [("Id", JStr "a0B1"); ("Name", JStr "IMPL-1"); ("CDE__c", JNull)]
  /\ format_implementation busy_env
       (Dict.remove "attributes"
          [("Name", JStr "IMPL-1"); ("attributes", JObj []);
           ("Id", JStr "a0B1")])
     = format_implementation busy_env
         [("Id", JStr "a0B1"); ("Name", JStr "IMPL-1"); ("CDE__c", JNull)].
Proof.
  apply (format_reads_displayed_keys busy_env
           [("Name", JStr "IMPL-1"); ("attributes", JObj []);
            ("Id", JStr "a0B1")]
           [("Id", JStr "a0B1"); ("Name", JStr "IMPL-1"); ("CDE__c", JNull)]
           "attributes").
  - intros k Hk. vm_compute in Hk.
    repeat (destruct Hk as [<-|Hk]; [reflexivity|]). contradiction.
  - vm_compute. intuition discriminate.
Defined.

(** X14.  [get_implementation] never writes.  When the resolver's
    [ValueError] is caught its message is the answer and no record is
    fetched; another exception of the resolver leaves the tool.  When the
    resolver returns an id, the tool fetches that record of
    [Implementation__c] once, asking for the fixed list of fields, and the
    answer is the record as returned, formatted: dropping [attributes]
    first makes no difference to the text. *)
Theorem get_implementation_outcomes (env : Env) (record_name_or_id : string)
        (w : World) :
  let run := get_implementation env record_name_or_id w in
  let resolved := try_resolve env record_name_or_id w in
  mutating_calls (trace (snd run)) = mutating_calls (trace w)
  /\ match fst resolved with
     | Ret (inl msg) =>
         fst run = Ret msg
         /\ client_calls (trace (snd run))
            = client_calls (trace w) ++ resolver_calls record_name_or_id
     | Ret (inr record_id) =>
         client_calls (trace (snd run))
         = client_calls (trace w) ++ resolver_calls record_name_or_id
           ++ [EvGetRecord "Implementation__c" record_id implementation_fields]
         /\ match fst (get_record env "Implementation__c" record_id
                         implementation_fields (snd resolved)) with
            | Ret (JObj kvs) => fst run = Ret (format_implementation env kvs)
            | Ret _ => exists e, fst run = Raise e
            | Raise e => fst run = Raise e
            end
     | Raise e =>
         fst run = Raise e
         /\ (forall m, e <> ValueError m)
         /\ client_calls (trace (snd run))
            = client_calls (trace w) ++ resolver_calls record_name_or_id
     end.
Proof.
  intros run resolved. subst run resolved.
  unfold get_implementation, bind.
  pose proof (HoursFacts.try_resolve_calls env record_name_or_id w) as Hres.
  pose proof (StepFacts.try_resolve_step env record_name_or_id w)
    as (_ & Hne & _).
  unfold wp in Hres.
  destruct (try_resolve env record_name_or_id w) as [[[msg|record_id]|e] w1];
    cbn [fst snd] in *; destruct Hres as [(_ & _ & Um & _) Hcalls].
  - split; [exact Um|]. split; [reflexivity | exact Hcalls].
  - pose proof (MethodFacts.get_record_spec env "Implementation__c" record_id
                  implementation_fields w1) as [Hc _].
    pose proof (CalledFacts.called_writes (EvGetRecord _ _ _) _ _ eq_refl Hc)
      as Hm.
    pose proof (CalledFacts.called_client_calls (EvGetRecord _ _ _) _ _
                  eq_refl Hc) as Hcc.
    destruct (get_record env "Implementation__c" record_id
                implementation_fields w1) as [[record|e] w2];
      cbn [fst snd] in *.
    + assert (Hw : snd (let (o, w') := lift (Py.pop record "attributes") w2 in
                        match o with
                        | Ret a => ret (format_implementation env a) w'
                        | Raise e => (Raise e, w')
                        end) = w2).
      { unfold lift, ret. destruct (Py.pop record "attributes"); reflexivity. }
      rewrite Hw. split; [congruence|].
      split; [rewrite Hcc, Hcalls, <- app_assoc; reflexivity|].
      destruct record; unfold lift, ret; cbn [Py.pop fst]; eauto.
      f_equal. apply FormatFacts.format_same_display.
      apply FormatFacts.remove_same_display. vm_compute. intuition discriminate.
    + split; [congruence|].
      split; [rewrite Hcc, Hcalls, <- app_assoc; reflexivity | reflexivity].
  - split; [exact Um|]. split; [reflexivity|]. split; [|exact Hcalls].
    intros m ->. now apply (Hne m).
Qed.

Module SessionWriteFacts.

Lemma low_level_filtered (evs : list Event) :
  Forall (fun e => low_level e = true) evs ->
  filter (fun e => negb (low_level e)) evs = [].
Proof.
  induction 1 as [|e l He _ IH]; [reflexivity|].
  cbn [filter]. now rewrite He.
Qed.

Lemma one_write (call : Event) (evs : list Event) (w w' : World) :
  low_level call = false ->
  mutating_calls (trace w') = mutating_calls (trace w) ++ call :: evs ->
  Forall (fun e => low_level e = true) evs ->
  write_calls (trace w') = write_calls (trace w) ++ [call].
Proof.
  intros Hc Hm Hlow. unfold write_calls. rewrite Hm, filter_app.
  cbn [filter]. rewrite Hc. cbn [negb].
  now rewrite (low_level_filtered _ Hlow).
Qed.

Lemma no_write (w w' : World) :
  untouched w w' -> write_calls (trace w') = write_calls (trace w).
Proof. intros (_ & _ & H & _). unfold write_calls. now rewrite H. Qed.

(** What one invocation writes. *)
Lemma tool_writes (env : Env) (c : ToolCall) (w : World) :
  let w' := snd (run_tool env c w) in
  write_calls (trace w') = write_calls (trace w)
  \/ (is_writing c = true
      /\ exists call, tool_write call = true
                      /\ write_calls (trace w')
                         = write_calls (trace w) ++ [call]).
Proof.
  destruct c; cbn [run_tool is_writing].
  - pose proof (EffectFacts.create_implementation_effects env opportunity_id
                  type contract_type contracted_hours features migration_type
                  w) as H.
    destruct H as [H | (_ & _ & d & evs & day & _ & _ & Hm & Hlow & _)];
      [left; now apply no_write|].
    right. split; [reflexivity|].
    exists (EvCreateRecord "Implementation__c" d). split; [reflexivity|].
    eapply one_write; [|exact Hm | exact Hlow]. reflexivity.
  - pose proof (EffectFacts.update_implementation_effects env
                  record_name_or_id updates w) as H.
    destruct H as [H | (_ & _ & rid & d & evs & Hm & Hlow & _)];
      [left; now apply no_write|].
    right. split; [reflexivity|].
    exists (EvUpdateRecord "Implementation__c" rid d). split; [reflexivity|].
    eapply one_write; [|exact Hm | exact Hlow]. reflexivity.
  - pose proof (EffectFacts.log_hours_effects env record_name_or_id hours
                  project_task notes task_date project_type record_stage w)
      as H.
    destruct H as [H | (_ & _ & d & evs & Hm & Hlow & _)];
      [left; now apply no_write|].
    right. split; [reflexivity|].
    exists (EvCreateRecord "Implementation_Hours__c" d). split; [reflexivity|].
    eapply one_write; [|exact Hm | exact Hlow]. reflexivity.
  - left. apply no_write.
    exact (EffectFacts.query_implementations_untouched env query_type
             custom_soql w).
  - left. apply no_write.
    exact (EffectFacts.get_implementation_untouched env record_name_or_id w).
Qed.

End SessionWriteFacts.

(** X15.  Over any session the write calls of the client only grow, by at
    most one for each [create_implementation], [update_implementation] or
    [log_hours] invocation and by none for the two reading tools; and every
    write added is a [create_record] on [Implementation__c] or
    [Implementation_Hours__c], or an [update_record] on
    [Implementation__c]. *)
Theorem session_writes_are_tool_writes (env : Env) (calls : list ToolCall)
        (w : World) :
  exists added,
    write_calls (trace (snd (run_session env calls w)))
    = write_calls (trace w) ++ added
    /\ List.length added <= List.length (filter is_writing calls)
    /\ forallb tool_write added = true.
Proof.
  revert w. induction calls as [|c rest IH]; intros w; cbn [run_session].
  - exists []. split; [now rewrite app_nil_r|].
    split; [apply Nat.le_refl | reflexivity].
  - pose proof (SessionWriteFacts.tool_writes env c w) as H1.
    cbv zeta in H1.
    destruct (run_tool env c w) as [r w1]. cbn [snd] in H1.
    destruct (IH w1) as (added & Ha & Hl & Hall).
    destruct (run_session env rest w1) as [rs w2]. cbn [snd] in *.
    cbn [filter].
    destruct H1 as [H1 | (Hc & call & Hcall & H1)].
    + exists added. rewrite Ha, H1. split; [reflexivity|].
      split; [|exact Hall].
      destruct (is_writing c); cbn [List.length]; lia.
    + exists (call :: added). rewrite Ha, H1, Hc, <- app_assoc.
      split; [reflexivity|].
      split; [cbn [List.length]; lia|].
      cbn [forallb]. now rewrite Hcall, Hall.
Qed.

(** X16.  The resolver on a name that is found.  When the stripped text is
    not an id and the lookup returns records, the answer is the [Id] of the
    first record, whatever follows it in the list; a first record without
    [Id] makes the resolver raise the subscript's exception.  The tools then
    work on that id. *)
Theorem resolver_returns_first_id (env : Env) (name_or_id : string)
        (w : World) (result row : json) (rest : list json) :
  let s := PyStr.strip name_or_id in
  let lookup := query env (name_lookup_soql s) w in
  looks_like_id s = false ->
  fst lookup = Ret result ->
  Py.get result "records" JNull = Ret (JArr (row :: rest)) ->
  resolve_implementation_id env name_or_id w
  = (Py.getitem row "Id", snd lookup)
  /\ (forall id, Py.getitem row "Id" = Ret id ->
                 try_resolve env name_or_id w = (Ret (inr id), snd lookup)).
Proof.
  intros s lookup Hid Hq Hrec.
  assert (Hrun : resolve_implementation_id env name_or_id w
                 = (Py.getitem row "Id", snd lookup)).
  { unfold resolve_implementation_id. fold s. rewrite Hid.
    unfold bind. fold lookup.
    destruct lookup as [[result'|e] w1]; cbn [fst snd] in *; [|discriminate].
    injection Hq as ->. unfold lift at 1. rewrite Hrec.
    cbn [Py.truthy negb]. unfold lift at 1.
    rewrite (UserFacts.get_then_getitem _ _ _ Hrec eq_refl).
    unfold lift. cbn [Py.first]. destruct (Py.getitem row "Id"); reflexivity. }
  split; [exact Hrun|].
  intros id Hrow. unfold try_resolve, except_ValueError, bind.
  rewrite Hrun, Hrow. reflexivity.
Qed.

Lemma resolver_returns_first_id_witness :
  resolve_implementation_id busy_env " IMPL-1 " sample_world
  = (Ret (JStr "006000000000001"),
     snd (query busy_env (name_lookup_soql "IMPL-1") sample_world))
  /\ (forall id,
         Ret (JStr "006000000000001") = Ret id ->
         try_resolve busy_env " IMPL-1 " sample_world
         = (Ret (inr id),
            snd (query busy_env (name_lookup_soql "IMPL-1") sample_world))).
Proof.
  exact (resolver_returns_first_id busy_env " IMPL-1 " sample_world
           (JObj [ ("totalSize", JNum (NInt 1));
                   ("records",
                    JArr [ JObj [ ("Id", JStr "006000000000001");
                                  ("AccountId", JStr "001000000000001");
                                  ("Account", JObj [("Name", JStr "Acme")]) ] ]) ])
           (JObj [ ("Id", JStr "006000000000001");
                   ("AccountId", JStr "001000000000001");
                   ("Account", JObj [("Name", JStr "Acme")]) ])
           [] eq_refl eq_refl eq_refl).
Defined.
